(** * Job matching and recommendation core (utils/jobRecommendation.js)

    A shallow embedding of [calculateMatchScore], [calculateTotalExperience],
    [getMatchReasons], [getJobRecommendations] and [getSimilarJobs], and the
    properties of the matching specification checked against it.

    JavaScript numbers are IEEE 754 binary64 values and are modelled by the
    primitive [float] type, so every arithmetic step rounds as it does in the
    program.  Strings are [string]s over ASCII; optional fields are [option]s.
    The clock read by [new Date()] is an explicit argument [now].  The
    document store behind the Mongoose models is an explicit [Database]
    value, and an awaited query resolves or rejects ([Outcome]). *)

From Stdlib Require Import ZArith List Bool Lia Ascii String Permutation Sorted.
From Stdlib Require Import Floats Uint63 DecimalString.
Import ListNotations.

Set Warnings "-inexact-float".

Local Open Scope Z_scope.

(** ** JavaScript numbers *)

Module JS.

(** An integer as a Number; exact for every integer below 2^53 in absolute
    value, which covers array lengths, calendar years and rounded scores. *)
Definition ofZ (z : Z) : float :=
  if z <? 0 then PrimFloat.opp (PrimFloat.of_uint63 (Uint63.of_Z (- z)))
  else PrimFloat.of_uint63 (Uint63.of_Z z).

Definition ofNat (n : nat) : float := ofZ (Z.of_nat n).

(** [x > y], [x >= y], [x < y] of the language: false when an operand is NaN. *)
Definition lt (x y : float) : bool := PrimFloat.ltb x y.
Definition gt (x y : float) : bool := PrimFloat.ltb y x.
Definition ge (x y : float) : bool := PrimFloat.leb y x.

(** ToBoolean on a Number: [0], [-0] and [NaN] are falsy. *)
Definition truthy (x : float) : bool :=
  negb (PrimFloat.is_nan x) && negb (PrimFloat.is_zero x).

(** [v || d] where [v] is a possibly missing numeric property. *)
Definition orNum (v : option float) (d : float) : float :=
  match v with
  | Some x => if truthy x then x else d
  | None => d
  end.

(** [Math.max(a, b)]: NaN if either argument is NaN. *)
Definition Math_max (a b : float) : float :=
  if PrimFloat.is_nan a || PrimFloat.is_nan b then PrimFloat.nan
  else if PrimFloat.ltb a b then b else a.

Definition Math_abs (x : float) : float := PrimFloat.abs x.

(** The integer [Math.round] yields on a finite argument: the nearest one,
    a tie going up.  A finite double is [m * 2^e]; with [e >= 0] it is an
    integer already, otherwise floor (x + 1/2) is computed exactly on the
    mantissa. *)
Definition roundZ (s : bool) (m : positive) (e : Z) : Z :=
  let n := if s then Z.neg m else Z.pos m in
  Z.shiftr (2 * n + 2 ^ (- e)) (- e + 1).

(** [Math.round(x)]; zeros, NaN and the infinities are returned unchanged.
    (The program rounds non-negative values only, so the sign of a zero
    result is not tracked.) *)
Definition Math_round (x : float) : float :=
  match Prim2SF x with
  | S754_finite s m e => if 0 <=? e then x else ofZ (roundZ s m e)
  | _ => x
  end.

(** Number to string inside a template literal, for the integer values the
    program prints (below 10^21, where the notation is plain decimal). *)
Definition Number_toString (x : float) : string :=
  match Prim2SF x with
  | S754_nan => "NaN"
  | S754_infinity s => if s then "-Infinity" else "Infinity"
  | S754_zero _ => "0"
  | S754_finite s m e =>
      let a := if 0 <=? e then Z.pos m * 2 ^ e else Z.shiftr (Z.pos m) (- e) in
      ((if s then "-" else "") ++ NilEmpty.string_of_uint (N.to_uint (Z.to_N a)))%string
  end.

(** ** JavaScript strings *)

Definition lowerAscii (c : ascii) : ascii :=
  let n := nat_of_ascii c in
  if (Nat.leb 65 n && Nat.leb n 90)%bool then ascii_of_nat (n + 32) else c.

(** [s.toLowerCase()] on ASCII text. *)
Fixpoint toLowerCase (s : string) : string :=
  match s with
  | EmptyString => EmptyString
  | String c r => String (lowerAscii c) (toLowerCase r)
  end.

(** [s.includes(t)]: [t] occurs in [s]; the empty string occurs everywhere. *)
Fixpoint includes (s t : string) : bool :=
  String.prefix t s ||
  match s with
  | EmptyString => false
  | String _ r => includes r t
  end.

(** ToBoolean on a string: only the empty string is falsy. *)
Definition nonEmpty (s : string) : bool :=
  match s with EmptyString => false | _ => true end.

(** [(v || '')] for a possibly missing string property. *)
Definition orEmpty (v : option string) : string :=
  match v with Some s => s | None => EmptyString end.

(** [xs.join(sep)]. *)
Fixpoint join (sep : string) (xs : list string) : string :=
  match xs with
  | [] => EmptyString
  | [x] => x
  | x :: r => (x ++ sep ++ join sep r)%string
  end.

(** [xs.slice(0, n)]: a negative [n] counts from the end of the array. *)
Definition slice0 {A} (xs : list A) (n : Z) : list A :=
  let len := Z.of_nat (List.length xs) in
  let final := if n <? 0 then Z.max (len + n) 0 else Z.min n len in
  firstn (Z.to_nat final) xs.

(** [xs.some(p)] and [xs.includes(x)] on arrays of strings. *)
Definition some {A} (p : A -> bool) (xs : list A) : bool := existsb p xs.
Definition arrayIncludes (xs : list string) (x : option string) : bool :=
  match x with
  | Some s => existsb (String.eqb s) xs
  | None => false
  end.

End JS.


(** ** Data model (models/Job.js, models/JobSeekerProfile.js, models/Application.js) *)

(** A [Date] as the program observes it: through [getFullYear()] and
    [getMonth()] (0 to 11), or invalid, as [new Date(undefined)] is. *)
Inductive Date :=
| InvalidDate
| DateAt (fullYear month day : Z).

Definition getFullYear (d : Date) : float :=
  match d with InvalidDate => PrimFloat.nan | DateAt y _ _ => JS.ofZ y end.

Definition getMonth (d : Date) : float :=
  match d with InvalidDate => PrimFloat.nan | DateAt _ m _ => JS.ofZ m end.

(** [new Date(v)] for a date field [v] of a document: [None] is a field
    that is absent ([undefined]), which gives an invalid date.  A field set
    to [null] is not absent: [new Date(null)] is the valid date
    1970-01-01, and such a field is [Some] of that date here (see
    [readDate]). *)
Definition newDate (v : option Date) : Date :=
  match v with Some d => d | None => InvalidDate end.

(** A date field as the document holds it, and what the program makes of
    it.  [epoch] is [new Date(null)] as [getFullYear()] and [getMonth()] show
    it at or east of Greenwich; west of it they show December 1969. *)
Inductive Field (A : Type) :=
| Undefined
| Null
| Value (a : A).
Arguments Undefined {A}.
Arguments Null {A}.
Arguments Value {A} a.

Definition epoch : Date := DateAt 1970 0 1.

Definition readDate (v : Field Date) : option Date :=
  match v with
  | Undefined => None
  | Null => Some epoch
  | Value d => Some d
  end.

Definition ObjectId := string.

(** [location] of a job ([city], [country], [remote]) and of a profile
    ([city], [country]; no [remote] flag is stored or read there). *)
Record Location := {
  city : option string;
  country : option string;
  remote : bool
}.

Module Salary.
Record t := { min : option float; max : option float }.
End Salary.

Module Requirements.
Record t := { skills : option (list string) }.
End Requirements.

Module Job.
Record t := {
  _id : ObjectId;
  title : option string;
  description : option string;
  requirements : option Requirements.t;
  jobType : option string;
  location : option Location;
  salary : option Salary.t;
  status : string;
  createdAt : Z  (* time value of the creation timestamp *)
}.
End Job.

Record Experience := {
  startDate : option Date;
  endDate : option Date;
  current : bool
}.

Record Education := { fieldOfStudy : option string }.

Module Profile.
Record t := {
  user : ObjectId;
  skills : option (list string);
  experience : option (list Experience);
  education : option (list Education);
  location : option Location;
  preferredJobTypes : option (list string);
  expectedSalary : option Salary.t
}.
End Profile.

Module Application.
Record t := { jobSeeker : ObjectId; job : ObjectId }.
End Application.

(** ** calculateTotalExperience *)

Local Open Scope float_scope.

Definition monthsOf (now : Date) (exp : Experience) : float :=
  let start := newDate (startDate exp) in
  let stop := if current exp then now else newDate (endDate exp) in
  (getFullYear stop - getFullYear start) * 12 + (getMonth stop - getMonth start).

Definition calculateTotalExperience (now : Date) (experience : option (list Experience)) : float :=
  match experience with
  | None => 0
  | Some [] => 0
  | Some exps =>
      let totalMonths :=
        fold_left (fun totalMonths exp => totalMonths + JS.Math_max 0 (monthsOf now exp)) exps 0 in
      totalMonths / 12
  end.

(** ** calculateMatchScore *)

(** [job.requirements?.skills || []] *)
Definition jobSkillsOf (job : Job.t) : list string :=
  match Job.requirements job with
  | Some r => match Requirements.skills r with Some l => l | None => [] end
  | None => []
  end.

(** [job.location?.remote] as a condition. *)
Definition isRemote (job : Job.t) : bool :=
  match Job.location job with Some l => remote l | None => false end.

Definition nonEmptyArray {A} (v : option (list A)) : bool :=
  match v with Some (_ :: _) => true | _ => false end.

Definition orNil {A} (v : option (list A)) : list A :=
  match v with Some l => l | None => [] end.

(** [xs.filter(x => ys.some(y => y.includes(x) || x.includes(y)))] *)
Definition matching (xs ys : list string) : list string :=
  filter (fun x => JS.some (fun y => JS.includes y x || JS.includes x y)%bool ys) xs.

(** 1. Skills match *)
Definition skillsApplies (job : Job.t) (profile : Profile.t) : bool :=
  nonEmptyArray (Profile.skills profile) && Nat.ltb 0 (List.length (jobSkillsOf job)).

Definition skillScore (job : Job.t) (profile : Profile.t) : float :=
  let profileSkills := map JS.toLowerCase (orNil (Profile.skills profile)) in
  let jobRequirements := map JS.toLowerCase (jobSkillsOf job) in
  let matchedSkills := matching profileSkills jobRequirements in
  (JS.ofNat (List.length matchedSkills)
     / JS.Math_max (JS.ofNat (List.length jobRequirements)) 1) * 100.

(** 2. Experience level match *)
Definition experienceApplies (profile : Profile.t) : bool :=
  nonEmptyArray (Profile.experience profile).

(** The lookup [jobTypeExpectation[key]] in the object literal, for the
    keys a job type can be (the schema's enum, or any other plain name). *)
Definition jobTypeExpectation (key : option string) : option float :=
  match key with
  | Some k =>
      if String.eqb k "full-time" then Some 2
      else if String.eqb k "part-time" then Some 1
      else if String.eqb k "contract" then Some 3
      else if String.eqb k "internship" then Some 0
      else if String.eqb k "temporary" then Some 1
      else None
  | None => None
  end.

(** [jobTypeExpectation[job.jobType] || 2] *)
Definition expectedYears (job : Job.t) : float :=
  JS.orNum (jobTypeExpectation (Job.jobType job)) 2.

Definition experienceScore (now : Date) (job : Job.t) (profile : Profile.t) : float :=
  let totalYears := calculateTotalExperience now (Profile.experience profile) in
  if JS.ge totalYears (expectedYears job) then 100
  else if JS.ge totalYears (expectedYears job * 0.5) then 70
  else 40.

(** 3. Education match *)
Definition educationApplies (profile : Profile.t) : bool :=
  nonEmptyArray (Profile.education profile).

Definition hasRelevantEducation (job : Job.t) (profile : Profile.t) : bool :=
  JS.some (fun edu =>
    let field := JS.toLowerCase (JS.orEmpty (fieldOfStudy edu)) in
    let title := JS.toLowerCase (JS.orEmpty (Job.title job)) in
    let description := JS.toLowerCase (JS.orEmpty (Job.description job)) in
    JS.includes title field
    || JS.includes description field
    || JS.includes field "computer"
    || JS.includes field "engineering"
    || JS.includes field "business")%bool
    (orNil (Profile.education profile)).

Definition educationScore (job : Job.t) (profile : Profile.t) : float :=
  if hasRelevantEducation job profile then 100 else 50.

(** 4. Location match *)
Definition locationApplies (profile : Profile.t) : bool :=
  match Profile.location profile with Some _ => true | None => false end.

Definition jobCityOf (job : Job.t) : string :=
  JS.toLowerCase (JS.orEmpty (match Job.location job with Some l => city l | None => None end)).

Definition jobCountryOf (job : Job.t) : string :=
  JS.toLowerCase (JS.orEmpty (match Job.location job with Some l => country l | None => None end)).

Definition locationScore (job : Job.t) (profile : Profile.t) : float :=
  match Profile.location profile with
  | None => 50
  | Some ploc =>
      let profileCity := JS.toLowerCase (JS.orEmpty (city ploc)) in
      let profileCountry := JS.toLowerCase (JS.orEmpty (country ploc)) in
      let jobCity := jobCityOf job in
      let jobCountry := jobCountryOf job in
      if isRemote job then 100
      else if (JS.nonEmpty profileCity && JS.nonEmpty jobCity)%bool then
        if (JS.includes jobCity profileCity || JS.includes profileCity jobCity)%bool then 100
        else if String.eqb jobCountry profileCountry then 70
        else 50
      else if (JS.nonEmpty profileCountry && JS.nonEmpty jobCountry
               && String.eqb profileCountry jobCountry)%bool then 70
      else 50
  end.

(** 5. Job type preference match *)
Definition jobTypeApplies (profile : Profile.t) : bool :=
  nonEmptyArray (Profile.preferredJobTypes profile).

Definition jobTypeScore (job : Job.t) (profile : Profile.t) : float :=
  let preferred := orNil (Profile.preferredJobTypes profile) in
  let jobTypeScore := 50 in
  let jobTypeScore :=
    if JS.arrayIncludes preferred (Job.jobType job) then 100 else jobTypeScore in
  let jobTypeScore :=
    if (JS.arrayIncludes preferred (Some "remote"%string) && isRemote job)%bool
    then 100 else jobTypeScore in
  jobTypeScore.

(** The two accumulators of [calculateMatchScore]. *)
Record Acc := { score : float; factors : float }.

(** [if (applies) { score += sub * weight; factors += weight; }] *)
Definition addFactor (applies : bool) (sub weight : float) (a : Acc) : Acc :=
  if applies
  then {| score := score a + sub * weight; factors := factors a + weight |}
  else a.

(** [score] and [factors] after the five factor blocks. *)
Definition accumulate (now : Date) (job : Job.t) (profile : Profile.t) : Acc :=
  let a := {| score := 0; factors := 0 |} in
  let a := addFactor (skillsApplies job profile) (skillScore job profile) 0.4 a in
  let a := addFactor (experienceApplies profile) (experienceScore now job profile) 0.2 a in
  let a := addFactor (educationApplies profile) (educationScore job profile) 0.15 a in
  let a := addFactor (locationApplies profile) (locationScore job profile) 0.15 a in
  let a := addFactor (jobTypeApplies profile) (jobTypeScore job profile) 0.1 a in
  a.

(** [if (factors > 0 && factors < 1) score = score / factors] *)
Definition normalize (a : Acc) : float :=
  if (JS.gt (factors a) 0 && JS.lt (factors a) 1)%bool
  then score a / factors a
  else score a.

Definition calculateMatchScore (now : Date) (job : Job.t) (profile : Profile.t) : float :=
  JS.Math_round (normalize (accumulate now job profile)).

(** ** getMatchReasons *)

(** [if (c) reasons.push(r)] *)
Definition pushIf (c : bool) (r : string) (reasons : list string) : list string :=
  if c then reasons ++ [r] else reasons.

Definition skillsReason (job : Job.t) (profile : Profile.t) (reasons : list string)
  : list string :=
  if skillsApplies job profile then
    let profileSkills := map JS.toLowerCase (orNil (Profile.skills profile)) in
    let jobRequirements := map JS.toLowerCase (jobSkillsOf job) in
    let matchedSkills := matching profileSkills jobRequirements in
    pushIf (Nat.ltb 0 (List.length matchedSkills))
      ("Skills match: " ++ JS.join ", " (JS.slice0 matchedSkills 3%Z)) reasons
  else reasons.

Definition experienceReason (now : Date) (profile : Profile.t) (reasons : list string)
  : list string :=
  if experienceApplies profile then
    let totalYears := calculateTotalExperience now (Profile.experience profile) in
    pushIf (JS.gt totalYears 0)
      (JS.Number_toString (JS.Math_round totalYears) ++ " years of experience") reasons
  else reasons.

Definition locationReason (job : Job.t) (profile : Profile.t) (reasons : list string)
  : list string :=
  if isRemote job then reasons ++ ["Remote work available"%string]
  else match Profile.location profile with
       | Some ploc =>
           let profileCity := JS.toLowerCase (JS.orEmpty (city ploc)) in
           let jobCity := jobCityOf job in
           pushIf (JS.nonEmpty profileCity && JS.nonEmpty jobCity
                   && (JS.includes jobCity profileCity || JS.includes profileCity jobCity))
             "Location matches preference" reasons
       | None => reasons
       end.

Definition jobTypeReason (job : Job.t) (profile : Profile.t) (reasons : list string)
  : list string :=
  if jobTypeApplies profile then
    pushIf (JS.arrayIncludes (orNil (Profile.preferredJobTypes profile)) (Job.jobType job))
      ("Matches preferred job type: " ++ JS.orEmpty (Job.jobType job)) reasons
  else reasons.

(** [profile.expectedSalary && job.salary && job.salary.min && job.salary.max],
    then [job.salary.max >= (profile.expectedSalary.min || 0)]. *)
Definition salaryInRange (job : Job.t) (profile : Profile.t) : bool :=
  match Profile.expectedSalary profile, Job.salary job with
  | Some expected, Some sal =>
      match Salary.min sal, Salary.max sal with
      | Some lo, Some hi =>
          JS.truthy lo && JS.truthy hi
          && JS.ge hi (JS.orNum (Salary.min expected) 0)
      | _, _ => false
      end
  | _, _ => false
  end.

Definition salaryReason (job : Job.t) (profile : Profile.t) (reasons : list string)
  : list string :=
  pushIf (salaryInRange job profile) "Salary in expected range" reasons.

Definition getMatchReasons (now : Date) (job : Job.t) (profile : Profile.t) : list string :=
  let reasons := [] in
  let reasons := skillsReason job profile reasons in
  let reasons := experienceReason now profile reasons in
  let reasons := locationReason job profile reasons in
  let reasons := jobTypeReason job profile reasons in
  let reasons := salaryReason job profile reasons in
  let reasons := pushIf (Nat.eqb (List.length reasons) 0) "New opportunity" reasons in
  reasons.

(** ** Arrays: [Array.prototype.sort] *)

(** [xs.sort(compareFn)] is a stable sort that looks only at the sign of
    [compareFn(a, b)]: [after a b] says that it is positive, so that [a]
    must come after [b].  Each element moves right, past the elements that
    followed it in the input, only while its comparison with them is
    positive. *)
Section ArraySort.
Context {A : Type} (after : A -> A -> bool).

Fixpoint insert (x : A) (l : list A) : list A :=
    match l with
    | [] => [x]
    | y :: r => if after x y then y :: insert x r else x :: y :: r
    end.

Definition Array_sort (l : list A) : list A := fold_right insert [] l.

  (** [a] may stand immediately before [b] in the sorted array. *)
Definition inOrder (a b : A) : Prop := after a b = false.
End ArraySort.

(** ** The document store *)

(** The result of an awaited promise. *)
Inductive Outcome (A : Type) :=
| Resolved (a : A)
| Rejected (error : string).
Arguments Resolved {A} a.
Arguments Rejected {A} error.

Definition bind {A B} (m : Outcome A) (k : A -> Outcome B) : Outcome B :=
  match m with
  | Resolved a => k a
  | Rejected e => Rejected e
  end.

Notation "x <- m ;; k" := (bind m (fun x => k))
  (at level 61, m at next level, right associativity).

(** [try { ... } catch (error) { console.error(...); throw error; }] *)
Definition rethrow {A} (m : Outcome A) : Outcome A :=
  match m with
  | Resolved a => Resolved a
  | Rejected e => Rejected e
  end.

Record Database := {
  connected : bool;
  jobs : list Job.t;
  profiles : list Profile.t;
  applications : list Application.t
}.

(** A query resolves with its result, or rejects when the store is unreachable. *)
Definition exec {A} (db : Database) (result : A) : Outcome A :=
  if connected db then Resolved result else Rejected "MongoNetworkError".

(** [.sort({ createdAt: -1 })] *)
Definition sortNewestFirst (l : list Job.t) : list Job.t :=
  Array_sort (fun a b => Z.ltb (Job.createdAt a) (Job.createdAt b)) l.

(** [.limit(n)] for a positive [n]: the first [n] documents.  ([0] sets no
    limit; a negative [n] asks for a single batch of at most [|n|]
    documents, of which this gives the upper bound.) *)
Definition queryLimit (n : Z) (l : list Job.t) : list Job.t :=
  if Z.eqb n 0 then l else firstn (Z.to_nat (Z.abs n)) l.

Definition isActive (j : Job.t) : bool := String.eqb (Job.status j) "active".

(** [JobSeekerProfile.findOne({ user: userId })] *)
Definition JobSeekerProfile_findOne (db : Database) (userId : ObjectId)
  : Outcome (option Profile.t) :=
  exec db (find (fun p => String.eqb (Profile.user p) userId) (profiles db)).

(** [Application.find({ jobSeeker: userId })] *)
Definition Application_find (db : Database) (userId : ObjectId)
  : Outcome (list Application.t) :=
  exec db (filter (fun a => String.eqb (Application.jobSeeker a) userId) (applications db)).

(** [Job.find({ status: 'active' }).sort({ createdAt: -1 }).limit(limit)] *)
Definition Job_findLatestActive (db : Database) (limit : Z) : Outcome (list Job.t) :=
  exec db (queryLimit limit (sortNewestFirst (filter isActive (jobs db)))).

(** [Job.find({ status: 'active', _id: { $nin: ids } })] *)
Definition Job_findActiveNotIn (db : Database) (ids : list ObjectId) : Outcome (list Job.t) :=
  exec db (filter (fun j => isActive j && negb (existsb (String.eqb (Job._id j)) ids))
             (jobs db)).

(** The id of a query is cast to an ObjectId before the query is sent: a
    string of 24 hexadecimal digits casts, any other string does not (older
    drivers also cast a string of 12 bytes).  Ids are kept here in the form
    in which the store prints them, with lower-case digits. *)
Definition isHexDigit (c : ascii) : bool :=
  let n := nat_of_ascii c in
  ((48 <=? n) && (n <=? 57) || (97 <=? n) && (n <=? 102) || (65 <=? n) && (n <=? 70))%nat.

Definition castsToObjectId (id : string) : bool :=
  (String.length id =? 24)%nat && forallb isHexDigit (list_ascii_of_string id).

(** [Job.findById(jobId)]: rejects with a CastError, before the store is
    asked, when [jobId] does not cast to an ObjectId. *)
Definition Job_findById (db : Database) (jobId : ObjectId) : Outcome (option Job.t) :=
  if castsToObjectId jobId
  then exec db (find (fun j => String.eqb (Job._id j) jobId) (jobs db))
  else Rejected "CastError".

(** [Job.find({ _id: { $ne: jobId }, status: 'active' })] *)
Definition Job_findOtherActive (db : Database) (jobId : ObjectId) : Outcome (list Job.t) :=
  exec db (filter (fun j => negb (String.eqb (Job._id j) jobId) && isActive j) (jobs db)).

(** ** getJobRecommendations *)

Record ScoredJob := {
  job : Job.t;
  matchScore : float;
  matchReasons : list string
}.

(** [(a, b) => b.matchScore - a.matchScore] is positive exactly when
    [a.matchScore < b.matchScore]: a difference of two doubles is zero only
    if they are equal, and a NaN difference counts as zero. *)
Definition byMatchScoreDesc (a b : ScoredJob) : bool :=
  JS.lt (matchScore a) (matchScore b).

Definition scoreJob (now : Date) (profile : Profile.t) (j : Job.t) : ScoredJob :=
  {| job := j;
     matchScore := calculateMatchScore now j profile;
     matchReasons := getMatchReasons now j profile |}.

Definition getJobRecommendations (now : Date) (db : Database) (userId : ObjectId) (limit : Z)
  : Outcome (list ScoredJob) :=
  rethrow (
    profile <- JobSeekerProfile_findOne db userId ;;
    match profile with
    | None =>
        jobs <- Job_findLatestActive db limit ;;
        Resolved (map (fun j => {| job := j; matchScore := 50;
                                   matchReasons := ["New job posting"%string] |}) jobs)
    | Some profile =>
        applications <- Application_find db userId ;;
        let appliedJobIds := map Application.job applications in
        jobs <- Job_findActiveNotIn db appliedJobIds ;;
        let scoredJobs := map (scoreJob now profile) jobs in
        let scoredJobs := Array_sort byMatchScoreDesc scoredJobs in
        Resolved (JS.slice0 scoredJobs limit)
    end).

(** ** getSimilarJobs *)

Definition sameJobType (job referenceJob : Job.t) : bool :=
  match Job.jobType job, Job.jobType referenceJob with
  | Some a, Some b => String.eqb a b
  | None, None => true
  | _, _ => false
  end.

Definition midpoint (s : Salary.t) : float :=
  (JS.orNum (Salary.min s) 0 + JS.orNum (Salary.max s) 0) / 2.

Definition similarityScore (job referenceJob : Job.t) : float :=
  let score := 0 in
  let score := if sameJobType job referenceJob then score + 30 else score in
  let jobSkills := jobSkillsOf job in
  let refSkills := jobSkillsOf referenceJob in
  let score :=
    if (Nat.ltb 0 (List.length jobSkills) && Nat.ltb 0 (List.length refSkills))%bool then
      let jobReqs := map JS.toLowerCase jobSkills in
      let refReqs := map JS.toLowerCase refSkills in
      let overlap := matching jobReqs refReqs in
      score + (JS.ofNat (List.length overlap)
                 / JS.Math_max (JS.ofNat (List.length refReqs)) 1) * 40
    else score in
  let score :=
    match Job.location job, Job.location referenceJob with
    | Some jloc, Some rloc =>
        let jobCity := JS.toLowerCase (JS.orEmpty (city jloc)) in
        let refCity := JS.toLowerCase (JS.orEmpty (city rloc)) in
        if (JS.nonEmpty jobCity && JS.nonEmpty refCity && String.eqb jobCity refCity)%bool
        then score + 15
        else if (remote jloc && remote rloc)%bool then score + 15
        else score
    | _, _ => score
    end in
  let score :=
    match Job.salary job, Job.salary referenceJob with
    | Some jsal, Some rsal =>
        let jobMid := midpoint jsal in
        let refMid := midpoint rsal in
        if (JS.gt refMid 0 && JS.lt (JS.Math_abs (jobMid - refMid) / refMid) 0.3)%bool
        then score + 15 else score
    | _, _ => score
    end in
  score.

Record Similar := { candidate : Job.t; similarity : float }.

(** [(a, b) => b.score - a.score], read as [byMatchScoreDesc] is. *)
Definition bySimilarityDesc (a b : Similar) : bool :=
  JS.lt (similarity a) (similarity b).

Definition getSimilarJobs (db : Database) (jobId : ObjectId) (limit : Z)
  : Outcome (list Job.t) :=
  rethrow (
    referenceJob <- Job_findById db jobId ;;
    match referenceJob with
    | None => Resolved []
    | Some referenceJob =>
        jobs <- Job_findOtherActive db jobId ;;
        let scoredJobs :=
          map (fun j => {| candidate := j; similarity := similarityScore j referenceJob |})
            jobs in
        let scoredJobs := Array_sort bySimilarityDesc scoredJobs in
        Resolved (map candidate (JS.slice0 scoredJobs limit))
    end).

(** Which of the five factor blocks ran, in program order. *)
Definition applied (job : Job.t) (profile : Profile.t) : list bool :=
  [ skillsApplies job profile; experienceApplies profile; educationApplies profile;
    locationApplies profile; jobTypeApplies profile ].

(** ** Sample documents *)

Local Open Scope string_scope.

Definition bareJob : Job.t :=
  {| Job._id := "job-0"; Job.title := None; Job.description := None;
     Job.requirements := None; Job.jobType := None; Job.location := None;
     Job.salary := None; Job.status := "active"; Job.createdAt := 0%Z |}.

Definition bareProfile : Profile.t :=
  {| Profile.user := "user-0"; Profile.skills := None; Profile.experience := None;
     Profile.education := None; Profile.location := None;
     Profile.preferredJobTypes := None; Profile.expectedSalary := None |}.

(** A full-time job asking for one skill. *)
Definition reactJob : Job.t :=
  {| Job._id := "job-1"; Job.title := Some "Frontend Developer";
     Job.description := Some "Build user interfaces";
     Job.requirements := Some {| Requirements.skills := Some ["React"] |};
     Job.jobType := Some "full-time"; Job.location := None;
     Job.salary := None; Job.status := "active"; Job.createdAt := 0%Z |}.

(** A seeker listing two skills, both of which contain the job's one. *)
Definition reactProfile : Profile.t :=
  {| Profile.user := "user-1"; Profile.skills := Some ["React"; "React Native"];
     Profile.experience := None; Profile.education := None; Profile.location := None;
     Profile.preferredJobTypes := None; Profile.expectedSalary := None |}.

(** A job of the given employment type and nothing else. *)
Definition jobOfType (t : option string) : Job.t :=
  {| Job._id := "job-t"; Job.title := None; Job.description := None;
     Job.requirements := None; Job.jobType := t; Job.location := None;
     Job.salary := None; Job.status := "active"; Job.createdAt := 0%Z |}.

Definition internJob : Job.t :=
  {| Job._id := "job-2"; Job.title := Some "Intern"; Job.description := Some "Summer";
     Job.requirements := None; Job.jobType := Some "internship"; Job.location := None;
     Job.salary := None; Job.status := "active"; Job.createdAt := 0%Z |}.

(** One past position, January to July 2024. *)
Definition halfYearProfile : Profile.t :=
  {| Profile.user := "user-2"; Profile.skills := None;
     Profile.experience :=
       Some [ {| startDate := Some (DateAt 2024 0 15);
                 endDate := Some (DateAt 2024 6 15); current := false |} ];
     Profile.education := None; Profile.location := None;
     Profile.preferredJobTypes := None; Profile.expectedSalary := None |}.

(** One position held since January 2024 and marked current. *)
Definition employedProfile : Profile.t :=
  {| Profile.user := "user-3"; Profile.skills := None;
     Profile.experience :=
       Some [ {| startDate := Some (DateAt 2024 0 15); endDate := None; current := true |} ];
     Profile.education := None; Profile.location := None;
     Profile.preferredJobTypes := None; Profile.expectedSalary := None |}.

Definition jun2025 : Date := DateAt 2025 5 30.
Definition dec2025 : Date := DateAt 2025 11 31.
Definition jan2026 : Date := DateAt 2026 0 1.

(** A job listing two skills that both contain [reactJob]'s one. *)
Definition fullStackJob : Job.t :=
  {| Job._id := "job-3"; Job.title := Some "Mobile Developer";
     Job.description := Some "Ship the mobile client";
     Job.requirements := Some {| Requirements.skills := Some ["React"; "React Native"] |};
     Job.jobType := Some "full-time"; Job.location := None;
     Job.salary := None; Job.status := "active"; Job.createdAt := 0%Z |}.

(** ** The similarity score, term by term

    The four terms as the specification words them; a term that does not
    apply is absent, and the score is the sum of those present. *)

(** +30 if the employment type matches exactly. *)
Definition typeTerm (job referenceJob : Job.t) : option float :=
  if sameJobType job referenceJob then Some 30%float else None.

(** 40 times the number of the candidate's skills that match a reference
    skill (either contains the other, case-insensitively), over the number
    of reference skills; present when both jobs list skills. *)
Definition skillsTerm (job referenceJob : Job.t) : option float :=
  match jobSkillsOf job, jobSkillsOf referenceJob with
  | _ :: _, _ :: _ =>
      let overlap :=
        matching (map JS.toLowerCase (jobSkillsOf job))
                 (map JS.toLowerCase (jobSkillsOf referenceJob)) in
      Some ((JS.ofNat (List.length overlap)
               / JS.Math_max (JS.ofNat (List.length (jobSkillsOf referenceJob))) 1)
            * 40)%float
  | _, _ => None
  end.

(** Both jobs name a city and the two are equal up to letter case. *)
Definition sameCity (job referenceJob : Job.t) : bool :=
  match Job.location job, Job.location referenceJob with
  | Some jloc, Some rloc =>
      match city jloc, city rloc with
      | Some a, Some b =>
          JS.nonEmpty a && JS.nonEmpty b
          && String.eqb (JS.toLowerCase a) (JS.toLowerCase b)
      | _, _ => false
      end
  | _, _ => false
  end.

(** +15 if the cities match or both jobs are remote. *)
Definition locationTerm (job referenceJob : Job.t) : option float :=
  if sameCity job referenceJob || (isRemote job && isRemote referenceJob)
  then Some 15%float else None.

(** +15 if the salary midpoints differ by less than 30% of the reference
    midpoint; skipped when that midpoint is not positive. *)
Definition salaryTerm (job referenceJob : Job.t) : option float :=
  match Job.salary job, Job.salary referenceJob with
  | Some jsal, Some rsal =>
      if JS.gt (midpoint rsal) 0
         && JS.lt (JS.Math_abs (midpoint jsal - midpoint rsal) / midpoint rsal)%float 0.3
      then Some 15%float else None
  | _, _ => None
  end.

Definition sumTerms (terms : list (option float)) : float :=
  fold_left (fun total t => match t with Some x => (total + x)%float | None => total end)
    terms 0%float.

(** ** The salary reason, as the specification words it *)

(** The profile has an expected salary, the job has both [salary.min] and
    [salary.max], and [salary.max >= expectedSalary.min] (0 when absent). *)
Definition salaryReasonAsStated (job : Job.t) (profile : Profile.t) : bool :=
  match Profile.expectedSalary profile, Job.salary job with
  | Some expected, Some sal =>
      match Salary.min sal, Salary.max sal with
      | Some lo, Some hi => JS.ge hi (JS.orNum (Salary.min expected) 0)
      | _, _ => false
      end
  | _, _ => false
  end.

(** The profile with another expected maximum salary. *)
Definition withExpectedMax (profile : Profile.t) (m : option float) : Profile.t :=
  {| Profile.user := Profile.user profile;
     Profile.skills := Profile.skills profile;
     Profile.experience := Profile.experience profile;
     Profile.education := Profile.education profile;
     Profile.location := Profile.location profile;
     Profile.preferredJobTypes := Profile.preferredJobTypes profile;
     Profile.expectedSalary :=
       match Profile.expectedSalary profile with
       | Some e => Some {| Salary.min := Salary.min e; Salary.max := m |}
       | None => None
       end |}.

Definition salaryReasonText : string := "Salary in expected range".

(** A job paying from 0 up to 50000. *)
Definition commissionJob : Job.t :=
  {| Job._id := "job-4"; Job.title := Some "Sales Agent";
     Job.description := Some "Commission based";
     Job.requirements := None; Job.jobType := Some "contract"; Job.location := None;
     Job.salary := Some {| Salary.min := Some 0%float; Salary.max := Some 50000%float |};
     Job.status := "active"; Job.createdAt := 0%Z |}.

(** A job paying 90000 to 120000. *)
Definition seniorJob : Job.t :=
  {| Job._id := "job-5"; Job.title := Some "Principal Architect";
     Job.description := Some "Lead the platform";
     Job.requirements := None; Job.jobType := Some "full-time"; Job.location := None;
     Job.salary := Some {| Salary.min := Some 90000%float; Salary.max := Some 120000%float |};
     Job.status := "active"; Job.createdAt := 0%Z |}.

(** A seeker expecting between 30000 and 60000. *)
Definition modestProfile : Profile.t :=
  {| Profile.user := "user-4"; Profile.skills := None; Profile.experience := None;
     Profile.education := None; Profile.location := None;
     Profile.preferredJobTypes := None;
     Profile.expectedSalary :=
       Some {| Salary.min := Some 30000%float; Salary.max := Some 60000%float |} |}.

(** ** The candidate set *)

(** The ids of the jobs the user has applied to:
    [applications.map(app => app.job.toString())]. *)
Definition appliedJobIds (db : Database) (userId : ObjectId) : list ObjectId :=
  map Application.job
    (filter (fun a => String.eqb (Application.jobSeeker a) userId) (applications db)).

(** The active jobs the user has not applied to, in the order of the store. *)
Definition candidateJobs (db : Database) (userId : ObjectId) : list Job.t :=
  filter (fun j => isActive j && negb (existsb (String.eqb (Job._id j)) (appliedJobIds db userId)))
    (jobs db).

(** [a] was created no earlier than [b]. *)
Definition newerOrEqual (a b : Job.t) : Prop := (Job.createdAt b <= Job.createdAt a)%Z.

(** No entry is directly followed by one with a strictly greater score. *)
Definition scoreNotBelow (a b : ScoredJob) : Prop :=
  JS.lt (matchScore a) (matchScore b) = false.

(** A job posting with the given id, status, creation time and skills. *)
Definition posting (id status : string) (created : Z) (skills : list string) : Job.t :=
  {| Job._id := id; Job.title := Some "Developer"; Job.description := Some "Write software";
     Job.requirements := Some {| Requirements.skills := Some skills |};
     Job.jobType := Some "full-time"; Job.location := None; Job.salary := None;
     Job.status := status; Job.createdAt := created |}.

(** Four postings, one of them closed; [user-1] has a profile and has
    applied to [job-b]; [user-9] has no profile. *)
Definition sampleDb : Database :=
  {| connected := true;
     jobs := [ posting "job-a" "active" 100 ["React"];
               posting "job-b" "active" 300 ["React"; "Redux"];
               posting "job-c" "closed" 400 ["React"];
               posting "job-d" "active" 200 ["Go"] ];
     profiles := [ reactProfile ];
     applications := [ {| Application.jobSeeker := "user-1"; Application.job := "job-b" |} ] |}.

(** A profile with the given skills and a single past position that began
    in January 2020 and ended [months] months later. *)
Definition seeker (skills : list string) (months : Z) : Profile.t :=
  {| Profile.user := "user-5"; Profile.skills := Some skills;
     Profile.experience :=
       Some [ {| startDate := Some (DateAt 2020 0 1);
                 endDate := Some (DateAt (2020 + months / 12) (months mod 12) 1);
                 current := false |} ];
     Profile.education := None; Profile.location := None;
     Profile.preferredJobTypes := None; Profile.expectedSalary := None |}.

(** ** Whole numbers among the doubles *)

(** The integer a double denotes, when it denotes one. *)
Definition integerOf (x : float) : option Z :=
  match Prim2SF x with
  | S754_zero _ => Some 0%Z
  | S754_finite s m e =>
      let n := if s then Z.neg m else Z.pos m in
      if (0 <=? e)%Z then Some (n * 2 ^ e)%Z
      else if (Z.land (Z.pos m) (2 ^ (- e) - 1) =? 0)%Z then Some (Z.shiftr n (- e))
      else None
  | _ => None
  end.

(** [x] is the double of an integer between [lo] and [hi]. *)
Definition wholeBetween (lo hi : Z) (x : float) : bool :=
  match integerOf x with
  | Some z => (lo <=? z)%Z && (z <=? hi)%Z && PrimFloat.Leibniz.eqb x (JS.ofZ z)
  | None => false
  end.

(** Ten years at one employer, then a position without the current flag and
    with the given end date field. *)
Definition tenYearsAnd (stop : Field Date) : Profile.t :=
  {| Profile.user := "user-6"; Profile.skills := None;
     Profile.experience :=
       Some [ {| startDate := readDate (Value (DateAt 2010 0 1));
                 endDate := readDate (Value (DateAt 2020 0 1)); current := false |};
              {| startDate := readDate (Value (DateAt 2020 1 1));
                 endDate := readDate stop; current := false |} ];
     Profile.education := None; Profile.location := None;
     Profile.preferredJobTypes := None; Profile.expectedSalary := None |}.

(** Ten years at one employer, then a position with neither an end date nor
    the current flag. *)
Definition openEndedProfile : Profile.t :=
  {| Profile.user := "user-6"; Profile.skills := None;
     Profile.experience :=
       Some [ {| startDate := Some (DateAt 2010 0 1);
                 endDate := Some (DateAt 2020 0 1); current := false |};
              {| startDate := Some (DateAt 2020 1 1); endDate := None; current := false |} ];
     Profile.education := None; Profile.location := None;
     Profile.preferredJobTypes := None; Profile.expectedSalary := None |}.

(** ** Documents with one field replaced *)

Definition withJobSalary (job : Job.t) (s : option Salary.t) : Job.t :=
  {| Job._id := Job._id job; Job.title := Job.title job;
     Job.description := Job.description job; Job.requirements := Job.requirements job;
     Job.jobType := Job.jobType job; Job.location := Job.location job;
     Job.salary := s; Job.status := Job.status job; Job.createdAt := Job.createdAt job |}.

Definition withExpectedSalary (profile : Profile.t) (s : option Salary.t) : Profile.t :=
  {| Profile.user := Profile.user profile; Profile.skills := Profile.skills profile;
     Profile.experience := Profile.experience profile;
     Profile.education := Profile.education profile;
     Profile.location := Profile.location profile;
     Profile.preferredJobTypes := Profile.preferredJobTypes profile;
     Profile.expectedSalary := s |}.

Definition withApplications (db : Database) (apps : list Application.t) : Database :=
  {| connected := connected db; jobs := jobs db; profiles := profiles db;
     applications := apps |}.

(** A degree entered without a field of study. *)
Definition graduateProfile : Profile.t :=
  {| Profile.user := "user-7"; Profile.skills := Some ["Go"; "Rust"];
     Profile.experience := None;
     Profile.education := Some [ {| fieldOfStudy := None |} ];
     Profile.location := None; Profile.preferredJobTypes := None;
     Profile.expectedSalary := None |}.

(** A posting whose skill list contains a blank entry. *)
Definition blankSkillJob : Job.t := posting "job-6" "active" 500 ["Cobol"; ""].

(** A remote posting in Berlin, and a seeker living there. *)
Definition remoteJob : Job.t :=
  {| Job._id := "job-7"; Job.title := Some "Support Engineer";
     Job.description := Some "Help customers";
     Job.requirements := None; Job.jobType := Some "full-time";
     Job.location := Some {| city := Some "Berlin"; country := Some "Germany";
                             remote := true |};
     Job.salary := None; Job.status := "active"; Job.createdAt := 600%Z |}.

Definition berlinProfile : Profile.t :=
  {| Profile.user := "user-8"; Profile.skills := None; Profile.experience := None;
     Profile.education := None;
     Profile.location := Some {| city := Some "Berlin"; country := Some "Germany";
                                 remote := false |};
     Profile.preferredJobTypes := None; Profile.expectedSalary := None |}.

(** ** The similarity candidates *)

(** The active jobs other than the reference job, in the order of the store. *)
Definition otherActiveJobs (db : Database) (jobId : ObjectId) : list Job.t :=
  filter (fun j => negb (String.eqb (Job._id j) jobId) && isActive j) (jobs db).

(** No entry is directly followed by one with a strictly greater similarity. *)
Definition similarityNotBelow (a b : Similar) : Prop :=
  JS.lt (similarity a) (similarity b) = false.

(** The store when it cannot be reached. *)
Definition unreachable (db : Database) : Database :=
  {| connected := false; jobs := jobs db; profiles := profiles db;
     applications := applications db |}.

(** A store whose job ids are ObjectIds: three active postings and a closed
    one. *)
Definition catalogue : Database :=
  {| connected := true;
     jobs := [ posting "64b7f0c2a1d3e4f5a6b7c801" "active" 100 ["React"];
               posting "64b7f0c2a1d3e4f5a6b7c802" "active" 300 ["React"; "Redux"];
               posting "64b7f0c2a1d3e4f5a6b7c803" "closed" 400 ["React"];
               posting "64b7f0c2a1d3e4f5a6b7c804" "active" 200 ["Go"] ];
     profiles := []; applications := [] |}.

(** [user-9], who has no profile, has applied to the newest active job. *)
Definition coldStartApplications : list Application.t :=
  [ {| Application.jobSeeker := "user-9"; Application.job := "job-b" |} ].

(** ** Profile completion (models/JobSeekerProfile.js, models/EmployerProfile.js) *)

(** ToBoolean on a possibly missing string property. *)
Definition present (v : option string) : bool :=
  match v with Some s => JS.nonEmpty s | None => false end.

(** [completed++] for every item that holds, then
    [Math.round((completed / total) * 100)]. *)
Definition completionOf (items : list bool) (total : float) : float :=
  let completed :=
    fold_left (fun (completed : float) (item : bool) =>
                 if item then (completed + 1)%float else completed)
      items 0%float in
  JS.Math_round ((completed / total) * 100)%float.

(** A job seeker's profile document: the fields the matcher reads, and the
    further ones [calculateCompletion] looks at. *)
Module SeekerDocument.
Record t := {
  profile : Profile.t;
  firstName : option string;
  lastName : option string;
  phone : option string;
  resumeUrl : option string;
  bio : option string
}.

Definition items (doc : t) : list bool :=
  [ present (firstName doc) && present (lastName doc);
    present (phone doc);
    present (match Profile.location (profile doc) with
             | Some l => city l
             | None => None
             end);
    nonEmptyArray (Profile.skills (profile doc));
    nonEmptyArray (Profile.experience (profile doc));
    nonEmptyArray (Profile.education (profile doc));
    present (resumeUrl doc);
    present (bio doc) ].

Definition calculateCompletion (doc : t) : float := completionOf (items doc) 8.

(** The value the pre-save hook stores in [isProfileComplete]. *)
Definition isProfileComplete (doc : t) : bool := JS.ge (calculateCompletion doc) 75.
End SeekerDocument.

Module EmployerDocument.
Record t := {
  companyName : option string;
  industry : option string;
  companySize : option string;
  locationCity : option (option string);  (* [location], then its [city] *)
  description : option string;
  contactPersonName : option (option string);  (* [contactPerson], then its [name] *)
  logo : option string
}.

(** [this.location?.city] and [this.contactPerson?.name] *)
Definition chained (v : option (option string)) : option string :=
  match v with Some inner => inner | None => None end.

Definition items (doc : t) : list bool :=
  [ present (companyName doc);
    present (industry doc);
    present (companySize doc);
    present (chained (locationCity doc));
    present (description doc);
    present (chained (contactPersonName doc));
    present (logo doc) ].

Definition calculateCompletion (doc : t) : float := completionOf (items doc) 7.

Definition isProfileComplete (doc : t) : bool := JS.ge (calculateCompletion doc) 70.
End EmployerDocument.

(** How many items hold. *)
Definition countTrue (items : list bool) : nat := List.length (filter id items).

(** ** Notifications (models/Notification.js, utils/notifications.js) *)

Module Notification.
Record t := {
  recipient : ObjectId;
  type : string;
  title : string;
  message : string;
  relatedJob : option ObjectId;
  relatedApplication : option ObjectId;
  relatedUser : option ObjectId;
  link : option string
}.

(** The [enum] of the schema's [type] path. *)
Definition types : list string :=
  [ "application_received"; "application_status"; "application_shortlisted";
    "application_rejected"; "interview_scheduled"; "interview_reminder";
    "feedback_received"; "job_recommendation"; "job_expired"; "profile_view";
    "welcome"; "course_inquiry" ].

(** Schema validation: [type] is one of the enumerated values, and the
    required strings [title] and [message] are not empty.  (The recipient is
    an id and so present.) *)
Definition valid (n : t) : bool :=
  existsb (String.eqb (type n)) types && JS.nonEmpty (title n) && JS.nonEmpty (message n).
End Notification.

(** The notifications collection. *)
Record Notifications := {
  reachable : bool;
  stored : list Notification.t
}.

(** [Notification.create(doc)]: validation first, then the insertion. *)
Definition Notification_create (store : Notifications) (doc : Notification.t)
  : Outcome Notification.t * Notifications :=
  if negb (Notification.valid doc) then (Rejected "ValidationError", store)
  else if reachable store
       then (Resolved doc, {| reachable := true; stored := stored store ++ [doc] |})
       else (Rejected "MongoNetworkError", store).

(** [createNotification(options)]: the created document, or [null] after
    logging whatever [create] threw. *)
Definition createNotification (store : Notifications) (options : Notification.t)
  : option Notification.t * Notifications :=
  match Notification_create store options with
  | (Resolved notification, store') => (Some notification, store')
  | (Rejected _, store') => (None, store')
  end.

Definition notifyApplicationReceived (store : Notifications)
    (employerId jobSeekerId jobId applicationId : ObjectId) (jobTitle applicantName : string) :=
  createNotification store
    {| Notification.recipient := employerId;
       Notification.type := "application_received";
       Notification.title := "New Application Received";
       Notification.message := applicantName ++ " has applied for " ++ jobTitle;
       Notification.relatedJob := Some jobId;
       Notification.relatedApplication := Some applicationId;
       Notification.relatedUser := Some jobSeekerId;
       Notification.link := Some "/dashboard/employer/applications" |}.

(** [statusMessages[status]], for a status of the application schema. *)
Definition statusMessages (jobTitle companyName status : string) : option string :=
  if String.eqb status "reviewed" then
    Some ("Your application for " ++ jobTitle ++ " at " ++ companyName ++ " has been reviewed")
  else if String.eqb status "shortlisted" then
    Some ("Great news! You've been shortlisted for " ++ jobTitle ++ " at " ++ companyName)
  else if String.eqb status "interview" then
    Some ("You've been selected for an interview for " ++ jobTitle ++ " at " ++ companyName)
  else if String.eqb status "rejected" then
    Some ("Your application for " ++ jobTitle ++ " at " ++ companyName ++ " was not selected")
  else if String.eqb status "hired" then
    Some ("Congratulations! You've been hired for " ++ jobTitle ++ " at " ++ companyName)
  else None.

(** [statusTitles[status]] *)
Definition statusTitles (status : string) : option string :=
  if String.eqb status "reviewed" then Some "Application Reviewed"
  else if String.eqb status "shortlisted" then Some "You've Been Shortlisted!"
  else if String.eqb status "interview" then Some "Interview Invitation"
  else if String.eqb status "rejected" then Some "Application Update"
  else if String.eqb status "hired" then Some "Congratulations!"
  else None.

(** [v || d] on a possibly missing string. *)
Definition orString (v : option string) (d : string) : string :=
  match v with
  | Some s => if JS.nonEmpty s then s else d
  | None => d
  end.

Definition notifyApplicationStatus (store : Notifications)
    (jobSeekerId applicationId jobId : ObjectId) (jobTitle companyName status : string) :=
  createNotification store
    {| Notification.recipient := jobSeekerId;
       Notification.type :=
         if String.eqb status "shortlisted" then "application_shortlisted"
         else if String.eqb status "rejected" then "application_rejected"
         else "application_status";
       Notification.title := orString (statusTitles status) "Application Update";
       Notification.message :=
         orString (statusMessages jobTitle companyName status)
           ("Your application status has been updated to " ++ status);
       Notification.relatedJob := Some jobId;
       Notification.relatedApplication := Some applicationId;
       Notification.relatedUser := None;
       Notification.link := Some "/applications" |}.

(** [formattedDate] stands for the [toLocaleDateString] rendering of the
    interview date. *)
Definition notifyInterviewScheduled (store : Notifications)
    (jobSeekerId applicationId jobId : ObjectId) (jobTitle companyName formattedDate : string) :=
  createNotification store
    {| Notification.recipient := jobSeekerId;
       Notification.type := "interview_scheduled";
       Notification.title := "Interview Scheduled";
       Notification.message :=
         "Your interview for " ++ jobTitle ++ " at " ++ companyName
         ++ " is scheduled for " ++ formattedDate;
       Notification.relatedJob := Some jobId;
       Notification.relatedApplication := Some applicationId;
       Notification.relatedUser := None;
       Notification.link := Some "/applications" |}.

Definition notifyFeedbackReceived (store : Notifications)
    (jobSeekerId applicationId jobId : ObjectId) (jobTitle companyName : string) :=
  createNotification store
    {| Notification.recipient := jobSeekerId;
       Notification.type := "feedback_received";
       Notification.title := "Feedback Received";
       Notification.message :=
         companyName ++ " has provided feedback on your application for " ++ jobTitle;
       Notification.relatedJob := Some jobId;
       Notification.relatedApplication := Some applicationId;
       Notification.relatedUser := None;
       Notification.link := Some "/applications" |}.

(** [matchScoreText] stands for the text of [matchScore] in the template. *)
Definition notifyJobRecommendation (store : Notifications)
    (jobSeekerId jobId : ObjectId) (jobTitle companyName matchScoreText : string) :=
  createNotification store
    {| Notification.recipient := jobSeekerId;
       Notification.type := "job_recommendation";
       Notification.title := "New Job Match";
       Notification.message :=
         jobTitle ++ " at " ++ companyName ++ " matches your profile ("
         ++ matchScoreText ++ "% match)";
       Notification.relatedJob := Some jobId;
       Notification.relatedApplication := None;
       Notification.relatedUser := None;
       Notification.link := Some ("/jobs/" ++ jobId) |}.

(** [roleMessages[role]], for a role of a user. *)
Definition roleMessages (role : string) : option string :=
  if String.eqb role "jobseeker" then
    Some "Welcome to JobAgency! Complete your profile to start applying for jobs."
  else if String.eqb role "employer" then
    Some "Welcome to JobAgency! Set up your company profile to start posting jobs."
  else if String.eqb role "training_center" then
    Some "Welcome to JobAgency! Create your center profile to showcase your courses."
  else None.

Definition notifyWelcome (store : Notifications) (userId : ObjectId) (role : string) :=
  createNotification store
    {| Notification.recipient := userId;
       Notification.type := "welcome";
       Notification.title := "Welcome to JobAgency!";
       Notification.message := orString (roleMessages role) "Welcome to JobAgency!";
       Notification.relatedJob := None;
       Notification.relatedApplication := None;
       Notification.relatedUser := None;
       Notification.link := Some "/profile" |}.

Definition quote : string := String (ascii_of_nat 34) EmptyString.

Definition notifyEmployerBanned (store : Notifications)
    (jobSeekerId : ObjectId) (companyName jobTitle : string) :=
  createNotification store
    {| Notification.recipient := jobSeekerId;
       Notification.type := "employer_banned";
       Notification.title := "Employer Removed from Platform";
       Notification.message :=
         companyName ++ " has been removed from the platform. Your application for "
         ++ quote ++ jobTitle ++ quote ++ " is no longer active.";
       Notification.relatedJob := None;
       Notification.relatedApplication := None;
       Notification.relatedUser := None;
       Notification.link := Some "/applications" |}.

Definition notifyTrainingCenterBanned (store : Notifications)
    (jobSeekerId : ObjectId) (centerName courseTitle : string) :=
  createNotification store
    {| Notification.recipient := jobSeekerId;
       Notification.type := "training_center_banned";
       Notification.title := "Training Center Removed from Platform";
       Notification.message :=
         centerName ++ " has been removed from the platform. Your enrollment for "
         ++ quote ++ courseTitle ++ quote ++ " is no longer active.";
       Notification.relatedJob := None;
       Notification.relatedApplication := None;
       Notification.relatedUser := None;
       Notification.link := Some "/my-courses" |}.

(** The statuses of the application schema and the roles of a user. *)
Definition applicationStatuses : list string :=
  [ "pending"; "reviewed"; "shortlisted"; "interview"; "rejected"; "hired"; "withdrawn" ].

Definition userRoles : list string :=
  [ "jobseeker"; "employer"; "training_center"; "admin" ].

(** The outcome of a helper that stored its notification. *)
Definition storedAs (store : Notifications) (result : option Notification.t * Notifications)
  : Prop :=
  exists n, result = (Some n, {| reachable := true; stored := stored store ++ [n] |})
            /\ In (Notification.type n) Notification.types.

Definition emptyStore : Notifications := {| reachable := true; stored := [] |}.

(** ** The salary check before a job is saved (models/Job.js) *)

(** The calls the pre-save hook makes to [next], in order: [Some e] for
    [next(new Error(e))], [None] for [next()]. *)
Definition salaryRangeHook (job : Job.t) : list (option string) :=
  let calls :=
    match Job.salary job with
    | Some sal =>
        match Salary.min sal, Salary.max sal with
        | Some lo, Some hi =>
            if JS.truthy lo && JS.truthy hi then
              if JS.gt lo hi
              then [Some "Minimum salary cannot be greater than maximum salary"]
              else []
            else []
        | _, _ => []
        end
    | None => []
    end in
  calls ++ [None].

(** Both bounds of the salary are stored and truthy, and the minimum is the
    greater. *)
Definition invertedRange (job : Job.t) : Prop :=
  exists sal lo hi,
    Job.salary job = Some sal /\ Salary.min sal = Some lo /\ Salary.max sal = Some hi
    /\ JS.truthy lo = true /\ JS.truthy hi = true /\ JS.gt lo hi = true.

(** A job paying from 90000 down to 50000. *)
Definition invertedRangeJob : Job.t :=
  withJobSalary seniorJob
    (Some {| Salary.min := Some 90000%float; Salary.max := Some 50000%float |}).

(** ** Application status changes
       (models/Application.js, controllers/applicationController.js) *)

Module ApplicationDoc.
Record Entry := {
  entryStatus : string;
  changedAt : Date;
  changedBy : option ObjectId;
  note : option string
}.

Record t := {
  _id : ObjectId;
  job : ObjectId;
  jobSeeker : ObjectId;
  employer : ObjectId;
  status : string;
  statusHistory : list Entry
}.

(** [application.status = status; application.statusHistory.push(entry)] *)
Definition setStatus (application : t) (newStatus : string) (entry : Entry) : t :=
  {| _id := _id application; job := job application;
     jobSeeker := jobSeeker application; employer := employer application;
     status := newStatus;
     statusHistory := statusHistory application ++ [entry] |}.

(** The pre-save hook: when the status differs from the stored one
    ([isModified('status')]), the status is pushed to the history once more,
    with the time of saving and nothing else. *)
Definition preSave (saveTime : Date) (loaded application : t) : t :=
  if negb (String.eqb (status application) (status loaded)) then
    {| _id := _id application; job := job application;
       jobSeeker := jobSeeker application; employer := employer application;
       status := status application;
       statusHistory :=
         statusHistory application
         ++ [ {| entryStatus := status application; changedAt := saveTime;
                 changedBy := None; note := None |} ] |}
  else application.
End ApplicationDoc.

(** What the two controllers read and write: the applications, the jobs
    with their [applicationCount], the company name of each employer's
    profile, and the notifications. *)
Record Site := {
  online : bool;
  applicationDocs : list ApplicationDoc.t;
  jobDocs : list (Job.t * Z);
  companyNames : list (ObjectId * option string);
  inbox : list Notification.t
}.

Record Response := {
  code : Z;
  success : bool;
  responseMessage : string;
  data : option ApplicationDoc.t
}.

Definition failure (c : Z) (m : string) : Response :=
  {| code := c; success := false; responseMessage := m; data := None |}.

(** [Application.findById(id)] *)
Definition findApplication (site : Site) (id : ObjectId) : option ApplicationDoc.t :=
  find (fun a => String.eqb (ApplicationDoc._id a) id) (applicationDocs site).

(** [application.save()]: the hook runs, then the document replaces the
    stored one of the same id. *)
Definition saveApplication (saveTime : Date) (loaded application : ApplicationDoc.t)
    (site : Site) : ApplicationDoc.t * Site :=
  let saved := ApplicationDoc.preSave saveTime loaded application in
  (saved,
   {| online := online site;
      applicationDocs :=
        map (fun a => if String.eqb (ApplicationDoc._id a) (ApplicationDoc._id saved)
                      then saved else a) (applicationDocs site);
      jobDocs := jobDocs site; companyNames := companyNames site;
      inbox := inbox site |}).

Definition validStatuses : list string :=
  [ "pending"; "reviewed"; "shortlisted"; "interview"; "rejected"; "hired" ].

(** Which of the store operations a request awaits reject, in program
    order: [Application.findById], [application.save()], the operation on
    the job ([Job.findById] or [Job.findByIdAndUpdate]),
    [EmployerProfile.findOne] and [Notification.create].  An operation
    rejects when the store cannot be reached at that moment; the first, which
    is given [req.params.id], also when that id is no ObjectId, and the save
    also when the document does not pass validation. *)
Record Rejections := {
  lookupRejects : bool;
  saveRejects : bool;
  jobRejects : bool;
  employerRejects : bool;
  notificationRejects : bool
}.

(** The store stays as [online site] has it for the whole request: every
    operation resolves, or every operation rejects. *)
Definition steady (site : Site) : Rejections :=
  {| lookupRejects := negb (online site); saveRejects := negb (online site);
     jobRejects := negb (online site); employerRejects := negb (online site);
     notificationRejects := negb (online site) |}.

(** [updateApplicationStatus]: [userId] is [req.user._id], [id] is
    [req.params.id], [status] and [note] come from the body.  Every awaited
    operation that rejects is caught by the one [catch] and answered with
    500, whatever has been stored by then.  The notification is started
    without being awaited and catches its own failure; what it adds to the
    collection is recorded here.  The status e-mail that follows is sent
    outside this model; its failures are caught and do not change the
    response. *)
Definition updateApplicationStatusUnder (rejects : Rejections) (site : Site)
    (userId id : ObjectId) (status : string) (note : option string) (now saveTime : Date)
  : Response * Site :=
  if negb (existsb (String.eqb status) validStatuses) then
    (failure 400 "Invalid status", site)
  else if lookupRejects rejects then
    (failure 500 "Error updating application status", site)
  else
    match findApplication site id with
    | None => (failure 404 "Application not found", site)
    | Some loaded =>
        if negb (String.eqb (ApplicationDoc.employer loaded) userId) then
          (failure 403 "Not authorized to update this application", site)
        else
          let application :=
            ApplicationDoc.setStatus loaded status
              {| ApplicationDoc.entryStatus := status; ApplicationDoc.changedAt := now;
                 ApplicationDoc.changedBy := Some userId; ApplicationDoc.note := note |} in
          if saveRejects rejects then
            (failure 500 "Error updating application status", site)
          else
          let '(application, site) := saveApplication saveTime loaded application site in
          if jobRejects rejects then
            (failure 500 "Error updating application status", site)
          else
          let job :=
            find (fun j => String.eqb (Job._id (fst j)) (ApplicationDoc.job application))
              (jobDocs site) in
          if employerRejects rejects then
            (failure 500 "Error updating application status", site)
          else
          let employerProfile :=
            find (fun p => String.eqb (fst p) userId) (companyNames site) in
          let companyName :=
            orString (match employerProfile with Some p => snd p | None => None end)
              "The employer" in
          let jobTitle :=
            orString (match job with Some j => Job.title (fst j) | None => None end)
              "the position" in
          let '(_, notifications) :=
            notifyApplicationStatus
              {| reachable := negb (notificationRejects rejects); stored := inbox site |}
              (ApplicationDoc.jobSeeker application) (ApplicationDoc._id application)
              (ApplicationDoc.job application) jobTitle companyName status in
          ({| code := 200; success := true;
              responseMessage := "Application status updated";
              data := Some application |},
           {| online := online site; applicationDocs := applicationDocs site;
              jobDocs := jobDocs site; companyNames := companyNames site;
              inbox := stored notifications |})
    end.

(** The request against a store that stays as it is. *)
Definition updateApplicationStatus (site : Site) (userId id : ObjectId)
    (status : string) (note : option string) (now saveTime : Date) : Response * Site :=
  updateApplicationStatusUnder (steady site) site userId id status note now saveTime.

(** [Job.findByIdAndUpdate(jobId, { $inc: { applicationCount: -1 } })] *)
Definition decrementApplicationCount (jobId : ObjectId) (site : Site) : Site :=
  {| online := online site; applicationDocs := applicationDocs site;
     jobDocs :=
       map (fun j => if String.eqb (Job._id (fst j)) jobId
                     then (fst j, (snd j - 1)%Z) else j) (jobDocs site);
     companyNames := companyNames site; inbox := inbox site |}.

(** [withdrawApplication]: [userId] is [req.user._id], [id] is
    [req.params.id].  The counter is decremented after the application has
    been saved; a rejection there is answered with 500 like any other. *)
Definition withdrawApplicationUnder (rejects : Rejections) (site : Site)
    (userId id : ObjectId) (now saveTime : Date) : Response * Site :=
  if lookupRejects rejects then
    (failure 500 "Error withdrawing application", site)
  else
    match findApplication site id with
    | None => (failure 404 "Application not found", site)
    | Some loaded =>
        if negb (String.eqb (ApplicationDoc.jobSeeker loaded) userId) then
          (failure 403 "Not authorized to withdraw this application", site)
        else if existsb (String.eqb (ApplicationDoc.status loaded)) ["hired"; "withdrawn"]
        then (failure 400 "Cannot withdraw this application", site)
        else
          let application :=
            ApplicationDoc.setStatus loaded "withdrawn"
              {| ApplicationDoc.entryStatus := "withdrawn"; ApplicationDoc.changedAt := now;
                 ApplicationDoc.changedBy := Some userId;
                 ApplicationDoc.note := Some "Application withdrawn by job seeker" |} in
          if saveRejects rejects then
            (failure 500 "Error withdrawing application", site)
          else
          let '(application, site) := saveApplication saveTime loaded application site in
          if jobRejects rejects then
            (failure 500 "Error withdrawing application", site)
          else
          let site := decrementApplicationCount (ApplicationDoc.job application) site in
          ({| code := 200; success := true;
              responseMessage := "Application withdrawn successfully";
              data := Some application |}, site)
    end.

(** The request against a store that stays as it is. *)
Definition withdrawApplication (site : Site) (userId id : ObjectId)
    (now saveTime : Date) : Response * Site :=
  withdrawApplicationUnder (steady site) site userId id now saveTime.

(** The [applicationCount] stored for a job. *)
Definition applicationCountOf (site : Site) (jobId : ObjectId) : option Z :=
  option_map snd (find (fun j => String.eqb (Job._id (fst j)) jobId) (jobDocs site)).

(** One pending application of [user-1] for [job-a], posted by [boss-1]. *)
Definition sampleSite : Site :=
  {| online := true;
     applicationDocs :=
       [ {| ApplicationDoc._id := "app-1"; ApplicationDoc.job := "job-a";
            ApplicationDoc.jobSeeker := "user-1"; ApplicationDoc.employer := "boss-1";
            ApplicationDoc.status := "pending";
            ApplicationDoc.statusHistory :=
              [ {| ApplicationDoc.entryStatus := "pending";
                   ApplicationDoc.changedAt := dec2025;
                   ApplicationDoc.changedBy := None; ApplicationDoc.note := None |} ] |} ];
     jobDocs := [ (posting "job-a" "active" 100 ["React"], 1%Z) ];
     companyNames := [ ("boss-1", Some "Acme") ];
     inbox := [] |}.

(** Every operation resolves but the one on the job, which follows the
    save. *)
Definition jobLookupRejects : Rejections :=
  {| lookupRejects := false; saveRejects := false; jobRejects := true;
     employerRejects := false; notificationRejects := false |}.

(** The entry a controller pushes and the one the hook adds. *)
Definition controllerEntry (status : string) (now : Date) (userId : ObjectId)
    (note : option string) : ApplicationDoc.Entry :=
  {| ApplicationDoc.entryStatus := status; ApplicationDoc.changedAt := now;
     ApplicationDoc.changedBy := Some userId; ApplicationDoc.note := note |}.

Definition hookEntry (status : string) (saveTime : Date) : ApplicationDoc.Entry :=
  {| ApplicationDoc.entryStatus := status; ApplicationDoc.changedAt := saveTime;
     ApplicationDoc.changedBy := None; ApplicationDoc.note := None |}.

(** ** The documents and the reason list as shared objects

    The program passes the job and the profile to the scorer and the
    explainer by reference, and [getMatchReasons] builds its result by
    pushing to an array.  Here the documents and the arrays that are written
    to are cells of a heap, and the two functions are steps over it.  (The
    arrays made by [map], [filter] and [slice] are fresh, are never written
    to and do not leave the call; they stay values.  An assignment to a
    field of a document, or a push to one of its arrays, would overwrite the
    cell of that document.) *)

Inductive Cell :=
| JobCell (job : Job.t)
| ProfileCell (profile : Profile.t)
| ArrayCell (items : list string).

Definition Heap := list Cell.
Definition Ref := nat.

(** A step over the heap; [None] is a TypeError. *)
Definition Run (A : Type) := Heap -> option (A * Heap).

Definition ret {A} (a : A) : Run A := fun heap => Some (a, heap).

Definition andThen {A B} (m : Run A) (k : A -> Run B) : Run B :=
  fun heap =>
    match m heap with
    | Some (a, heap') => k a heap'
    | None => None
    end.

Notation "x <~ m ;; k" := (andThen m (fun x => k))
  (at level 61, m at next level, right associativity).

(** Reading through a reference to a job, to a profile, to an array. *)
Definition readJob (r : Ref) : Run Job.t :=
  fun heap =>
    match nth_error heap r with
    | Some (JobCell job) => Some (job, heap)
    | _ => None
    end.

Definition readProfile (r : Ref) : Run Profile.t :=
  fun heap =>
    match nth_error heap r with
    | Some (ProfileCell profile) => Some (profile, heap)
    | _ => None
    end.

Definition arrayLength (r : Ref) : Run nat :=
  fun heap =>
    match nth_error heap r with
    | Some (ArrayCell items) => Some (List.length items, heap)
    | _ => None
    end.

(** [[]]: a new, empty array. *)
Definition newArray : Run Ref :=
  fun heap => Some (List.length heap, (heap ++ [ArrayCell []])%list).

(** The heap with the cell at [r] replaced. *)
Definition overwrite (r : Ref) (c : Cell) (heap : Heap) : Heap :=
  (firstn r heap ++ c :: skipn (S r) heap)%list.

(** [array.push(x)]: the array is changed in place. *)
Definition push (r : Ref) (x : string) : Run unit :=
  fun heap =>
    match nth_error heap r with
    | Some (ArrayCell items) => Some (tt, overwrite r (ArrayCell (items ++ [x])) heap)
    | _ => None
    end.

(** [if (c) reasons.push(r)] *)
Definition pushWhen (c : bool) (r : string) (reasons : Ref) : Run unit :=
  if c then push reasons r else ret tt.

(** [calculateMatchScore(job, profile)]: reads the two documents; its only
    variables are the local [score] and [factors]. *)
Definition calculateMatchScoreIn (now : Date) (jobRef profileRef : Ref) : Run float :=
  job <~ readJob jobRef ;;
  profile <~ readProfile profileRef ;;
  ret (calculateMatchScore now job profile).

Definition skillsReasonIn (jobRef profileRef reasons : Ref) : Run unit :=
  job <~ readJob jobRef ;;
  profile <~ readProfile profileRef ;;
  if skillsApplies job profile then
    let profileSkills := map JS.toLowerCase (orNil (Profile.skills profile)) in
    let jobRequirements := map JS.toLowerCase (jobSkillsOf job) in
    let matchedSkills := matching profileSkills jobRequirements in
    pushWhen (Nat.ltb 0 (List.length matchedSkills))
      ("Skills match: " ++ JS.join ", " (JS.slice0 matchedSkills 3%Z)) reasons
  else ret tt.

Definition experienceReasonIn (now : Date) (profileRef reasons : Ref) : Run unit :=
  profile <~ readProfile profileRef ;;
  if experienceApplies profile then
    let totalYears := calculateTotalExperience now (Profile.experience profile) in
    pushWhen (JS.gt totalYears 0)
      (JS.Number_toString (JS.Math_round totalYears) ++ " years of experience") reasons
  else ret tt.

Definition locationReasonIn (jobRef profileRef reasons : Ref) : Run unit :=
  job <~ readJob jobRef ;;
  profile <~ readProfile profileRef ;;
  if isRemote job then push reasons "Remote work available"
  else match Profile.location profile with
       | Some ploc =>
           let profileCity := JS.toLowerCase (JS.orEmpty (city ploc)) in
           let jobCity := jobCityOf job in
           pushWhen (JS.nonEmpty profileCity && JS.nonEmpty jobCity
                     && (JS.includes jobCity profileCity || JS.includes profileCity jobCity))
             "Location matches preference" reasons
       | None => ret tt
       end.

Definition jobTypeReasonIn (jobRef profileRef reasons : Ref) : Run unit :=
  job <~ readJob jobRef ;;
  profile <~ readProfile profileRef ;;
  if jobTypeApplies profile then
    pushWhen (JS.arrayIncludes (orNil (Profile.preferredJobTypes profile)) (Job.jobType job))
      ("Matches preferred job type: " ++ JS.orEmpty (Job.jobType job)) reasons
  else ret tt.

Definition salaryReasonIn (jobRef profileRef reasons : Ref) : Run unit :=
  job <~ readJob jobRef ;;
  profile <~ readProfile profileRef ;;
  pushWhen (salaryInRange job profile) "Salary in expected range" reasons.

(** [getMatchReasons(job, profile)]: the array it returns is one it has
    made itself. *)
Definition getMatchReasonsIn (now : Date) (jobRef profileRef : Ref) : Run Ref :=
  reasons <~ newArray ;;
  _ <~ skillsReasonIn jobRef profileRef reasons ;;
  _ <~ experienceReasonIn now profileRef reasons ;;
  _ <~ locationReasonIn jobRef profileRef reasons ;;
  _ <~ jobTypeReasonIn jobRef profileRef reasons ;;
  _ <~ salaryReasonIn jobRef profileRef reasons ;;
  count <~ arrayLength reasons ;;
  _ <~ pushWhen (Nat.eqb count 0) "New opportunity" reasons ;;
  ret reasons.

(** Every cell that was on the heap before is on it, unchanged, after. *)
Definition untouched (before after : Heap) : Prop :=
  forall r, (r < List.length before)%nat -> nth_error after r = nth_error before r.

(** A heap that holds a job, a profile, and an array that belongs to some
    other part of the program. *)
Definition sampleHeap : Heap :=
  [ JobCell reactJob; ArrayCell ["kept"]; ProfileCell employedProfile ].

(** * Properties *)

(** ** The match scorer *)

(** C1.  The scorer does not stay within [0, 100]: the skills factor counts
    the profile's matching skills against the number of the job's
    requirements, so a seeker with two skills that both contain the job's
    single requirement gets skill score 200, and, no other factor applying,
    the final score is 200 whatever the clock says. *)
Theorem calculateMatchScore_above_100 :
  forall now,
    skillScore reactJob reactProfile = 200%float
    /\ calculateMatchScore now reactJob reactProfile = 200%float
    /\ JS.gt (calculateMatchScore now reactJob reactProfile) 100 = true.
Proof.
  intro now. repeat split; vm_compute; reflexivity.
Qed.

(** C3.  The expectation table maps internship to 0, but the lookup is
    followed by [|| 2] and 0 is falsy, so an internship is held to 2 expected
    years: a seeker with half a year of experience gets sub-score 40, not 100.
    The other employment types give 2, 1, 3 and 1, and 2 for anything else. *)
Theorem internship_expects_two_years :
  forall now,
    map (fun t => expectedYears (jobOfType (Some t)))
        ["full-time"; "part-time"; "contract"; "temporary"; "remote"; "internship"]
    = [2; 1; 3; 1; 2; 2]%float
    /\ expectedYears (jobOfType None) = 2%float
    /\ jobTypeExpectation (Some "internship") = Some 0%float
    /\ expectedYears internJob = 2%float
    /\ calculateTotalExperience now (Profile.experience halfYearProfile) = 0.5%float
    /\ experienceScore now internJob halfYearProfile = 40%float.
Proof.
  intro now. repeat split; vm_compute; reflexivity.
Qed.

(** The worked examples of the specification: against a full-time job, three
    years of experience give sub-score 100 and half a year gives 40; against
    a job asking for python and sql, knowing python alone gives skill score
    50 and knowing both gives 100. *)
Example experience_and_skill_examples :
  forall now,
    experienceScore now reactJob (seeker [] 36) = 100%float
    /\ experienceScore now reactJob (seeker [] 6) = 40%float
    /\ skillScore (posting "job-p" "active" 0 ["python"; "sql"]) (seeker ["python"] 0)
       = 50%float
    /\ skillScore (posting "job-p" "active" 0 ["python"; "sql"])
         (seeker ["python"; "sql"] 0) = 100%float.
Proof.
  intro now. repeat split; vm_compute; reflexivity.
Qed.

(** ** Dependence on the clock *)

Lemma monthsOf_same_month now1 now2 exp :
  getFullYear now1 = getFullYear now2 ->
  getMonth now1 = getMonth now2 ->
  monthsOf now1 exp = monthsOf now2 exp.
Proof.
  intros Hy Hm. unfold monthsOf.
  destruct (current exp); [rewrite Hy, Hm|]; reflexivity.
Qed.

Lemma fold_months_same_month now1 now2 exps :
  getFullYear now1 = getFullYear now2 ->
  getMonth now1 = getMonth now2 ->
  forall acc,
    fold_left (fun total exp => (total + JS.Math_max 0 (monthsOf now1 exp))%float) exps acc
    = fold_left (fun total exp => (total + JS.Math_max 0 (monthsOf now2 exp))%float) exps acc.
Proof.
  intros Hy Hm. induction exps as [|e exps IH]; intro acc; simpl.
  - reflexivity.
  - rewrite (monthsOf_same_month now1 now2 e Hy Hm). apply IH.
Qed.

Lemma calculateTotalExperience_same_month now1 now2 experience :
  getFullYear now1 = getFullYear now2 ->
  getMonth now1 = getMonth now2 ->
  calculateTotalExperience now1 experience = calculateTotalExperience now2 experience.
Proof.
  intros Hy Hm. unfold calculateTotalExperience.
  destruct experience as [[|e exps]|]; try reflexivity.
  now rewrite (fold_months_same_month now1 now2 (e :: exps) Hy Hm).
Qed.

(** C2, as stated, fails: the same job and the same profile score 70 on
    31 December 2025 and 100 on 1 January 2026, and the reason list of June
    2025 differs from that of January 2026, because a position marked
    current ends at [new Date()]. *)
Lemma scoring_depends_on_clock :
  calculateMatchScore dec2025 reactJob employedProfile = 70%float
  /\ calculateMatchScore jan2026 reactJob employedProfile = 100%float
  /\ calculateMatchScore dec2025 reactJob employedProfile
     <> calculateMatchScore jan2026 reactJob employedProfile
  /\ getMatchReasons jun2025 reactJob employedProfile = ["1 years of experience"]
  /\ getMatchReasons jan2026 reactJob employedProfile = ["2 years of experience"]
  /\ getMatchReasons jun2025 reactJob employedProfile
     <> getMatchReasons jan2026 reactJob employedProfile.
Proof.
  repeat split; try (vm_compute; reflexivity).
  - intro H. apply (f_equal (fun x => PrimFloat.eqb x 70)) in H.
    vm_compute in H. discriminate.
  - vm_compute. discriminate.
Qed.

(** *** The two functions on the heap *)

Lemma nth_error_kept (heap ext : Heap) (r : Ref) (c : Cell) :
  nth_error heap r = Some c -> nth_error (heap ++ ext)%list r = Some c.
Proof.
  intro H. rewrite nth_error_app1; [assumption|].
  apply nth_error_Some. congruence.
Qed.

Lemma nth_error_last (heap : Heap) (c : Cell) :
  nth_error (heap ++ [c])%list (List.length heap) = Some c.
Proof. rewrite nth_error_app2, Nat.sub_diag by lia. reflexivity. Qed.

Lemma overwrite_last (heap : Heap) (c c' : Cell) :
  overwrite (List.length heap) c' (heap ++ [c])%list = (heap ++ [c'])%list.
Proof.
  unfold overwrite.
  rewrite firstn_app, firstn_all, Nat.sub_diag, skipn_all2.
  - simpl. now rewrite app_nil_r.
  - rewrite length_app. simpl. lia.
Qed.

Lemma untouched_app (heap ext : Heap) : untouched heap (heap ++ ext)%list.
Proof. intros r Hr. now apply nth_error_app1. Qed.

Section Steps.
Variables (heap : Heap) (jobRef profileRef : Ref) (job : Job.t) (profile : Profile.t).
Hypothesis Hjob : nth_error heap jobRef = Some (JobCell job).
Hypothesis Hprofile : nth_error heap profileRef = Some (ProfileCell profile).

Lemma readJob_kept ext : readJob jobRef (heap ++ ext)%list = Some (job, (heap ++ ext)%list).
Proof. unfold readJob. now rewrite (nth_error_kept _ _ _ _ Hjob). Qed.

Lemma readProfile_kept ext :
  readProfile profileRef (heap ++ ext)%list = Some (profile, (heap ++ ext)%list).
Proof. unfold readProfile. now rewrite (nth_error_kept _ _ _ _ Hprofile). Qed.

Lemma push_last x items :
  push (List.length heap) x (heap ++ [ArrayCell items])%list
  = Some (tt, (heap ++ [ArrayCell (items ++ [x])])%list).
Proof. unfold push. now rewrite nth_error_last, overwrite_last. Qed.

Lemma pushWhen_last c r items :
  pushWhen c r (List.length heap) (heap ++ [ArrayCell items])%list
  = Some (tt, (heap ++ [ArrayCell (pushIf c r items)])%list).
Proof. unfold pushWhen, pushIf. destruct c; [apply push_last|reflexivity]. Qed.

Lemma skillsReasonIn_run items :
  skillsReasonIn jobRef profileRef (List.length heap) (heap ++ [ArrayCell items])%list
  = Some (tt, (heap ++ [ArrayCell (skillsReason job profile items)])%list).
Proof.
  unfold skillsReasonIn, skillsReason, andThen.
  rewrite readJob_kept, readProfile_kept.
  destruct (skillsApplies job profile); [apply pushWhen_last|reflexivity].
Qed.

Lemma experienceReasonIn_run now items :
  experienceReasonIn now profileRef (List.length heap) (heap ++ [ArrayCell items])%list
  = Some (tt, (heap ++ [ArrayCell (experienceReason now profile items)])%list).
Proof.
  unfold experienceReasonIn, experienceReason, andThen.
  rewrite readProfile_kept.
  destruct (experienceApplies profile); [apply pushWhen_last|reflexivity].
Qed.

Lemma locationReasonIn_run items :
  locationReasonIn jobRef profileRef (List.length heap) (heap ++ [ArrayCell items])%list
  = Some (tt, (heap ++ [ArrayCell (locationReason job profile items)])%list).
Proof.
  unfold locationReasonIn, locationReason, andThen.
  rewrite readJob_kept, readProfile_kept.
  destruct (isRemote job); [apply push_last|].
  destruct (Profile.location profile); [apply pushWhen_last|reflexivity].
Qed.

Lemma jobTypeReasonIn_run items :
  jobTypeReasonIn jobRef profileRef (List.length heap) (heap ++ [ArrayCell items])%list
  = Some (tt, (heap ++ [ArrayCell (jobTypeReason job profile items)])%list).
Proof.
  unfold jobTypeReasonIn, jobTypeReason, andThen.
  rewrite readJob_kept, readProfile_kept.
  destruct (jobTypeApplies profile); [apply pushWhen_last|reflexivity].
Qed.

Lemma salaryReasonIn_run items :
  salaryReasonIn jobRef profileRef (List.length heap) (heap ++ [ArrayCell items])%list
  = Some (tt, (heap ++ [ArrayCell (salaryReason job profile items)])%list).
Proof.
  unfold salaryReasonIn, salaryReason, andThen.
  rewrite readJob_kept, readProfile_kept. apply pushWhen_last.
Qed.

(** The scorer returns the score and leaves the heap as it is. *)
Lemma calculateMatchScoreIn_run now :
  calculateMatchScoreIn now jobRef profileRef heap
  = Some (calculateMatchScore now job profile, heap).
Proof.
  unfold calculateMatchScoreIn, andThen, readJob, readProfile.
  now rewrite Hjob, Hprofile.
Qed.

(** The explainer returns a reference to a new array, which holds the
    reasons, and leaves every other cell as it is. *)
Lemma getMatchReasonsIn_run now :
  getMatchReasonsIn now jobRef profileRef heap
  = Some (List.length heap,
          (heap ++ [ArrayCell (getMatchReasons now job profile)])%list).
Proof.
  unfold getMatchReasonsIn, getMatchReasons, andThen at 1, newArray.
  unfold andThen at 1. rewrite skillsReasonIn_run.
  unfold andThen at 1. rewrite experienceReasonIn_run.
  unfold andThen at 1. rewrite locationReasonIn_run.
  unfold andThen at 1. rewrite jobTypeReasonIn_run.
  unfold andThen at 1. rewrite salaryReasonIn_run.
  unfold andThen at 1, arrayLength. rewrite nth_error_last.
  unfold andThen. rewrite pushWhen_last. reflexivity.
Qed.
End Steps.

(** C2, amended.  Score and reasons are functions of the job, the profile
    and the calendar month of the call: two calls with the same job and
    profile whose clocks agree on year and month give the same score and the
    same reasons in the same order.  Neither function changes the job or the
    profile: run one after the other and twice over on a heap that holds the
    two documents, they return the same score and two distinct arrays with
    the same reasons, and every cell that was on the heap before, the job
    and the profile among them, is unchanged afterwards. *)
Theorem scoring_deterministic_within_month :
  forall now1 now2 job profile,
    getFullYear now1 = getFullYear now2 ->
    getMonth now1 = getMonth now2 ->
    calculateMatchScore now1 job profile = calculateMatchScore now2 job profile
    /\ getMatchReasons now1 job profile = getMatchReasons now2 job profile
    /\ forall heap jobRef profileRef,
         nth_error heap jobRef = Some (JobCell job) ->
         nth_error heap profileRef = Some (ProfileCell profile) ->
         exists heap1 heap2 heap3 heap4 reasons1 reasons2,
           calculateMatchScoreIn now1 jobRef profileRef heap
           = Some (calculateMatchScore now1 job profile, heap1)
           /\ getMatchReasonsIn now1 jobRef profileRef heap1 = Some (reasons1, heap2)
           /\ calculateMatchScoreIn now2 jobRef profileRef heap2
              = Some (calculateMatchScore now1 job profile, heap3)
           /\ getMatchReasonsIn now2 jobRef profileRef heap3 = Some (reasons2, heap4)
           /\ nth_error heap4 reasons1 = Some (ArrayCell (getMatchReasons now1 job profile))
           /\ nth_error heap4 reasons2 = Some (ArrayCell (getMatchReasons now1 job profile))
           /\ reasons1 <> reasons2
           /\ untouched heap heap4
           /\ nth_error heap4 jobRef = Some (JobCell job)
           /\ nth_error heap4 profileRef = Some (ProfileCell profile).
Proof.
  intros now1 now2 job profile Hy Hm.
  pose proof (calculateTotalExperience_same_month now1 now2
                (Profile.experience profile) Hy Hm) as Ht.
  assert (calculateMatchScore now1 job profile = calculateMatchScore now2 job profile)
    as Hscore.
  { unfold calculateMatchScore, accumulate, experienceScore. now rewrite Ht. }
  assert (getMatchReasons now1 job profile = getMatchReasons now2 job profile)
    as Hreasons.
  { unfold getMatchReasons, experienceReason. now rewrite Ht. }
  split; [exact Hscore|]. split; [exact Hreasons|].
  intros heap jobRef profileRef Hjob Hprofile.
  set (first := ArrayCell (getMatchReasons now1 job profile)).
  pose proof (nth_error_kept heap [first] _ _ Hjob) as Hjob2.
  pose proof (nth_error_kept heap [first] _ _ Hprofile) as Hprofile2.
  exists heap, (heap ++ [first])%list, (heap ++ [first])%list,
         ((heap ++ [first]) ++ [first])%list,
         (List.length heap), (List.length (heap ++ [first])%list).
  split; [apply (calculateMatchScoreIn_run _ _ _ _ _ Hjob Hprofile)|].
  split; [apply (getMatchReasonsIn_run _ _ _ _ _ Hjob Hprofile)|].
  split; [rewrite Hscore; apply (calculateMatchScoreIn_run _ _ _ _ _ Hjob2 Hprofile2)|].
  split.
  { pose proof (getMatchReasonsIn_run _ _ _ _ _ Hjob2 Hprofile2 now2) as Hsecond.
    rewrite <- Hreasons in Hsecond. exact Hsecond. }
  split; [apply nth_error_kept, nth_error_last|].
  split; [apply nth_error_last|].
  split; [rewrite length_app; simpl; lia|].
  split; [rewrite <- app_assoc; apply untouched_app|].
  split; now apply nth_error_kept.
Qed.

Lemma scoring_deterministic_within_month_witness :
  calculateMatchScore (DateAt 2025 11 1) reactJob employedProfile
  = calculateMatchScore dec2025 reactJob employedProfile
  /\ getMatchReasons (DateAt 2025 11 1) reactJob employedProfile
     = getMatchReasons dec2025 reactJob employedProfile
  /\ exists heap1 heap2 heap3 heap4 reasons1 reasons2,
       calculateMatchScoreIn (DateAt 2025 11 1) 0%nat 2%nat sampleHeap
       = Some (calculateMatchScore (DateAt 2025 11 1) reactJob employedProfile, heap1)
       /\ getMatchReasonsIn (DateAt 2025 11 1) 0%nat 2%nat heap1 = Some (reasons1, heap2)
       /\ calculateMatchScoreIn dec2025 0%nat 2%nat heap2
          = Some (calculateMatchScore (DateAt 2025 11 1) reactJob employedProfile, heap3)
       /\ getMatchReasonsIn dec2025 0%nat 2%nat heap3 = Some (reasons2, heap4)
       /\ nth_error heap4 reasons1
          = Some (ArrayCell (getMatchReasons (DateAt 2025 11 1) reactJob employedProfile))
       /\ nth_error heap4 reasons2
          = Some (ArrayCell (getMatchReasons (DateAt 2025 11 1) reactJob employedProfile))
       /\ reasons1 <> reasons2
       /\ untouched sampleHeap heap4
       /\ nth_error heap4 0%nat = Some (JobCell reactJob)
       /\ nth_error heap4 2%nat = Some (ProfileCell employedProfile).
Proof.
  destruct (scoring_deterministic_within_month (DateAt 2025 11 1) dec2025
              reactJob employedProfile eq_refl eq_refl) as (Hscore & Hreasons & Hheap).
  split; [exact Hscore|]. split; [exact Hreasons|].
  apply (Hheap sampleHeap 0%nat 2%nat); reflexivity.
Defined.

(** The heap after a score and an explanation: the three cells that were
    there, and the new array of reasons. *)
Example scoring_leaves_the_heap :
  andThen (calculateMatchScoreIn jan2026 0%nat 2%nat)
    (fun score => andThen (getMatchReasonsIn jan2026 0%nat 2%nat) (fun reasons => ret (score, reasons)))
    sampleHeap
  = Some ((100%float, 3%nat),
          (sampleHeap ++ [ArrayCell ["2 years of experience"]])%list).
Proof. vm_compute. reflexivity. Qed.

(** ** Normalisation by the applied weight *)

(** C5.  With [a] the accumulators after the five blocks:
    whenever [0 < factors < 1] the result is the rounded quotient
    [score / factors]; that happens exactly when some but not all factors
    applied; when all five applied the weights add up to
    1.0000000000000002, which is not below 1, and the score is rounded
    undivided; when none applied the result is 0. *)
Theorem normalization_policy :
  forall now job profile,
    let a := accumulate now job profile in
    let result := calculateMatchScore now job profile in
    (JS.gt (factors a) 0 = true -> JS.lt (factors a) 1 = true ->
       result = JS.Math_round (score a / factors a)%float)
    /\ (JS.gt (factors a) 0 && JS.lt (factors a) 1
        = existsb id (applied job profile) && negb (forallb id (applied job profile)))
    /\ (forallb id (applied job profile) = true ->
          factors a = 1.0000000000000002%float /\ result = JS.Math_round (score a))
    /\ (existsb id (applied job profile) = false ->
          factors a = 0%float /\ result = 0%float).
Proof.
  intros now job profile.
  unfold calculateMatchScore, accumulate, applied.
  generalize (skillsApplies job profile) (experienceApplies profile)
    (educationApplies profile) (locationApplies profile) (jobTypeApplies profile).
  generalize (skillScore job profile) (experienceScore now job profile)
    (educationScore job profile) (locationScore job profile) (jobTypeScore job profile).
  intros s1 s2 s3 s4 s5 b1 b2 b3 b4 b5.
  cbv zeta. split.
  - intros Hpos Hlt. unfold normalize. now rewrite Hpos, Hlt.
  - destruct b1, b2, b3, b4, b5;
      cbn [addFactor existsb forallb id orb andb negb score factors];
      (split; [reflexivity|]); split; intro H; try discriminate H;
      split; reflexivity.
Qed.

Lemma normalization_policy_witness :
  calculateMatchScore dec2025 reactJob employedProfile
  = JS.Math_round (score (accumulate dec2025 reactJob employedProfile)
                   / factors (accumulate dec2025 reactJob employedProfile))%float.
Proof.
  apply (normalization_policy dec2025 reactJob employedProfile); reflexivity.
Defined.

(** ** The similarity score *)

Lemma toLowerCase_nonEmpty s : JS.nonEmpty (JS.toLowerCase s) = JS.nonEmpty s.
Proof. destruct s; reflexivity. Qed.

Lemma length_pos_cons {A} (l : list A) :
  Nat.ltb 0 (List.length l) = match l with [] => false | _ :: _ => true end.
Proof. destruct l; reflexivity. Qed.

(** C4, as stated, fails on "up to +40": the skill term counts the
    candidate's matching skills against the reference job's count, so a
    candidate with two skills containing the reference job's single one
    contributes 80, and with the matching type the score is 110. *)
Lemma similarity_skill_term_above_40 :
  skillsTerm fullStackJob reactJob = Some 80%float
  /\ similarityScore fullStackJob reactJob = 110%float
  /\ JS.gt (similarityScore fullStackJob reactJob) 100 = true.
Proof.
  repeat split; vm_compute; reflexivity.
Qed.

(** C4, amended.  The similarity score of a candidate is the sum of the
    terms that apply: 30 for an equal employment type; 40 times (number of
    the candidate's skills matching a reference skill by two-way substring
    containment) / (number of reference skills), which is not capped at 40;
    15 if both name the same city up to case or both are remote; 15 if the
    midpoints differ by less than 30% of a positive reference midpoint. *)
Theorem similarityScore_is_sum_of_terms :
  forall job referenceJob,
    similarityScore job referenceJob
    = sumTerms [ typeTerm job referenceJob; skillsTerm job referenceJob;
                 locationTerm job referenceJob; salaryTerm job referenceJob ].
Proof.
  intros job referenceJob.
  unfold similarityScore, sumTerms, typeTerm, skillsTerm, locationTerm, salaryTerm,
    sameCity, isRemote.
  rewrite !length_pos_cons, !length_map. cbv zeta.
  destruct (sameJobType job referenceJob);
    destruct (jobSkillsOf job) as [|s1 l1] eqn:Hj;
    destruct (jobSkillsOf referenceJob) as [|s2 l2] eqn:Hr;
    destruct (Job.location job) as [[[jc|] jco jr]|];
    destruct (Job.location referenceJob) as [[[rc|] rco rr]|];
    destruct (Job.salary job) as [jsal|];
    destruct (Job.salary referenceJob) as [rsal|];
    cbn [city remote JS.orEmpty JS.toLowerCase JS.nonEmpty andb orb fold_left];
    rewrite ?toLowerCase_nonEmpty;
    repeat match goal with
           | |- context [JS.nonEmpty ?a] => destruct (JS.nonEmpty a)
           | |- context [String.eqb ?a ?b] => destruct (String.eqb a b)
           | |- context [JS.gt ?a ?b] => destruct (JS.gt a b)
           | |- context [JS.lt ?a ?b] => destruct (JS.lt a b)
           end;
    try destruct jr; try destruct rr;
    reflexivity.
Qed.

(** ** The salary reason *)

Lemma In_pushIf (c : bool) (r x : string) (l : list string) :
  In x (pushIf c r l) <-> In x l \/ (c = true /\ x = r).
Proof.
  unfold pushIf. destruct c.
  - rewrite in_app_iff. simpl. split.
    + intros [H|[H|[]]]; auto.
    + intros [H|[_ H]]; auto.
  - split; [auto|]. intros [H|[H _]]; [assumption|discriminate].
Qed.

Lemma length_string_append (s t : string) :
  String.length (s ++ t) = (String.length s + String.length t)%nat.
Proof. induction s as [|c s IH]; simpl; [reflexivity|now rewrite IH]. Qed.

Lemma years_text_differs (s : string) :
  (s ++ " years of experience")%string <> salaryReasonText.
Proof.
  unfold salaryReasonText.
  destruct s as [|c1 [|c2 [|c3 [|c4 [|c5 s]]]]]; simpl; try discriminate.
  intro H. injection H as _ _ _ _ _ H.
  apply (f_equal String.length) in H.
  rewrite length_string_append in H. simpl in H. lia.
Qed.

Lemma skillsReason_no_salary_text job profile l :
  In salaryReasonText (skillsReason job profile l) -> In salaryReasonText l.
Proof.
  unfold skillsReason. destruct (skillsApplies job profile); [|auto].
  cbv zeta. rewrite In_pushIf. intros [H|[_ H]]; [assumption|].
  unfold salaryReasonText in H. simpl in H. discriminate H.
Qed.

Lemma experienceReason_no_salary_text now profile l :
  In salaryReasonText (experienceReason now profile l) -> In salaryReasonText l.
Proof.
  unfold experienceReason. destruct (experienceApplies profile); [|auto].
  cbv zeta. rewrite In_pushIf. intros [H|[_ H]]; [assumption|].
  symmetry in H. now apply years_text_differs in H.
Qed.

Lemma locationReason_no_salary_text job profile l :
  In salaryReasonText (locationReason job profile l) -> In salaryReasonText l.
Proof.
  unfold locationReason. destruct (isRemote job).
  - rewrite in_app_iff. intros [H|[H|[]]]; [assumption|discriminate H].
  - destruct (Profile.location profile); [|auto].
    cbv zeta. rewrite In_pushIf. intros [H|[_ H]]; [assumption|discriminate H].
Qed.

Lemma jobTypeReason_no_salary_text job profile l :
  In salaryReasonText (jobTypeReason job profile l) -> In salaryReasonText l.
Proof.
  unfold jobTypeReason. destruct (jobTypeApplies profile); [|auto].
  rewrite In_pushIf. intros [H|[_ H]]; [assumption|].
  unfold salaryReasonText in H. simpl in H. discriminate H.
Qed.

Lemma salary_reason_iff_condition now job profile :
  In salaryReasonText (getMatchReasons now job profile) <-> salaryInRange job profile = true.
Proof.
  unfold getMatchReasons, salaryReason. cbv zeta.
  rewrite In_pushIf, In_pushIf. split.
  - intros [[H|[H _]]|[_ H]]; [|assumption|discriminate H].
    apply jobTypeReason_no_salary_text, locationReason_no_salary_text,
      experienceReason_no_salary_text, skillsReason_no_salary_text in H.
    destruct H.
  - intro H. left. right. split; [assumption|reflexivity].
Qed.

(** C10, as stated, fails on "present": a job whose [salary.min] is 0 has
    both bounds, and its maximum is above the seeker's expected minimum, yet
    the reason is not emitted, because the test is on truthiness. *)
Lemma salary_reason_needs_nonzero_bounds :
  salaryReasonAsStated commissionJob modestProfile = true
  /\ getMatchReasons jan2026 commissionJob modestProfile = ["New opportunity"]
  /\ ~ In salaryReasonText (getMatchReasons jan2026 commissionJob modestProfile).
Proof.
  split; [vm_compute; reflexivity|]. split; [vm_compute; reflexivity|].
  rewrite salary_reason_iff_condition. vm_compute. discriminate.
Qed.

(** C10, amended.  "Salary in expected range" is among the reasons exactly
    when the profile has an expected salary, the job's [salary.min] and
    [salary.max] are both present and truthy (neither 0 nor NaN), and
    [salary.max >= expectedSalary.min], taken as 0 when absent or falsy.
    The expected maximum is never read: replacing it leaves the reason list
    unchanged, and the reason is given for a job paying 90000 to 120000 to a
    seeker expecting at most 60000. *)
Theorem salary_reason_emitted_iff :
  forall now job profile,
    (In salaryReasonText (getMatchReasons now job profile) <->
       exists expected sal lo hi,
         Profile.expectedSalary profile = Some expected
         /\ Job.salary job = Some sal
         /\ Salary.min sal = Some lo /\ Salary.max sal = Some hi
         /\ JS.truthy lo = true /\ JS.truthy hi = true
         /\ JS.ge hi (JS.orNum (Salary.min expected) 0) = true)
    /\ (forall m,
          getMatchReasons now job (withExpectedMax profile m)
          = getMatchReasons now job profile)
    /\ In salaryReasonText (getMatchReasons now seniorJob modestProfile).
Proof.
  intros now job profile. split; [|split].
  - rewrite salary_reason_iff_condition. unfold salaryInRange. split.
    + destruct (Profile.expectedSalary profile) as [expected|]; [|discriminate].
      destruct (Job.salary job) as [sal|]; [|discriminate].
      destruct (Salary.min sal) as [lo|] eqn:Hlo; [|discriminate].
      destruct (Salary.max sal) as [hi|] eqn:Hhi; [|discriminate].
      intro H. apply andb_prop in H. destruct H as [H Hge].
      apply andb_prop in H. destruct H as [Ht1 Ht2].
      exists expected, sal, lo, hi. repeat split; assumption.
    + intros (expected & sal & lo & hi & He & Hs & Hlo & Hhi & Ht1 & Ht2 & Hge).
      rewrite He, Hs, Hlo, Hhi, Ht1, Ht2, Hge. reflexivity.
  - intro m. destruct profile as [u sk ex ed loc pj [e|]]; reflexivity.
  - apply salary_reason_iff_condition. vm_compute. reflexivity.
Qed.

(** ** Sorting *)

Section ArraySortFacts.
Context {A : Type} (after : A -> A -> bool).

Lemma insert_Permutation x l : Permutation (insert after x l) (x :: l).
  Proof.
    induction l as [|y r IH]; simpl.
    - apply Permutation_refl.
    - destruct (after x y).
      + eapply Permutation_trans; [apply perm_skip, IH|apply perm_swap].
      + apply Permutation_refl.
  Qed.

Lemma Array_sort_Permutation l : Permutation (Array_sort after l) l.
  Proof.
    induction l as [|x l IH]; simpl.
    - apply Permutation_refl.
    - eapply Permutation_trans; [apply insert_Permutation|now apply perm_skip].
  Qed.

Lemma Array_sort_length l : List.length (Array_sort after l) = List.length l.
  Proof. apply Permutation_length, Array_sort_Permutation. Qed.

Lemma Array_sort_In x l : In x (Array_sort after l) <-> In x l.
  Proof.
    split; apply Permutation_in;
      [|apply Permutation_sym]; apply Array_sort_Permutation.
  Qed.

Section Ordered.
Hypothesis after_asym : forall a b, after a b = true -> after b a = false.

Lemma insert_HdRel x y l :
      inOrder after y x -> HdRel (inOrder after) y l -> HdRel (inOrder after) y (insert after x l).
    Proof.
      intros Hyx Hl. destruct l as [|z r]; simpl.
      - now constructor.
      - destruct (after x z); constructor; [|assumption].
        now apply HdRel_inv in Hl.
    Qed.

Lemma insert_Sorted x l : Sorted (inOrder after) l -> Sorted (inOrder after) (insert after x l).
    Proof.
      induction l as [|y r IH]; intro Hs; simpl.
      - repeat constructor.
      - apply Sorted_inv in Hs. destruct Hs as [Hr Hy].
        destruct (after x y) eqn:Hxy.
        + constructor; [now apply IH|].
          apply insert_HdRel; [|assumption]. now apply after_asym.
        + constructor; [now constructor|now constructor].
    Qed.

Lemma Array_sort_Sorted l : Sorted (inOrder after) (Array_sort after l).
    Proof.
      induction l as [|x l IH]; simpl; [constructor|now apply insert_Sorted].
    Qed.
End Ordered.

  (** Stability: entries that are pairwise tied keep their input order. *)
Section Stable.
Variable tied : A -> bool.
Hypothesis tied_not_after :
      forall a b, tied a = true -> tied b = true -> after a b = false.

Lemma insert_filter x l : filter tied (insert after x l) = filter tied (x :: l).
    Proof.
      induction l as [|y r IH]; [reflexivity|].
      simpl insert. destruct (after x y) eqn:Hxy; [|reflexivity].
      simpl filter in *. rewrite IH.
      destruct (tied x) eqn:Hx, (tied y) eqn:Hy; try reflexivity.
      rewrite (tied_not_after x y Hx Hy) in Hxy. discriminate.
    Qed.

Lemma Array_sort_filter l : filter tied (Array_sort after l) = filter tied l.
    Proof.
      induction l as [|x l IH]; [reflexivity|].
      simpl Array_sort. rewrite insert_filter. simpl. now rewrite IH.
    Qed.
End Stable.
End ArraySortFacts.

(** ** Order of doubles *)

Lemma SFcompare_Lt_swap a b :
  SFcompare a b = Some Lt -> SFcompare b a = Some Gt.
Proof.
  destruct a as [sa|sa| |sa ma ea], b as [sb|sb| |sb mb eb]; simpl;
    try destruct sa; try destruct sb; simpl; try discriminate; try reflexivity;
    change (Pos.compare_cont Eq) with Pos.compare;
    rewrite (Z.compare_antisym ea eb), (Pos.compare_antisym ma mb);
    destruct (ea ?= eb)%Z; simpl; try discriminate; try reflexivity;
    destruct (ma ?= mb)%positive; simpl; try discriminate; reflexivity.
Qed.

Lemma SFcompare_Eq_tie a b k :
  SFcompare a k = Some Eq -> SFcompare b k = Some Eq -> SFcompare a b = Some Eq.
Proof.
  destruct a as [sa|sa| |sa ma ea], k as [sk|sk| |sk mk ek],
           b as [sb|sb| |sb mb eb]; simpl;
    try destruct sa; try destruct sk; try destruct sb; simpl;
    try discriminate; try reflexivity;
    destruct (ea ?= ek)%Z eqn:Hea; simpl; try discriminate;
    destruct (eb ?= ek)%Z eqn:Heb; simpl; try discriminate;
    apply Z.compare_eq in Hea, Heb; subst ea eb; rewrite Z.compare_refl;
    change (Pos.compare_cont Eq) with Pos.compare;
    destruct (ma ?= mk)%positive eqn:Hma; simpl; try discriminate;
    destruct (mb ?= mk)%positive eqn:Hmb; simpl; try discriminate;
    apply Pos.compare_eq in Hma, Hmb; subst ma mb; rewrite Pos.compare_refl;
    reflexivity.
Qed.

Lemma float_ltb_asym (x y : float) :
  PrimFloat.ltb x y = true -> PrimFloat.ltb y x = false.
Proof.
  rewrite !FloatAxioms.ltb_spec. unfold SFltb. intro H.
  destruct (SFcompare (Prim2SF x) (Prim2SF y)) as [[| |]|] eqn:Hc; try discriminate.
  now rewrite (SFcompare_Lt_swap _ _ Hc).
Qed.

Lemma float_tie_not_ltb (x y k : float) :
  PrimFloat.eqb x k = true -> PrimFloat.eqb y k = true -> PrimFloat.ltb x y = false.
Proof.
  rewrite !FloatAxioms.eqb_spec, FloatAxioms.ltb_spec. unfold SFeqb, SFltb. intros Hx Hy.
  destruct (SFcompare (Prim2SF x) (Prim2SF k)) as [[| |]|] eqn:Hxk; try discriminate.
  destruct (SFcompare (Prim2SF y) (Prim2SF k)) as [[| |]|] eqn:Hyk; try discriminate.
  now rewrite (SFcompare_Eq_tie _ _ _ Hxk Hyk).
Qed.

(** ** Queries and list helpers *)

Lemma exec_Resolved {A} (db : Database) (x y : A) :
  exec db x = Resolved y -> connected db = true /\ x = y.
Proof.
  unfold exec. destruct (connected db); [|discriminate].
  intro H. injection H as H. now split.
Qed.

Lemma exec_connected {A} (db : Database) (x : A) :
  connected db = true -> exec db x = Resolved x.
Proof. unfold exec. now intros ->. Qed.

Lemma In_firstn {A} (n : nat) (l : list A) (x : A) : In x (firstn n l) -> In x l.
Proof.
  intro H. rewrite <- (firstn_skipn n l). apply in_or_app. now left.
Qed.

Lemma In_slice0 {A} (l : list A) (n : Z) (x : A) : In x (JS.slice0 l n) -> In x l.
Proof. unfold JS.slice0. apply In_firstn. Qed.

Lemma slice0_nonneg {A} (l : list A) (n : Z) :
  (0 <= n)%Z -> JS.slice0 l n = firstn (Z.to_nat n) l.
Proof.
  intro Hn. unfold JS.slice0.
  destruct (Z.ltb_spec n 0) as [Hneg|_]; [lia|].
  destruct (Z.le_ge_cases n (Z.of_nat (List.length l))) as [Hle|Hge].
  - now rewrite Z.min_l.
  - rewrite Z.min_r by assumption. rewrite Nat2Z.id.
    rewrite firstn_all. symmetry. apply firstn_all2. lia.
Qed.

Lemma Sorted_weaken {A} (R R' : A -> A -> Prop) (l : list A) :
  (forall a b, R a b -> R' a b) -> Sorted R l -> Sorted R' l.
Proof.
  intros HR Hs. induction Hs as [|a l Hs IH Hd]; constructor; [assumption|].
  destruct Hd; constructor. now apply HR.
Qed.

Lemma find_absent {A} (f : A -> bool) (l : list A) :
  (forall x, In x l -> f x = false) -> find f l = None.
Proof.
  induction l as [|y l IH]; intro H; simpl; [reflexivity|].
  rewrite (H y (or_introl eq_refl)). apply IH. intros x Hx. apply H. now right.
Qed.

Lemma sortNewestFirst_sorted l : StronglySorted newerOrEqual (sortNewestFirst l).
Proof.
  apply Sorted_StronglySorted.
  - intros a b c Hab Hbc. unfold newerOrEqual in *. lia.
  - apply Sorted_weaken
      with (R := inOrder (fun a b => Z.ltb (Job.createdAt a) (Job.createdAt b))).
    + intros a b H. unfold inOrder in H. unfold newerOrEqual. lia.
    + apply Array_sort_Sorted. intros a b H. lia.
Qed.

(** ** The recommendation engine *)

(** C6.  For a user without a profile and a positive [limit] (the only
    caller never passes 0, which the store reads as "no limit"), the call
    resolves with the first [limit] entries of the active jobs ordered from
    the newest to the oldest creation time, each with score 50 and the
    single reason "New job posting". *)
Theorem cold_start_recommendations :
  forall now db userId limit,
    JobSeekerProfile_findOne db userId = Resolved None ->
    (0 < limit)%Z ->
    exists result latest,
      getJobRecommendations now db userId limit = Resolved result
      /\ Permutation latest (filter isActive (jobs db))
      /\ StronglySorted newerOrEqual latest
      /\ map job result = firstn (Z.to_nat limit) latest
      /\ Forall (fun r => matchScore r = 50%float
                          /\ matchReasons r = ["New job posting"]) result.
Proof.
  intros now db userId limit Hprofile Hlimit.
  destruct (exec_Resolved _ _ _ Hprofile) as [Hconn _].
  eexists. exists (sortNewestFirst (filter isActive (jobs db))).
  split; [|split; [|split; [|split]]].
  - unfold getJobRecommendations. rewrite Hprofile. cbn [bind].
    unfold Job_findLatestActive. rewrite (exec_connected _ _ Hconn).
    cbn [bind rethrow]. reflexivity.
  - apply Array_sort_Permutation.
  - apply sortNewestFirst_sorted.
  - rewrite map_map. cbn [job]. rewrite map_id. unfold queryLimit.
    destruct (Z.eqb_spec limit 0) as [H0|_]; [lia|].
    now rewrite Z.abs_eq by lia.
  - apply Forall_forall. intros r Hr. apply in_map_iff in Hr.
    destruct Hr as (j & <- & _). now split.
Qed.

Lemma cold_start_recommendations_witness :
  exists result latest,
    getJobRecommendations jan2026 sampleDb "user-9" 2 = Resolved result
    /\ Permutation latest (filter isActive (jobs sampleDb))
    /\ StronglySorted newerOrEqual latest
    /\ map job result = firstn (Z.to_nat 2) latest
    /\ Forall (fun r => matchScore r = 50%float
                        /\ matchReasons r = ["New job posting"]) result.
Proof.
  apply (cold_start_recommendations jan2026 sampleDb "user-9" 2);
    [reflexivity | lia].
Defined.

Lemma getJobRecommendations_with_profile now db userId limit profile :
  JobSeekerProfile_findOne db userId = Resolved (Some profile) ->
  getJobRecommendations now db userId limit
  = Resolved (JS.slice0 (Array_sort byMatchScoreDesc
                           (map (scoreJob now profile) (candidateJobs db userId))) limit).
Proof.
  intro Hprofile. destruct (exec_Resolved _ _ _ Hprofile) as [Hconn _].
  unfold getJobRecommendations. rewrite Hprofile. cbn [bind].
  unfold Application_find, Job_findActiveNotIn.
  rewrite exec_connected by exact Hconn. cbn [bind].
  rewrite exec_connected by exact Hconn. cbn [bind rethrow]. reflexivity.
Qed.

(** C7.  For a user with a profile and a non-negative [limit], the call
    resolves with the first [limit] entries of a ranking of the scored
    candidates: the ranking is a permutation of them, no entry is followed
    by one with a strictly greater score, and entries with equal scores
    keep the order of the candidate list; so at most [limit] entries are
    returned however many candidates there are. *)
Theorem ranked_recommendations :
  forall now db userId limit profile,
    JobSeekerProfile_findOne db userId = Resolved (Some profile) ->
    (0 <= limit)%Z ->
    let scored := map (scoreJob now profile) (candidateJobs db userId) in
    exists result ranked,
      getJobRecommendations now db userId limit = Resolved result
      /\ Permutation ranked scored
      /\ Sorted scoreNotBelow ranked
      /\ (forall k,
            filter (fun r => PrimFloat.eqb (matchScore r) k) ranked
            = filter (fun r => PrimFloat.eqb (matchScore r) k) scored)
      /\ result = firstn (Z.to_nat limit) ranked
      /\ (Z.of_nat (List.length result) <= limit)%Z.
Proof.
  intros now db userId limit profile Hprofile Hlimit scored.
  exists (firstn (Z.to_nat limit) (Array_sort byMatchScoreDesc scored)),
         (Array_sort byMatchScoreDesc scored).
  split; [|split; [|split; [|split; [|split]]]].
  - rewrite (getJobRecommendations_with_profile _ _ _ _ _ Hprofile).
    now rewrite slice0_nonneg.
  - apply Array_sort_Permutation.
  - apply (Array_sort_Sorted byMatchScoreDesc).
    intros a b. apply float_ltb_asym.
  - intro k. apply Array_sort_filter.
    intros a b Ha Hb. exact (float_tie_not_ltb _ _ _ Ha Hb).
  - reflexivity.
  - pose proof (firstn_le_length (Z.to_nat limit) (Array_sort byMatchScoreDesc scored)).
    lia.
Qed.

Lemma ranked_recommendations_witness :
  let scored := map (scoreJob jan2026 reactProfile) (candidateJobs sampleDb "user-1") in
  exists result ranked,
    getJobRecommendations jan2026 sampleDb "user-1" 1 = Resolved result
    /\ Permutation ranked scored
    /\ Sorted scoreNotBelow ranked
    /\ (forall k,
          filter (fun r => PrimFloat.eqb (matchScore r) k) ranked
          = filter (fun r => PrimFloat.eqb (matchScore r) k) scored)
    /\ result = firstn (Z.to_nat 1) ranked
    /\ (Z.of_nat (List.length result) <= 1)%Z.
Proof.
  apply (ranked_recommendations jan2026 sampleDb "user-1" 1 reactProfile);
    [reflexivity | lia].
Defined.

(** C8.  For a user with a profile the call resolves, whatever the limit,
    and no returned entry is a job the user has applied to. *)
Theorem applied_jobs_excluded :
  forall now db userId limit profile,
    JobSeekerProfile_findOne db userId = Resolved (Some profile) ->
    exists result,
      getJobRecommendations now db userId limit = Resolved result
      /\ forall r, In r result -> ~ In (Job._id (job r)) (appliedJobIds db userId).
Proof.
  intros now db userId limit profile Hprofile.
  eexists. split; [apply (getJobRecommendations_with_profile _ _ _ _ _ Hprofile)|].
  intros r Hr Happlied.
  apply In_slice0, Array_sort_In, in_map_iff in Hr.
  destruct Hr as (j & <- & Hj). cbn [job scoreJob] in Happlied.
  apply filter_In in Hj. destruct Hj as [_ Hj].
  apply andb_prop in Hj. destruct Hj as [_ Hj].
  apply negb_true_iff in Hj.
  assert (existsb (String.eqb (Job._id j)) (appliedJobIds db userId) = true) as He.
  { apply existsb_exists. exists (Job._id j). split; [assumption|apply String.eqb_refl]. }
  congruence.
Qed.

Lemma applied_jobs_excluded_witness :
  exists result,
    getJobRecommendations jan2026 sampleDb "user-1" 10 = Resolved result
    /\ forall r, In r result -> ~ In (Job._id (job r)) (appliedJobIds sampleDb "user-1").
Proof.
  apply (applied_jobs_excluded jan2026 sampleDb "user-1" 10 reactProfile).
  reflexivity.
Defined.

(** ** The similarity engine *)

(** A lookup by id that resolved was made with an id that casts, on a
    reachable store. *)
Lemma Job_findById_Resolved db jobId found :
  Job_findById db jobId = Resolved found ->
  castsToObjectId jobId = true /\ connected db = true
  /\ found = find (fun j => String.eqb (Job._id j) jobId) (jobs db).
Proof.
  unfold Job_findById. destruct (castsToObjectId jobId); [|discriminate].
  intro H. apply exec_Resolved in H. destruct H as [Hconn <-]. auto.
Qed.

(** C9, as stated, fails for an id that is not an ObjectId: [job-z] is the
    id of no job, yet the lookup, and with it [getSimilarJobs], rejects with
    a CastError instead of resolving with the empty list. *)
Lemma malformed_reference_id_is_rejected :
  connected sampleDb = true
  /\ (forall j, In j (jobs sampleDb) -> Job._id j <> "job-z")
  /\ Job_findById sampleDb "job-z" = Rejected "CastError"
  /\ getSimilarJobs sampleDb "job-z" 5 = Rejected "CastError"
  /\ getSimilarJobs sampleDb "job-z" 5 <> Resolved [].
Proof.
  split; [reflexivity|]. split.
  - intros j Hj. simpl in Hj.
    destruct Hj as [<-|[<-|[<-|[<-|[]]]]]; discriminate.
  - repeat split; try reflexivity. discriminate.
Qed.

(** C9, amended.  When the given id is a well-formed ObjectId (24
    hexadecimal digits) and no job has it (ids compared as ObjectIds, that
    is without regard to the case of the digits), the lookup on a reachable
    store resolves with nothing and [getSimilarJobs] resolves with the empty
    list; it does not reject.  When the id is not a well-formed ObjectId,
    [getSimilarJobs] rejects with a CastError, whatever the store holds. *)
Theorem unknown_reference_job_gives_empty_list :
  forall db jobId limit,
    (connected db = true ->
     castsToObjectId jobId = true ->
     (forall j, In j (jobs db) -> JS.toLowerCase (Job._id j) <> JS.toLowerCase jobId) ->
     Job_findById db jobId = Resolved None
     /\ getSimilarJobs db jobId limit = Resolved [])
    /\ (castsToObjectId jobId = false ->
        getSimilarJobs db jobId limit = Rejected "CastError").
Proof.
  intros db jobId limit. split.
  - intros Hconn Hcast Habsent.
    assert (Job_findById db jobId = Resolved None) as Hfind.
    { unfold Job_findById. rewrite Hcast, (exec_connected _ _ Hconn). f_equal.
      apply find_absent. intros j Hj. apply String.eqb_neq.
      intro Heq. apply (Habsent j Hj). now rewrite Heq. }
    split; [assumption|].
    unfold getSimilarJobs. rewrite Hfind. reflexivity.
  - intro Hcast. unfold getSimilarJobs, Job_findById. now rewrite Hcast.
Qed.

Lemma unknown_reference_job_gives_empty_list_witness :
  (Job_findById catalogue "64b7f0c2a1d3e4f5a6b7c8ff" = Resolved None
   /\ getSimilarJobs catalogue "64b7f0c2a1d3e4f5a6b7c8ff" 5 = Resolved [])
  /\ getSimilarJobs catalogue "no-such-job" 5 = Rejected "CastError".
Proof.
  split.
  - apply (unknown_reference_job_gives_empty_list catalogue "64b7f0c2a1d3e4f5a6b7c8ff" 5).
    + reflexivity.
    + reflexivity.
    + intros j Hj. simpl in Hj.
      destruct Hj as [<-|[<-|[<-|[<-|[]]]]]; discriminate.
  - apply (unknown_reference_job_gives_empty_list catalogue "no-such-job" 5).
    reflexivity.
Defined.

(** * Further properties of the recommendation module *)

(** ** The score when the skills factor is out of play *)

Lemma wholeBetween_spec lo hi x :
  wholeBetween lo hi x = true -> exists z, (lo <= z <= hi)%Z /\ x = JS.ofZ z.
Proof.
  unfold wholeBetween. destruct (integerOf x) as [z|]; [|discriminate].
  intro H. apply andb_prop in H. destruct H as [H Heq].
  apply andb_prop in H. destruct H as [Hlo Hhi].
  exists z. split; [lia|]. now apply FloatAxioms.Leibniz.eqb_spec.
Qed.

Lemma experienceScore_cases now job profile :
  experienceScore now job profile = 100%float
  \/ experienceScore now job profile = 70%float
  \/ experienceScore now job profile = 40%float.
Proof.
  unfold experienceScore. cbv zeta.
  destruct (JS.ge _ _); [now left|]. destruct (JS.ge _ _); [right; now left|right; now right].
Qed.

Lemma educationScore_cases job profile :
  educationScore job profile = 100%float \/ educationScore job profile = 50%float.
Proof. unfold educationScore. destruct (hasRelevantEducation job profile); auto. Qed.

Lemma locationScore_cases job profile :
  locationScore job profile = 100%float
  \/ locationScore job profile = 70%float
  \/ locationScore job profile = 50%float.
Proof.
  unfold locationScore. destruct (Profile.location profile); [|auto]. cbv zeta.
  repeat match goal with
         | |- context [if ?c then _ else _] => destruct c
         end; auto.
Qed.

Lemma jobTypeScore_cases job profile :
  jobTypeScore job profile = 100%float \/ jobTypeScore job profile = 50%float.
Proof.
  unfold jobTypeScore. cbv zeta.
  repeat match goal with
         | |- context [if ?c then _ else _] => destruct c
         end; auto.
Qed.

(** X1.  When the skills factor does not apply (the profile or the job lists
    no skill), the score is a whole number between 0 and 100, whatever the
    other four factors contribute and whichever of them apply. *)
Theorem score_without_skills_in_range :
  forall now job profile,
    skillsApplies job profile = false ->
    exists z, (0 <= z <= 100)%Z /\ calculateMatchScore now job profile = JS.ofZ z.
Proof.
  intros now job profile Hskills.
  apply wholeBetween_spec.
  unfold calculateMatchScore, accumulate. rewrite Hskills.
  destruct (experienceScore_cases now job profile) as [-> | [-> | ->]];
    destruct (educationScore_cases job profile) as [-> | ->];
    destruct (locationScore_cases job profile) as [-> | [-> | ->]];
    destruct (jobTypeScore_cases job profile) as [-> | ->];
    destruct (experienceApplies profile), (educationApplies profile),
      (locationApplies profile), (jobTypeApplies profile);
    vm_compute; reflexivity.
Qed.

Lemma score_without_skills_in_range_witness :
  exists z, (0 <= z <= 100)%Z
            /\ calculateMatchScore dec2025 internJob halfYearProfile = JS.ofZ z.
Proof.
  apply (score_without_skills_in_range dec2025 internJob halfYearProfile).
  reflexivity.
Defined.

(** ** NaN in the experience total *)

Lemma Prim2SF_nan : Prim2SF PrimFloat.nan = S754_nan.
Proof. reflexivity. Qed.

Lemma sub_nan_l x : (PrimFloat.nan - x)%float = PrimFloat.nan.
Proof. apply Prim2SF_inj. now rewrite FloatAxioms.sub_spec, Prim2SF_nan. Qed.

Lemma sub_nan_r x : (x - PrimFloat.nan)%float = PrimFloat.nan.
Proof.
  apply Prim2SF_inj. rewrite FloatAxioms.sub_spec, Prim2SF_nan.
  now destruct (Prim2SF x).
Qed.

Lemma mul_nan_l x : (PrimFloat.nan * x)%float = PrimFloat.nan.
Proof. apply Prim2SF_inj. now rewrite FloatAxioms.mul_spec, Prim2SF_nan. Qed.

Lemma add_nan_l x : (PrimFloat.nan + x)%float = PrimFloat.nan.
Proof. apply Prim2SF_inj. now rewrite FloatAxioms.add_spec, Prim2SF_nan. Qed.

Lemma add_nan_r x : (x + PrimFloat.nan)%float = PrimFloat.nan.
Proof.
  apply Prim2SF_inj. rewrite FloatAxioms.add_spec, Prim2SF_nan.
  now destruct (Prim2SF x).
Qed.

Lemma leb_nan_r x : PrimFloat.leb x PrimFloat.nan = false.
Proof.
  rewrite FloatAxioms.leb_spec, Prim2SF_nan. unfold SFleb.
  now destruct (Prim2SF x).
Qed.

(** An entry without a start date, or without an end date and not current,
    spans NaN months. *)
Lemma monthsOf_invalid now exp :
  startDate exp = None \/ (current exp = false /\ endDate exp = None) ->
  monthsOf now exp = PrimFloat.nan.
Proof.
  unfold monthsOf. intros [Hs | [Hc He]].
  - rewrite Hs. cbn [newDate getFullYear getMonth].
    now rewrite !sub_nan_r, mul_nan_l, add_nan_l.
  - rewrite Hc, He. cbn [newDate getFullYear getMonth].
    now rewrite !sub_nan_l, mul_nan_l, add_nan_l.
Qed.

Lemma fold_months_nan now exps :
  fold_left (fun total exp => (total + JS.Math_max 0 (monthsOf now exp))%float)
    exps PrimFloat.nan = PrimFloat.nan.
Proof.
  induction exps as [|e exps IH]; simpl; [reflexivity|].
  now rewrite add_nan_l.
Qed.

Lemma fold_months_poisoned now exps e :
  In e exps ->
  monthsOf now e = PrimFloat.nan ->
  forall acc,
    fold_left (fun total exp => (total + JS.Math_max 0 (monthsOf now exp))%float)
      exps acc = PrimFloat.nan.
Proof.
  intros Hin Hnan. induction exps as [|x exps IH]; [destruct Hin|].
  intro acc. simpl. destruct Hin as [-> | Hin].
  - rewrite Hnan. change (JS.Math_max 0 PrimFloat.nan) with PrimFloat.nan.
    rewrite add_nan_r. apply fold_months_nan.
  - now apply IH.
Qed.

(** X2.  A work-history entry whose start date is absent, or that is not
    marked current and whose end date is absent (the field is [undefined];
    an end date set to [null] is the date 1970-01-01 and is not such an
    entry), turns the experience total into NaN, whatever the other entries
    are: the experience sub-score is then 40 and no experience reason is
    given. *)
Theorem open_ended_position_poisons_experience :
  forall now job profile exps e,
    Profile.experience profile = Some exps ->
    In e exps ->
    startDate e = None \/ (current e = false /\ endDate e = None) ->
    calculateTotalExperience now (Profile.experience profile) = PrimFloat.nan
    /\ experienceScore now job profile = 40%float
    /\ forall reasons, experienceReason now profile reasons = reasons.
Proof.
  intros now job profile exps e Hexp Hin Hbad.
  assert (calculateTotalExperience now (Profile.experience profile) = PrimFloat.nan)
    as Htotal.
  { rewrite Hexp. unfold calculateTotalExperience.
    destruct exps as [|x xs]; [destruct Hin|].
    rewrite (fold_months_poisoned now (x :: xs) e Hin (monthsOf_invalid now e Hbad)).
    reflexivity. }
  split; [assumption|]. split.
  - unfold experienceScore. rewrite Htotal. unfold JS.ge. now rewrite !leb_nan_r.
  - intro reasons. unfold experienceReason. rewrite Htotal.
    destruct (experienceApplies profile); reflexivity.
Qed.

Lemma open_ended_position_poisons_experience_witness :
  calculateTotalExperience jan2026 (Profile.experience openEndedProfile) = PrimFloat.nan
  /\ experienceScore jan2026 reactJob openEndedProfile = 40%float
  /\ forall reasons, experienceReason jan2026 openEndedProfile reasons = reasons.
Proof.
  apply (open_ended_position_poisons_experience jan2026 reactJob openEndedProfile
           (orNil (Profile.experience openEndedProfile))
           {| startDate := Some (DateAt 2020 1 1); endDate := None; current := false |}).
  - reflexivity.
  - right. left. reflexivity.
  - right. split; reflexivity.
Defined.

(** The same history with the end date absent and with the end date set to
    [null]: NaN in the first case, the ten years of the first position in the
    second, where the open position counts from its start back to 1970 and
    so for nothing. *)
Example null_end_date_counts_from_1970 :
  tenYearsAnd Undefined = openEndedProfile
  /\ calculateTotalExperience jan2026 (Profile.experience (tenYearsAnd Undefined))
     = PrimFloat.nan
  /\ calculateTotalExperience jan2026 (Profile.experience (tenYearsAnd Null)) = 10%float
  /\ experienceScore jan2026 reactJob (tenYearsAnd Null) = 100%float.
Proof. repeat split; vm_compute; reflexivity. Qed.

(** ** Substring matching at the edges *)

Lemma prefix_refl s : String.prefix s s = true.
Proof.
  induction s as [|c s IH]; simpl; [reflexivity|].
  destruct (ascii_dec c c) as [_|Hne]; [assumption|now elim Hne].
Qed.

Lemma includes_empty s : JS.includes s "" = true.
Proof. destruct s; reflexivity. Qed.

Lemma includes_refl s : JS.includes s s = true.
Proof.
  destruct s as [|c s]; [reflexivity|].
  unfold JS.includes; fold JS.includes. now rewrite prefix_refl.
Qed.

Lemma matching_blank xs ys : In "" ys -> matching xs ys = xs.
Proof.
  intro Hin. unfold matching. induction xs as [|x xs IH]; simpl; [reflexivity|].
  rewrite IH.
  assert (JS.some (fun y => JS.includes y x || JS.includes x y) ys = true) as ->;
    [|reflexivity].
  apply existsb_exists. exists "". split; [assumption|].
  rewrite includes_empty. apply orb_true_r.
Qed.

(** X3.  An education entry whose field of study is missing or blank, or
    contains "computer", "engineering" or "business", makes the education
    sub-score 100 for every job, whatever its title and description. *)
Theorem blank_field_of_study_is_relevant :
  forall job profile edus e,
    Profile.education profile = Some edus ->
    In e edus ->
    (let field := JS.toLowerCase (JS.orEmpty (fieldOfStudy e)) in
     field = "" \/ JS.includes field "computer" = true
     \/ JS.includes field "engineering" = true \/ JS.includes field "business" = true) ->
    educationScore job profile = 100%float.
Proof.
  intros job profile edus e Hedu Hin Hfield.
  unfold educationScore.
  assert (hasRelevantEducation job profile = true) as ->; [|reflexivity].
  unfold hasRelevantEducation. rewrite Hedu. apply existsb_exists.
  exists e. split; [assumption|]. cbv zeta in *.
  destruct Hfield as [-> | [-> | [-> | ->]]];
    rewrite ?includes_empty, ?orb_true_r; reflexivity.
Qed.

Lemma blank_field_of_study_is_relevant_witness :
  educationScore reactJob graduateProfile = 100%float.
Proof.
  apply (blank_field_of_study_is_relevant reactJob graduateProfile
           [ {| fieldOfStudy := None |} ] {| fieldOfStudy := None |}).
  - reflexivity.
  - left. reflexivity.
  - left. reflexivity.
Defined.

(** X4.  The score reads neither the job's salary nor the seeker's expected
    salary: replacing both leaves the score unchanged, so salary never
    affects the ranking. *)
Theorem score_ignores_salary :
  forall now job profile jobSalary expected,
    calculateMatchScore now (withJobSalary job jobSalary)
      (withExpectedSalary profile expected)
    = calculateMatchScore now job profile.
Proof.
  intros now job profile jobSalary expected.
  destruct job, profile. reflexivity.
Qed.

(** X5.  In the skills factor a profile skill that equals a requirement up
    to letter case is always counted, and a job that lists a blank
    requirement is matched by every profile skill, so that the skill score is
    then 100 times the number of profile skills over the number of
    requirements. *)
Theorem skill_matching_edges :
  forall job profile,
    let profileSkills := map JS.toLowerCase (orNil (Profile.skills profile)) in
    let jobRequirements := map JS.toLowerCase (jobSkillsOf job) in
    (forall x y,
       In x (orNil (Profile.skills profile)) -> In y (jobSkillsOf job) ->
       JS.toLowerCase x = JS.toLowerCase y ->
       In (JS.toLowerCase x) (matching profileSkills jobRequirements))
    /\ (In "" (jobSkillsOf job) ->
        matching profileSkills jobRequirements = profileSkills
        /\ skillScore job profile
           = (JS.ofNat (List.length (orNil (Profile.skills profile)))
              / JS.Math_max (JS.ofNat (List.length (jobSkillsOf job))) 1 * 100)%float).
Proof.
  intros job profile profileSkills jobRequirements. split.
  - intros x y Hx Hy Heq. unfold matching. apply filter_In. split.
    + unfold profileSkills. now apply in_map.
    + apply existsb_exists. exists (JS.toLowerCase y). split.
      * unfold jobRequirements. now apply in_map.
      * rewrite Heq, includes_refl. reflexivity.
  - intro Hblank.
    assert (matching profileSkills jobRequirements = profileSkills) as Hall.
    { apply matching_blank. unfold jobRequirements.
      change "" with (JS.toLowerCase ""). now apply in_map. }
    split; [assumption|].
    unfold skillScore. cbv zeta. fold profileSkills jobRequirements.
    rewrite Hall. unfold profileSkills, jobRequirements. now rewrite !length_map.
Qed.

Lemma skill_matching_edges_witness :
  matching (map JS.toLowerCase (orNil (Profile.skills graduateProfile)))
    (map JS.toLowerCase (jobSkillsOf blankSkillJob))
  = map JS.toLowerCase (orNil (Profile.skills graduateProfile))
  /\ skillScore blankSkillJob graduateProfile
     = (JS.ofNat (List.length (orNil (Profile.skills graduateProfile)))
        / JS.Math_max (JS.ofNat (List.length (jobSkillsOf blankSkillJob))) 1 * 100)%float.
Proof.
  apply (skill_matching_edges blankSkillJob graduateProfile).
  right. left. reflexivity.
Defined.

(** ** The shape of the reason list *)

Lemma length_pushIf c r (l : list string) :
  (List.length l <= List.length (pushIf c r l) <= List.length l + 1)%nat.
Proof.
  unfold pushIf. destruct c; [rewrite length_app; simpl|]; lia.
Qed.

Lemma skillsReason_origin job profile l t :
  In t (skillsReason job profile l) ->
  In t l \/ exists s, t = ("Skills match: " ++ s)%string.
Proof.
  unfold skillsReason. destruct (skillsApplies job profile); [|auto].
  cbv zeta. rewrite In_pushIf. intros [H|[_ H]]; [auto|]. right. eauto.
Qed.

Lemma experienceReason_origin now profile l t :
  In t (experienceReason now profile l) ->
  In t l \/ exists s, t = (s ++ " years of experience")%string.
Proof.
  unfold experienceReason. destruct (experienceApplies profile); [|auto].
  cbv zeta. rewrite In_pushIf. intros [H|[_ H]]; [auto|]. right. eauto.
Qed.

Lemma locationReason_origin job profile l t :
  In t (locationReason job profile l) ->
  In t l
  \/ (t = "Remote work available" /\ isRemote job = true)
  \/ (t = "Location matches preference" /\ isRemote job = false).
Proof.
  unfold locationReason. destruct (isRemote job).
  - rewrite in_app_iff. intros [H|[H|[]]]; [auto|]. right. left. now split.
  - destruct (Profile.location profile); [|auto].
    cbv zeta. rewrite In_pushIf. intros [H|[_ H]]; [auto|]. right. right. now split.
Qed.

Lemma jobTypeReason_origin job profile l t :
  In t (jobTypeReason job profile l) ->
  In t l \/ exists s, t = ("Matches preferred job type: " ++ s)%string.
Proof.
  unfold jobTypeReason. destruct (jobTypeApplies profile); [|auto].
  rewrite In_pushIf. intros [H|[_ H]]; [auto|]. right. eauto.
Qed.

(** Where a reason comes from, before the fallback is considered. *)
Lemma reason_origin now job profile t :
  In t (salaryReason job profile
          (jobTypeReason job profile
             (locationReason job profile
                (experienceReason now profile (skillsReason job profile []))))) ->
  (exists s, t = ("Skills match: " ++ s)%string)
  \/ (exists s, t = (s ++ " years of experience")%string)
  \/ (t = "Remote work available" /\ isRemote job = true)
  \/ (t = "Location matches preference" /\ isRemote job = false)
  \/ (exists s, t = ("Matches preferred job type: " ++ s)%string)
  \/ t = "Salary in expected range".
Proof.
  unfold salaryReason. rewrite In_pushIf. intros [H|[_ H]]; [|tauto].
  apply jobTypeReason_origin in H. destruct H as [H|H]; [|tauto].
  apply locationReason_origin in H. destruct H as [H|H]; [|tauto].
  apply experienceReason_origin in H. destruct H as [H|H]; [|tauto].
  apply skillsReason_origin in H. destruct H as [[]|H]. tauto.
Qed.

Lemma skillsReason_length job profile l :
  (List.length (skillsReason job profile l) <= List.length l + 1)%nat.
Proof.
  unfold skillsReason. destruct (skillsApplies job profile); [|lia].
  cbv zeta. apply length_pushIf.
Qed.

Lemma experienceReason_length now profile l :
  (List.length (experienceReason now profile l) <= List.length l + 1)%nat.
Proof.
  unfold experienceReason. destruct (experienceApplies profile); [|lia].
  cbv zeta. apply length_pushIf.
Qed.

Lemma locationReason_length job profile l :
  (List.length (locationReason job profile l) <= List.length l + 1)%nat.
Proof.
  unfold locationReason. destruct (isRemote job).
  - rewrite length_app. simpl. lia.
  - destruct (Profile.location profile); [|lia]. cbv zeta. apply length_pushIf.
Qed.

Lemma jobTypeReason_length job profile l :
  (List.length (jobTypeReason job profile l) <= List.length l + 1)%nat.
Proof.
  unfold jobTypeReason. destruct (jobTypeApplies profile); [|lia].
  apply length_pushIf.
Qed.

Lemma reasons_length_before_fallback now job profile :
  (List.length
     (salaryReason job profile
        (jobTypeReason job profile
           (locationReason job profile
              (experienceReason now profile (skillsReason job profile []))))) <= 5)%nat.
Proof.
  pose proof (skillsReason_length job profile []) as H1.
  pose proof (experienceReason_length now profile (skillsReason job profile [])) as H2.
  pose proof (locationReason_length job profile
                (experienceReason now profile (skillsReason job profile []))) as H3.
  pose proof (jobTypeReason_length job profile
                (locationReason job profile
                   (experienceReason now profile (skillsReason job profile [])))) as H4.
  unfold salaryReason.
  pose proof (length_pushIf (salaryInRange job profile) "Salary in expected range"
                (jobTypeReason job profile
                   (locationReason job profile
                      (experienceReason now profile (skillsReason job profile [])))))
    as H5.
  simpl in H1. lia.
Qed.

(** A tactic for [s ++ " years of experience" = "..."]: try the short
    prefixes, then compare lengths. *)
Ltac years_text_clash H :=
  match type of H with
  | _ = (?s ++ _)%string =>
      destruct s as [|? [|? [|? [|? [|? [|? [|? [|? s]]]]]]]];
      simpl in H; try discriminate H;
      apply (f_equal String.length) in H; simpl in H;
      rewrite ?length_string_append in H; simpl in H; lia
  end.

(** X6.  The reason list is never empty and has at most five entries, and
    "New opportunity" occurs in it only as its sole entry. *)
Theorem reasons_never_empty :
  forall now job profile,
    let reasons := getMatchReasons now job profile in
    reasons <> []
    /\ (List.length reasons <= 5)%nat
    /\ (In "New opportunity" reasons <-> reasons = ["New opportunity"]).
Proof.
  intros now job profile. unfold getMatchReasons. cbv zeta.
  pose proof (reasons_length_before_fallback now job profile) as Hlen.
  pose proof (reason_origin now job profile "New opportunity") as Horigin.
  destruct (salaryReason job profile _) as [|r rs] eqn:Hr.
  - simpl. repeat split; auto; try discriminate; lia.
  - cbn [List.length Nat.eqb pushIf]. repeat split; try discriminate; try assumption.
    + intro H. exfalso.
      destruct (Horigin H) as [[s Hs]|[[s Hs]|[[Hs _]|[[Hs _]|[[s Hs]|Hs]]]]];
        try discriminate Hs.
      years_text_clash Hs.
    + intro H. rewrite H. now left.
Qed.

(** X7.  "Remote work available" is given exactly for remote jobs, and
    then "Location matches preference" is not given: the city is compared
    only for jobs that are not remote. *)
Theorem remote_reason_iff_remote :
  forall now job profile,
    (In "Remote work available" (getMatchReasons now job profile) <-> isRemote job = true)
    /\ (In "Location matches preference" (getMatchReasons now job profile) ->
        isRemote job = false).
Proof.
  intros now job profile. unfold getMatchReasons. cbv zeta.
  rewrite !In_pushIf. split; [split|].
  - intros [H|[_ H]]; [|discriminate H].
    destruct (reason_origin now job profile _ H)
      as [[s Hs]|[[s Hs]|[[_ Hr]|[[Hs _]|[[s Hs]|Hs]]]]];
      try discriminate Hs; try assumption.
    years_text_clash Hs.
  - intro Hremote. left. unfold salaryReason. rewrite In_pushIf. left.
    unfold jobTypeReason.
    assert (In "Remote work available"
              (locationReason job profile
                 (experienceReason now profile (skillsReason job profile [])))) as Hin.
    { unfold locationReason. rewrite Hremote. apply in_or_app. right. now left. }
    destruct (jobTypeApplies profile); [|assumption].
    rewrite In_pushIf. now left.
  - intros [H|[_ H]]; [|discriminate H].
    destruct (reason_origin now job profile _ H)
      as [[s Hs]|[[s Hs]|[[Hs _]|[[_ Hr]|[[s Hs]|Hs]]]]];
      try discriminate Hs; try assumption.
    years_text_clash Hs.
Qed.

Lemma remote_reason_iff_remote_witness :
  In "Remote work available" (getMatchReasons jan2026 remoteJob berlinProfile).
Proof.
  apply (remote_reason_iff_remote jan2026 remoteJob berlinProfile). reflexivity.
Defined.

(** ** The similarity engine, beyond the missing reference job *)

Lemma NoDup_firstn {A} (n : nat) (l : list A) : NoDup l -> NoDup (firstn n l).
Proof.
  intro H. rewrite <- (firstn_skipn n l) in H. now apply NoDup_app_remove_r in H.
Qed.

(** Filtering a list of jobs keeps their ids distinct. *)
Lemma distinct_ids_filter (keep : Job.t -> bool) (js : list Job.t) :
  NoDup (map Job._id js) -> NoDup (map Job._id (filter keep js)).
Proof.
  intro Hids. induction js as [|j js IH]; simpl; [constructor|].
  simpl in Hids. apply NoDup_cons_iff in Hids. destruct Hids as [Hfresh Hrest].
  destruct (keep j); [|now apply IH].
  simpl. apply NoDup_cons; [|now apply IH].
  rewrite in_map_iff. intros (k & Hk & Hin). apply filter_In in Hin.
  apply Hfresh. rewrite in_map_iff. exists k. tauto.
Qed.

(** X8.  When the reference job exists and [limit] is not negative,
    [getSimilarJobs] resolves with the jobs of the first [limit] entries of
    a ranking of the other active jobs: a permutation of them in which no
    entry is followed by one of strictly greater similarity.  Every returned
    job is an active job of the store, and the reference job is never among
    them. *)
Theorem similar_jobs_ranking :
  forall db jobId limit referenceJob,
    Job_findById db jobId = Resolved (Some referenceJob) ->
    (0 <= limit)%Z ->
    let scored :=
      map (fun j => {| candidate := j; similarity := similarityScore j referenceJob |})
        (otherActiveJobs db jobId) in
    exists result ranked,
      getSimilarJobs db jobId limit = Resolved result
      /\ Permutation ranked scored
      /\ Sorted similarityNotBelow ranked
      /\ result = map candidate (firstn (Z.to_nat limit) ranked)
      /\ (Z.of_nat (List.length result) <= limit)%Z
      /\ forall j, In j result ->
           In j (jobs db) /\ isActive j = true /\ Job._id j <> jobId.
Proof.
  intros db jobId limit referenceJob Href Hlimit scored.
  destruct (Job_findById_Resolved _ _ _ Href) as (_ & Hconn & _).
  exists (map candidate (firstn (Z.to_nat limit) (Array_sort bySimilarityDesc scored))),
         (Array_sort bySimilarityDesc scored).
  split; [|split; [|split; [|split; [|split]]]].
  - unfold getSimilarJobs. rewrite Href. cbn [bind].
    unfold Job_findOtherActive. rewrite exec_connected by exact Hconn.
    cbn [bind rethrow]. now rewrite slice0_nonneg.
  - apply Array_sort_Permutation.
  - apply (Array_sort_Sorted bySimilarityDesc). intros a b. apply float_ltb_asym.
  - reflexivity.
  - rewrite length_map.
    pose proof (firstn_le_length (Z.to_nat limit) (Array_sort bySimilarityDesc scored)).
    lia.
  - intros j Hj. apply in_map_iff in Hj. destruct Hj as (s & <- & Hs).
    apply In_firstn, Array_sort_In, in_map_iff in Hs.
    destruct Hs as (c & <- & Hc). cbn [candidate].
    apply filter_In in Hc. destruct Hc as [Hin Hc].
    apply andb_prop in Hc. destruct Hc as [Hne Hact].
    repeat split; try assumption.
    apply String.eqb_neq. now apply negb_true_iff.
Qed.

Lemma similar_jobs_ranking_witness :
  let scored :=
    map (fun j => {| candidate := j;
                     similarity :=
                       similarityScore j
                         (posting "64b7f0c2a1d3e4f5a6b7c801" "active" 100 ["React"]) |})
      (otherActiveJobs catalogue "64b7f0c2a1d3e4f5a6b7c801") in
  exists result ranked,
    getSimilarJobs catalogue "64b7f0c2a1d3e4f5a6b7c801" 1 = Resolved result
    /\ Permutation ranked scored
    /\ Sorted similarityNotBelow ranked
    /\ result = map candidate (firstn (Z.to_nat 1) ranked)
    /\ (Z.of_nat (List.length result) <= 1)%Z
    /\ forall j, In j result ->
         In j (jobs catalogue) /\ isActive j = true
         /\ Job._id j <> "64b7f0c2a1d3e4f5a6b7c801".
Proof.
  apply (similar_jobs_ranking catalogue "64b7f0c2a1d3e4f5a6b7c801" 1
           (posting "64b7f0c2a1d3e4f5a6b7c801" "active" 100 ["React"]));
    [reflexivity | lia].
Defined.

(** ** Failure of the store *)

(** X9.  Neither entry point handles the failure of its first query: when
    the profile lookup rejects, [getJobRecommendations] rejects with the same
    error, and when the lookup of the reference job rejects,
    [getSimilarJobs] rejects with the same error.  That lookup rejects when
    the store cannot be reached and also, on a reachable store, with a
    CastError when the id is not a well-formed ObjectId; it resolves
    otherwise, and then [getSimilarJobs] resolves too. *)
Theorem store_failure_propagates :
  forall now db userId jobId limit,
    (forall e, JobSeekerProfile_findOne db userId = Rejected e ->
               getJobRecommendations now db userId limit = Rejected e)
    /\ (forall e, Job_findById db jobId = Rejected e ->
                  getSimilarJobs db jobId limit = Rejected e)
    /\ (connected db = false ->
        (exists e, getJobRecommendations now db userId limit = Rejected e)
        /\ (exists e, getSimilarJobs db jobId limit = Rejected e))
    /\ (castsToObjectId jobId = false ->
        getSimilarJobs db jobId limit = Rejected "CastError")
    /\ (connected db = true -> castsToObjectId jobId = true ->
        exists result, getSimilarJobs db jobId limit = Resolved result).
Proof.
  intros now db userId jobId limit.
  split; [|split; [|split; [|split]]].
  - intros e He. unfold getJobRecommendations. rewrite He. reflexivity.
  - intros e He. unfold getSimilarJobs. rewrite He. reflexivity.
  - intro Hconn.
    unfold getJobRecommendations, getSimilarJobs, JobSeekerProfile_findOne,
      Job_findById, exec.
    rewrite Hconn. split; [eexists; reflexivity|].
    destruct (castsToObjectId jobId); eexists; reflexivity.
  - intro Hcast. unfold getSimilarJobs, Job_findById. rewrite Hcast. reflexivity.
  - intros Hconn Hcast.
    unfold getSimilarJobs, Job_findById, Job_findOtherActive, exec.
    rewrite Hcast, Hconn. cbn [bind].
    destruct (find _ (jobs db)); cbn [bind rethrow]; eexists; reflexivity.
Qed.

Lemma store_failure_propagates_witness :
  ((exists e, getJobRecommendations jan2026 (unreachable catalogue) "user-1" 10 = Rejected e)
   /\ (exists e, getSimilarJobs (unreachable catalogue) "64b7f0c2a1d3e4f5a6b7c801" 10
                 = Rejected e))
  /\ getSimilarJobs catalogue "job-a" 10 = Rejected "CastError"
  /\ exists result, getSimilarJobs catalogue "64b7f0c2a1d3e4f5a6b7c801" 10 = Resolved result.
Proof.
  pose proof (store_failure_propagates jan2026 (unreachable catalogue) "user-1"
                "64b7f0c2a1d3e4f5a6b7c801" 10) as (_ & _ & Hdown & _).
  pose proof (store_failure_propagates jan2026 catalogue "user-1" "job-a" 10)
    as (_ & _ & _ & Hcast & _).
  pose proof (store_failure_propagates jan2026 catalogue "user-1"
                "64b7f0c2a1d3e4f5a6b7c801" 10) as (_ & _ & _ & _ & Hgood).
  split; [|split].
  - apply Hdown. reflexivity.
  - apply Hcast. reflexivity.
  - apply Hgood; reflexivity.
Defined.

(** ** What the recommendation lists contain *)

(** X10.  For a user with a profile, whatever the limit, every returned
    entry is an active job of the store together with its own score and
    reasons, and if the ids in the store are distinct no job is recommended
    twice. *)
Theorem recommended_jobs_are_distinct_candidates :
  forall now db userId limit profile,
    JobSeekerProfile_findOne db userId = Resolved (Some profile) ->
    exists result,
      getJobRecommendations now db userId limit = Resolved result
      /\ (forall r, In r result ->
            In (job r) (jobs db) /\ isActive (job r) = true
            /\ matchScore r = calculateMatchScore now (job r) profile
            /\ matchReasons r = getMatchReasons now (job r) profile)
      /\ (NoDup (map Job._id (jobs db)) ->
          NoDup (map (fun r => Job._id (job r)) result)).
Proof.
  intros now db userId limit profile Hprofile.
  eexists. split; [apply (getJobRecommendations_with_profile _ _ _ _ _ Hprofile)|].
  split.
  - intros r Hr. apply In_slice0, Array_sort_In, in_map_iff in Hr.
    destruct Hr as (j & <- & Hj). cbn [job matchScore matchReasons scoreJob].
    apply filter_In in Hj. destruct Hj as [Hin Hj].
    apply andb_prop in Hj. destruct Hj as [Hact _]. auto.
  - intro Hids. unfold JS.slice0. rewrite <- firstn_map. apply NoDup_firstn.
    apply Permutation_NoDup
      with (l := map (fun r => Job._id (job r))
                   (map (scoreJob now profile) (candidateJobs db userId))).
    + apply Permutation_sym, Permutation_map, Array_sort_Permutation.
    + rewrite map_map. cbn [job scoreJob]. now apply distinct_ids_filter.
Qed.

Lemma recommended_jobs_are_distinct_candidates_witness :
  exists result,
    getJobRecommendations jan2026 sampleDb "user-1" 10 = Resolved result
    /\ (forall r, In r result ->
          In (job r) (jobs sampleDb) /\ isActive (job r) = true
          /\ matchScore r = calculateMatchScore jan2026 (job r) reactProfile
          /\ matchReasons r = getMatchReasons jan2026 (job r) reactProfile)
    /\ (NoDup (map Job._id (jobs sampleDb)) ->
        NoDup (map (fun r => Job._id (job r)) result)).
Proof.
  apply (recommended_jobs_are_distinct_candidates jan2026 sampleDb "user-1" 10 reactProfile).
  reflexivity.
Defined.

(** X11.  The cold start does not look at applications or at the clock: for
    a user without a profile the result is the same whatever applications
    the store holds, so jobs the user has applied to are listed too. *)
Theorem cold_start_ignores_applications :
  forall now now' db userId limit apps,
    JobSeekerProfile_findOne db userId = Resolved None ->
    getJobRecommendations now' (withApplications db apps) userId limit
    = getJobRecommendations now db userId limit.
Proof.
  intros now now' db userId limit apps Hprofile.
  unfold getJobRecommendations.
  change (JobSeekerProfile_findOne (withApplications db apps) userId)
    with (JobSeekerProfile_findOne db userId).
  rewrite Hprofile. reflexivity.
Qed.

Lemma cold_start_ignores_applications_witness :
  getJobRecommendations dec2025 (withApplications sampleDb coldStartApplications) "user-9" 2
  = getJobRecommendations jan2026 sampleDb "user-9" 2.
Proof.
  apply (cold_start_ignores_applications jan2026 dec2025 sampleDb "user-9" 2
           coldStartApplications).
  reflexivity.
Defined.

(** X12.  A limit that is not positive, for a user with a profile: the
    ranking is cut by [slice(0, limit)], so limit 0 gives the empty list and
    a negative limit drops that many entries from the end of the ranking
    instead of bounding the number returned. *)
Theorem nonpositive_limit :
  forall now db userId limit profile,
    (limit <= 0)%Z ->
    JobSeekerProfile_findOne db userId = Resolved (Some profile) ->
    let ranked :=
      Array_sort byMatchScoreDesc
        (map (scoreJob now profile) (candidateJobs db userId)) in
    getJobRecommendations now db userId limit
    = Resolved (if (limit =? 0)%Z then []
                else firstn (List.length ranked - Z.to_nat (- limit)) ranked).
Proof.
  intros now db userId limit profile Hlimit Hprofile ranked.
  rewrite (getJobRecommendations_with_profile _ _ _ _ _ Hprofile).
  fold ranked. unfold JS.slice0.
  destruct (Z.ltb_spec limit 0) as [Hneg|Hzero].
  - destruct (Z.eqb_spec limit 0) as [H0|_]; [lia|]. f_equal. f_equal. lia.
  - assert (limit = 0%Z) as -> by lia.
    rewrite Z.min_l by lia. reflexivity.
Qed.

Lemma nonpositive_limit_witness :
  let ranked :=
    Array_sort byMatchScoreDesc
      (map (scoreJob jan2026 reactProfile) (candidateJobs sampleDb "user-1")) in
  getJobRecommendations jan2026 sampleDb "user-1" (-1)
  = Resolved (if (-1 =? 0)%Z then []
              else firstn (List.length ranked - Z.to_nat (- -1)) ranked).
Proof.
  apply (nonpositive_limit jan2026 sampleDb "user-1" (-1) reactProfile);
    [lia | reflexivity].
Defined.

(** With two candidates, limit [-1] returns one recommendation, not none and
    not both. *)
Example negative_limit_drops_last :
  exists only,
    getJobRecommendations jan2026 sampleDb "user-1" (-1) = Resolved [only]
    /\ Job._id (job only) = "job-a"
    /\ List.length (candidateJobs sampleDb "user-1") = 2%nat.
Proof.
  vm_compute. eexists. repeat split.
Qed.

(** * Profile completion *)

(** X13.  A job seeker's completion percentage is determined by how many of
    the eight items hold, and is 0, 13, 25, 38, 50, 63, 75, 88 or 100 (the
    halves round up); the profile is stored as complete exactly when at
    least six items hold. *)
Theorem seeker_completion_table :
  forall doc,
    let n := countTrue (SeekerDocument.items doc) in
    SeekerDocument.calculateCompletion doc
    = nth n [0; 13; 25; 38; 50; 63; 75; 88; 100]%float 0%float
    /\ SeekerDocument.isProfileComplete doc = Nat.leb 6 n
    /\ (SeekerDocument.calculateCompletion doc = 100%float <-> n = 8%nat).
Proof.
  intro doc.
  unfold SeekerDocument.isProfileComplete, SeekerDocument.calculateCompletion,
    SeekerDocument.items.
  generalize (present (SeekerDocument.firstName doc) && present (SeekerDocument.lastName doc))
    (present (SeekerDocument.phone doc))
    (present match Profile.location (SeekerDocument.profile doc) with
             | Some l => city l
             | None => None
             end)
    (nonEmptyArray (Profile.skills (SeekerDocument.profile doc)))
    (nonEmptyArray (Profile.experience (SeekerDocument.profile doc)))
    (nonEmptyArray (Profile.education (SeekerDocument.profile doc)))
    (present (SeekerDocument.resumeUrl doc)) (present (SeekerDocument.bio doc)).
  intros b1 b2 b3 b4 b5 b6 b7 b8.
  destruct b1, b2, b3, b4, b5, b6, b7, b8;
    (split; [vm_compute; reflexivity|]); (split; [vm_compute; reflexivity|]);
    vm_compute; split; intro H; try reflexivity; try discriminate H;
    apply (f_equal (fun x => PrimFloat.eqb x 100)) in H; vm_compute in H;
    discriminate H.
Qed.

(** X14.  An employer's completion percentage is determined by how many of
    the seven items hold, and is 0, 14, 29, 43, 57, 71, 86 or 100; the
    profile is stored as complete exactly when at least five items hold. *)
Theorem employer_completion_table :
  forall doc,
    let n := countTrue (EmployerDocument.items doc) in
    EmployerDocument.calculateCompletion doc
    = nth n [0; 14; 29; 43; 57; 71; 86; 100]%float 0%float
    /\ EmployerDocument.isProfileComplete doc = Nat.leb 5 n.
Proof.
  intro doc.
  unfold EmployerDocument.isProfileComplete, EmployerDocument.calculateCompletion,
    EmployerDocument.items.
  generalize (present (EmployerDocument.companyName doc))
    (present (EmployerDocument.industry doc))
    (present (EmployerDocument.companySize doc))
    (present (EmployerDocument.chained (EmployerDocument.locationCity doc)))
    (present (EmployerDocument.description doc))
    (present (EmployerDocument.chained (EmployerDocument.contactPersonName doc)))
    (present (EmployerDocument.logo doc)).
  intros b1 b2 b3 b4 b5 b6 b7.
  destruct b1, b2, b3, b4, b5, b6, b7; split; vm_compute; reflexivity.
Qed.

(** * Notifications *)

Lemma nonEmpty_append_l s t : JS.nonEmpty s = true -> JS.nonEmpty (s ++ t) = true.
Proof. destruct s; [discriminate|reflexivity]. Qed.

Lemma nonEmpty_append_r s t : JS.nonEmpty t = true -> JS.nonEmpty (s ++ t) = true.
Proof. destruct s; [trivial|reflexivity]. Qed.

Lemma createNotification_stored store options :
  reachable store = true ->
  In (Notification.type options) Notification.types ->
  JS.nonEmpty (Notification.title options) = true ->
  JS.nonEmpty (Notification.message options) = true ->
  storedAs store (createNotification store options).
Proof.
  intros Hreach Htype Htitle Hmessage.
  assert (Notification.valid options = true) as Hvalid.
  { unfold Notification.valid. rewrite Htitle, Hmessage, !andb_true_r.
    apply existsb_exists. exists (Notification.type options).
    split; [assumption|apply String.eqb_refl]. }
  exists options. split; [|assumption].
  unfold createNotification, Notification_create. now rewrite Hvalid, Hreach.
Qed.

(** Title and message of a helper are not empty: they are literals, or
    have a literal part. *)
Ltac stored_text :=
  first [ reflexivity
        | cbn; reflexivity
        | cbn [Notification.message Notification.title];
          repeat (first [reflexivity | apply nonEmpty_append_r]) ].

(** X15.  The two "banned" helpers never create a notification: their types
    are not in the schema's enumeration, so validation fails, the failure is
    swallowed, and they resolve with [null] leaving the collection as it
    was, whether or not the store can be reached. *)
Theorem banned_notifications_are_never_stored :
  forall store jobSeekerId name title,
    notifyEmployerBanned store jobSeekerId name title = (None, store)
    /\ notifyTrainingCenterBanned store jobSeekerId name title = (None, store).
Proof.
  intros store jobSeekerId name title. split; reflexivity.
Qed.

(** X16.  With a reachable store every other helper stores exactly one
    notification and returns it: its type is in the schema's enumeration and
    its title and message are never empty, whatever names and titles are
    passed, for every application status and every role. *)
Theorem notifications_are_stored :
  forall store a b c d s t u,
    reachable store = true ->
    storedAs store (notifyApplicationReceived store a b c d s t)
    /\ (forall status, In status applicationStatuses ->
          storedAs store (notifyApplicationStatus store a b c s t status))
    /\ storedAs store (notifyInterviewScheduled store a b c s t u)
    /\ storedAs store (notifyFeedbackReceived store a b c s t)
    /\ storedAs store (notifyJobRecommendation store a b s t u)
    /\ (forall role, In role userRoles -> storedAs store (notifyWelcome store a role)).
Proof.
  intros store a b c d s t u Hreach.
  split; [|split; [|split; [|split; [|split]]]].
  - apply createNotification_stored; [assumption|cbn; auto 15|stored_text..].
  - intros status Hstatus. simpl in Hstatus.
    destruct Hstatus as [<-|[<-|[<-|[<-|[<-|[<-|[<-|[]]]]]]]];
      (apply createNotification_stored; [assumption|cbn; auto 15|stored_text..]).
  - apply createNotification_stored; [assumption|cbn; auto 15|stored_text..].
  - apply createNotification_stored; [assumption|cbn; auto 15|stored_text..].
  - apply createNotification_stored; [assumption|cbn; auto 15|stored_text..].
  - intros role Hrole. simpl in Hrole.
    destruct Hrole as [<-|[<-|[<-|[<-|[]]]]];
      (apply createNotification_stored; [assumption|cbn; auto 15|stored_text..]).
Qed.

Lemma notifications_are_stored_witness :
  storedAs emptyStore
    (notifyApplicationStatus emptyStore "user-1" "app-1" "job-a" "Developer" "Acme"
       "withdrawn").
Proof.
  apply (notifications_are_stored emptyStore "user-1" "app-1" "job-a" "" "Developer"
           "Acme" "");
    [reflexivity | cbn; auto 10].
Defined.

(** * The salary check of the job schema *)

Lemma Prim2SF_not_nan x : PrimFloat.is_nan x = false -> Prim2SF x <> S754_nan.
Proof.
  intro H. unfold Prim2SF. rewrite H.
  destruct (PrimFloat.is_zero x); [discriminate|].
  destruct (PrimFloat.is_infinity x); [discriminate|].
  destruct (Z.frexp x) as [r e].
  destruct (shr_fexp prec emax _ _ _) as [shr e'].
  destruct (shr_m shr); discriminate.
Qed.

Lemma SFcompare_swap a b :
  SFcompare b a = option_map CompOpp (SFcompare a b).
Proof.
  destruct a as [sa|sa| |sa ma ea], b as [sb|sb| |sb mb eb]; simpl;
    try destruct sa; try destruct sb; simpl; try reflexivity;
    change (Pos.compare_cont Eq) with Pos.compare;
    rewrite (Z.compare_antisym ea eb), (Pos.compare_antisym ma mb);
    destruct (ea ?= eb)%Z; simpl; try reflexivity;
    destruct (ma ?= mb)%positive; reflexivity.
Qed.

Lemma not_ltb_leb a b :
  PrimFloat.is_nan a = false -> PrimFloat.is_nan b = false ->
  PrimFloat.ltb b a = false -> PrimFloat.leb a b = true.
Proof.
  intros Ha Hb. apply Prim2SF_not_nan in Ha, Hb.
  rewrite FloatAxioms.ltb_spec, FloatAxioms.leb_spec. unfold SFltb, SFleb.
  rewrite (SFcompare_swap (Prim2SF a) (Prim2SF b)).
  destruct (SFcompare (Prim2SF a) (Prim2SF b)) as [[| |]|] eqn:Hc; simpl;
    try reflexivity; try discriminate.
  destruct (Prim2SF a), (Prim2SF b); try congruence; discriminate Hc.
Qed.

(** X17.  The pre-save hook of the job schema makes exactly two calls, the
    error and then a plain [next()], when both salary bounds are stored and
    truthy and [min > max]; for every other job (no salary, a bound missing,
    zero or NaN, or [min] not above [max]) it makes the single call
    [next()].  So a job with two truthy bounds that passes with the single
    call has [min <= max]. *)
Theorem salary_range_hook :
  forall job,
    (invertedRange job ->
       salaryRangeHook job
       = [Some "Minimum salary cannot be greater than maximum salary"; None])
    /\ (~ invertedRange job -> salaryRangeHook job = [None])
    /\ (forall sal lo hi,
          Job.salary job = Some sal ->
          Salary.min sal = Some lo -> Salary.max sal = Some hi ->
          JS.truthy lo = true -> JS.truthy hi = true ->
          salaryRangeHook job = [None] -> PrimFloat.leb lo hi = true).
Proof.
  intro job. unfold salaryRangeHook. cbv zeta. split; [|split].
  - intros (sal & lo & hi & Hsal & Hlo & Hhi & Htlo & Hthi & Hgt).
    now rewrite Hsal, Hlo, Hhi, Htlo, Hthi, Hgt.
  - intro Hnot.
    destruct (Job.salary job) as [sal|] eqn:Hsal; [|reflexivity].
    destruct (Salary.min sal) as [lo|] eqn:Hlo; [|reflexivity].
    destruct (Salary.max sal) as [hi|] eqn:Hhi; [|reflexivity].
    destruct (JS.truthy lo) eqn:Htlo; [|reflexivity].
    destruct (JS.truthy hi) eqn:Hthi; [|reflexivity].
    destruct (JS.gt lo hi) eqn:Hgt; [|reflexivity].
    exfalso. apply Hnot. exists sal, lo, hi. auto 10.
  - intros sal lo hi Hsal Hlo Hhi Htlo Hthi.
    rewrite Hsal, Hlo, Hhi, Htlo, Hthi. cbn [andb].
    unfold JS.truthy in Htlo, Hthi.
    apply andb_prop in Htlo, Hthi. destruct Htlo as [Hnlo _], Hthi as [Hnhi _].
    apply negb_true_iff in Hnlo, Hnhi.
    unfold JS.gt. destruct (PrimFloat.ltb hi lo) eqn:Hlt; simpl.
    + discriminate.
    + intros _. now apply not_ltb_leb.
Qed.

Lemma salary_range_hook_witness :
  salaryRangeHook invertedRangeJob
  = [Some "Minimum salary cannot be greater than maximum salary"; None]
  /\ salaryRangeHook bareJob = [None]
  /\ PrimFloat.leb 90000 120000 = true.
Proof.
  split; [|split].
  - apply (proj1 (salary_range_hook invertedRangeJob)).
    exists {| Salary.min := Some 90000%float; Salary.max := Some 50000%float |},
           90000%float, 50000%float.
    repeat split; reflexivity.
  - apply (proj1 (proj2 (salary_range_hook bareJob))).
    intros (sal & lo & hi & Hsal & _). discriminate Hsal.
  - apply (proj2 (proj2 (salary_range_hook seniorJob))
             {| Salary.min := Some 90000%float; Salary.max := Some 120000%float |});
      reflexivity.
Defined.

(** An inverted range is reported first and followed by a plain [next()]. *)
Example inverted_range_is_reported :
  salaryRangeHook invertedRangeJob
  = [Some "Minimum salary cannot be greater than maximum salary"; None].
Proof. vm_compute. reflexivity. Qed.

(** * Application status changes *)

Lemma existsb_eqb_In (s : string) (l : list string) :
  existsb (String.eqb s) l = true <-> In s l.
Proof.
  rewrite existsb_exists. split.
  - intros (x & Hin & Heq). apply String.eqb_eq in Heq. now subst.
  - intro Hin. exists s. split; [assumption|apply String.eqb_refl].
Qed.

Lemma findApplication_id site id a :
  findApplication site id = Some a -> ApplicationDoc._id a = id.
Proof.
  unfold findApplication. intro H. apply find_some in H.
  now apply String.eqb_eq.
Qed.

(** Replacing the document of an id: that id then finds the new document,
    and every other id finds what it found before. *)
Lemma find_replaced (docs : list ApplicationDoc.t) (saved : ApplicationDoc.t) :
  let id := ApplicationDoc._id saved in
  let docs' := map (fun a => if String.eqb (ApplicationDoc._id a) id then saved else a) docs in
  (forall a, find (fun a => String.eqb (ApplicationDoc._id a) id) docs = Some a ->
             find (fun a => String.eqb (ApplicationDoc._id a) id) docs' = Some saved)
  /\ (forall other, other <> id ->
        find (fun a => String.eqb (ApplicationDoc._id a) other) docs'
        = find (fun a => String.eqb (ApplicationDoc._id a) other) docs).
Proof.
  intros id docs'. subst docs'. split.
  - intros a0. induction docs as [|a l IH]; [discriminate|].
    simpl. destruct (String.eqb (ApplicationDoc._id a) id) eqn:Ha.
    + intros _. fold id. now rewrite String.eqb_refl.
    + rewrite Ha. exact IH.
  - intros other Hother.
    induction docs as [|a l IH]; [reflexivity|].
    simpl. destruct (String.eqb (ApplicationDoc._id a) id) eqn:Ha.
    + apply String.eqb_eq in Ha. fold id. rewrite Ha.
      assert (String.eqb id other = false) as -> by (apply String.eqb_neq; congruence).
      exact IH.
    + destruct (String.eqb (ApplicationDoc._id a) other); [reflexivity|exact IH].
Qed.

Lemma preSave_id saveTime loaded application :
  ApplicationDoc._id (ApplicationDoc.preSave saveTime loaded application)
  = ApplicationDoc._id application.
Proof. unfold ApplicationDoc.preSave. now destruct (negb _). Qed.

(** After a save the document found under its id is the saved one, and
    every other id finds what it found before. *)
Lemma find_after_save saveTime loaded application site id :
  findApplication site id = Some loaded ->
  ApplicationDoc._id application = id ->
  findApplication (snd (saveApplication saveTime loaded application site)) id
  = Some (fst (saveApplication saveTime loaded application site))
  /\ forall other, other <> id ->
       findApplication (snd (saveApplication saveTime loaded application site)) other
       = findApplication site other.
Proof.
  intros Hfind Hid.
  pose proof (find_replaced (applicationDocs site)
                (ApplicationDoc.preSave saveTime loaded application)) as H.
  cbv zeta in H. rewrite preSave_id, Hid in H. destruct H as [H1 H2].
  unfold findApplication, saveApplication in *. cbn [fst snd applicationDocs].
  rewrite preSave_id, Hid. split; [now apply (H1 loaded)|exact H2].
Qed.

Lemma createNotification_valid store options :
  reachable store = true ->
  Notification.valid options = true ->
  createNotification store options
  = (Some options, {| reachable := true; stored := (stored store ++ [options])%list |}).
Proof.
  intros Hreach Hvalid. unfold createNotification, Notification_create.
  now rewrite Hvalid, Hreach.
Qed.

(** What the hook leaves after a controller has set a status. *)
Lemma preSave_setStatus saveTime loaded newStatus entry :
  let saved :=
    ApplicationDoc.preSave saveTime loaded (ApplicationDoc.setStatus loaded newStatus entry) in
  ApplicationDoc._id saved = ApplicationDoc._id loaded
  /\ ApplicationDoc.job saved = ApplicationDoc.job loaded
  /\ ApplicationDoc.jobSeeker saved = ApplicationDoc.jobSeeker loaded
  /\ ApplicationDoc.employer saved = ApplicationDoc.employer loaded
  /\ ApplicationDoc.status saved = newStatus
  /\ ApplicationDoc.statusHistory saved
     = (ApplicationDoc.statusHistory loaded
        ++ entry :: (if String.eqb newStatus (ApplicationDoc.status loaded) then []
                     else [hookEntry newStatus saveTime]))%list.
Proof.
  unfold ApplicationDoc.preSave, ApplicationDoc.setStatus, hookEntry.
  cbn [ApplicationDoc.status ApplicationDoc.statusHistory].
  destruct (String.eqb newStatus (ApplicationDoc.status loaded));
    cbn [negb ApplicationDoc._id ApplicationDoc.job ApplicationDoc.jobSeeker
         ApplicationDoc.employer ApplicationDoc.status ApplicationDoc.statusHistory];
    repeat split; try reflexivity.
  now rewrite <- app_assoc.
Qed.

Lemma update_success site userId id status note now saveTime loaded :
  In status validStatuses ->
  online site = true ->
  findApplication site id = Some loaded ->
  ApplicationDoc.employer loaded = userId ->
  let saved :=
    ApplicationDoc.preSave saveTime loaded
      (ApplicationDoc.setStatus loaded status (controllerEntry status now userId note)) in
  exists n site',
    updateApplicationStatus site userId id status note now saveTime
    = ({| code := 200; success := true; responseMessage := "Application status updated";
          data := Some saved |}, site')
    /\ online site' = true
    /\ findApplication site' id = Some saved
    /\ (forall other, other <> id -> findApplication site' other = findApplication site other)
    /\ jobDocs site' = jobDocs site
    /\ inbox site' = (inbox site ++ [n])%list
    /\ Notification.recipient n = ApplicationDoc.jobSeeker loaded
    /\ In (Notification.type n) Notification.types.
Proof.
  intros Hvalid Honline Hfind Howner saved.
  pose proof (findApplication_id _ _ _ Hfind) as Hid.
  destruct (find_after_save saveTime loaded
              (ApplicationDoc.setStatus loaded status (controllerEntry status now userId note))
              site id Hfind Hid) as [Hfound Hothers].
  destruct (preSave_setStatus saveTime loaded status (controllerEntry status now userId note))
    as (_ & _ & Hseeker & _).
  unfold updateApplicationStatus, updateApplicationStatusUnder, steady.
  cbn [lookupRejects saveRejects jobRejects employerRejects notificationRejects].
  rewrite (proj2 (existsb_eqb_In status validStatuses) Hvalid), Honline, Hfind.
  rewrite <- Howner, String.eqb_refl. cbn [negb].
  fold (controllerEntry status now (ApplicationDoc.employer loaded) note).
  rewrite Howner in *.
  destruct (saveApplication saveTime loaded _ site) as [application site1] eqn:Hsave.
  cbn [fst snd] in Hfound, Hothers.
  pose proof Hsave as Hsave'.
  assert (application = saved) as ->.
  { apply (f_equal fst) in Hsave. cbn [fst saveApplication] in Hsave.
    now rewrite <- Hsave. }
  assert (jobDocs site1 = jobDocs site /\ inbox site1 = inbox site
          /\ online site1 = true) as (Hjobs & Hinbox & Honline1).
  { apply (f_equal snd) in Hsave'. cbn [snd saveApplication] in Hsave'.
    rewrite <- Hsave'. cbn. auto. }
  unfold notifyApplicationStatus.
  match goal with
  | |- context [createNotification ?s ?o] =>
      assert (Notification.valid o = true) as Hok;
      [|rewrite (createNotification_valid s o eq_refl Hok); exists o; eexists]
  end.
  { simpl in Hvalid.
    destruct Hvalid as [<-|[<-|[<-|[<-|[<-|[<-|[]]]]]]]; reflexivity. }
  split; [reflexivity|].
  cbn [online jobDocs inbox stored Notification.recipient Notification.type].
  rewrite Hinbox.
  split; [exact Honline1|]. split; [exact Hfound|]. split; [exact Hothers|].
  split; [exact Hjobs|]. split; [reflexivity|]. split; [exact Hseeker|].
  simpl in Hvalid. clear -Hvalid.
  destruct Hvalid as [<-|[<-|[<-|[<-|[<-|[<-|[]]]]]]]; cbn; auto 15.
Qed.

(** X18.  [updateApplicationStatus] answers 200 exactly when the status is
    one of the six it accepts ('withdrawn' is not), none of the four awaited
    operations rejects, and the application exists and belongs to the
    calling employer; the current status of the application is never
    consulted.  It answers 400, 404 or 403 without changing anything.  It
    answers 500 when an awaited operation rejects: without changing anything
    if that is the lookup or the save, but with the new status already
    stored, and no notification, if it is the lookup of the job or of the
    employer's profile, which follow the save. *)
Theorem update_status_outcome :
  forall rejects site userId id status note now saveTime,
    let result :=
      updateApplicationStatusUnder rejects site userId id status note now saveTime in
    (code (fst result) = 200%Z <->
       In status validStatuses
       /\ lookupRejects rejects = false /\ saveRejects rejects = false
       /\ jobRejects rejects = false /\ employerRejects rejects = false
       /\ exists a, findApplication site id = Some a
                    /\ ApplicationDoc.employer a = userId)
    /\ In (code (fst result)) [200; 400; 500; 404; 403]%Z
    /\ (code (fst result) <> 200%Z -> data (fst result) = None)
    /\ (In (code (fst result)) [400; 404; 403]%Z -> snd result = site)
    /\ (code (fst result) = 500%Z ->
        (lookupRejects rejects = true \/ saveRejects rejects = true -> snd result = site)
        /\ (lookupRejects rejects = false -> saveRejects rejects = false ->
            exists a saved,
              findApplication site id = Some a
              /\ saved = ApplicationDoc.preSave saveTime a
                           (ApplicationDoc.setStatus a status
                              (controllerEntry status now userId note))
              /\ findApplication (snd result) id = Some saved
              /\ ApplicationDoc.status saved = status
              /\ inbox (snd result) = inbox site)).
Proof.
  intros rejects site userId id status note now saveTime.
  unfold updateApplicationStatusUnder.
  assert (forall c m, c <> 200%Z -> In c [400; 404; 403]%Z ->
            let result := (failure c m, site) in
            (code (fst result) = 200%Z <-> False)
            /\ In (code (fst result)) [200; 400; 500; 404; 403]%Z
            /\ (code (fst result) <> 200%Z -> data (fst result) = None)
            /\ (In (code (fst result)) [400; 404; 403]%Z -> snd result = site)
            /\ (code (fst result) = 500%Z -> False)) as Hplain.
  { intros c m Hc Hin. cbn [fst snd code data failure].
    split; [tauto|]. split; [simpl in *; tauto|]. split; [reflexivity|].
    split; [reflexivity|]. intros ->. simpl in Hin. intuition discriminate. }
  destruct (existsb (String.eqb status) validStatuses) eqn:Hvalid; cbn [negb].
  2:{ destruct (Hplain 400%Z "Invalid status") as (H1 & H2 & H3 & H4 & H5);
        [discriminate|simpl; auto|].
      split; [|split; [exact H2|split; [exact H3|split; [exact H4|]]]].
      - split; [intro H; now apply H1 in H|].
        intros (Hin & _). apply existsb_eqb_In in Hin. congruence.
      - intro H. now apply H5 in H. }
  apply existsb_eqb_In in Hvalid.
  destruct (lookupRejects rejects) eqn:Hlookup.
  { cbn [fst snd code data failure].
    split; [split; [discriminate|intros (_ & H & _); discriminate H]|].
    split; [simpl; auto|]. split; [reflexivity|]. split; [reflexivity|].
    intros _. split; [reflexivity|discriminate]. }
  destruct (findApplication site id) as [loaded|] eqn:Hfind.
  2:{ destruct (Hplain 404%Z "Application not found") as (H1 & H2 & H3 & H4 & H5);
        [discriminate|simpl; auto|].
      split; [|split; [exact H2|split; [exact H3|split; [exact H4|]]]].
      - split; [intro H; now apply H1 in H|].
        intros (_ & _ & _ & _ & _ & a & H & _). discriminate H.
      - intro H. now apply H5 in H. }
  destruct (String.eqb (ApplicationDoc.employer loaded) userId) eqn:Howner; cbn [negb].
  2:{ destruct (Hplain 403%Z "Not authorized to update this application")
        as (H1 & H2 & H3 & H4 & H5); [discriminate|simpl; auto|].
      split; [|split; [exact H2|split; [exact H3|split; [exact H4|]]]].
      - split; [intro H; now apply H1 in H|].
        intros (_ & _ & _ & _ & _ & a & H & Ha). injection H as <-.
        apply String.eqb_neq in Howner. contradiction.
      - intro H. now apply H5 in H. }
  apply String.eqb_eq in Howner. clear Hplain.
  destruct (saveRejects rejects) eqn:Hsave.
  { cbn [fst snd code data failure].
    split; [split; [discriminate|intros (_ & _ & H & _); discriminate H]|].
    split; [simpl; auto|]. split; [reflexivity|]. split; [reflexivity|].
    intros _. split; [reflexivity|discriminate]. }
  pose proof (findApplication_id _ _ _ Hfind) as Hid.
  fold (controllerEntry status now userId note).
  destruct (find_after_save saveTime loaded
              (ApplicationDoc.setStatus loaded status (controllerEntry status now userId note))
              site id Hfind Hid) as [Hfound _].
  destruct (preSave_setStatus saveTime loaded status (controllerEntry status now userId note))
    as (_ & _ & _ & _ & Hstatus & _).
  assert (inbox (snd (saveApplication saveTime loaded
                        (ApplicationDoc.setStatus loaded status
                           (controllerEntry status now userId note)) site))
          = inbox site) as Hinbox by reflexivity.
  destruct (saveApplication saveTime loaded _ site) as [application site1] eqn:Hsaved.
  assert (application
          = ApplicationDoc.preSave saveTime loaded
              (ApplicationDoc.setStatus loaded status
                 (controllerEntry status now userId note))) as Happ.
  { apply (f_equal fst) in Hsaved. cbn [fst saveApplication] in Hsaved. now rewrite <- Hsaved. }
  cbn [fst snd] in Hfound, Hinbox.
  assert (forall m,
            let result := (failure 500 m, site1) in
            (code (fst result) = 200%Z <-> False)
            /\ In (code (fst result)) [200; 400; 500; 404; 403]%Z
            /\ (code (fst result) <> 200%Z -> data (fst result) = None)
            /\ (In (code (fst result)) [400; 404; 403]%Z -> snd result = site)
            /\ (code (fst result) = 500%Z ->
                (false = true \/ false = true -> snd result = site)
                /\ (false = false -> false = false ->
                    exists a saved,
                      Some loaded = Some a
                      /\ saved = ApplicationDoc.preSave saveTime a
                                   (ApplicationDoc.setStatus a status
                                      (controllerEntry status now userId note))
                      /\ findApplication (snd result) id = Some saved
                      /\ ApplicationDoc.status saved = status
                      /\ inbox (snd result) = inbox site))) as Hlate.
  { intro m. cbn [fst snd code data failure].
    split; [split; [discriminate|tauto]|].
    split; [simpl; auto|]. split; [reflexivity|].
    split; [intro H; simpl in H; intuition discriminate|].
    intros _. split; [intros [H|H]; congruence|].
    intros _ _. exists loaded, application. rewrite <- Happ in Hstatus |- *.
    repeat split; assumption. }
  destruct (jobRejects rejects) eqn:Hjob.
  { destruct (Hlate "Error updating application status") as (H1 & H2 & H3 & H4 & H5).
    split; [|split; [exact H2|split; [exact H3|split; [exact H4|exact H5]]]].
    split; [intro H; now apply H1 in H|]. intros (_ & _ & _ & H & _). discriminate H. }
  destruct (employerRejects rejects) eqn:Hemployer.
  { destruct (Hlate "Error updating application status") as (H1 & H2 & H3 & H4 & H5).
    split; [|split; [exact H2|split; [exact H3|split; [exact H4|exact H5]]]].
    split; [intro H; now apply H1 in H|]. intros (_ & _ & _ & _ & H & _). discriminate H. }
  destruct (notifyApplicationStatus _ _ _ _ _ _ _) as [n notifications].
  cbn [fst snd code data].
  split; [split; [intros _|reflexivity]|].
  { repeat split; try assumption; try reflexivity. now exists loaded. }
  split; [simpl; auto|]. split; [intro H; now elim H|].
  split; [intro H; simpl in H; intuition discriminate|]. discriminate.
Qed.

Lemma update_status_outcome_witness :
  let result :=
    updateApplicationStatusUnder jobLookupRejects sampleSite "boss-1" "app-1" "reviewed"
      None jan2026 jan2026 in
  code (fst result) = 500%Z
  /\ exists a saved,
       findApplication sampleSite "app-1" = Some a
       /\ saved = ApplicationDoc.preSave jan2026 a
                    (ApplicationDoc.setStatus a "reviewed"
                       (controllerEntry "reviewed" jan2026 "boss-1" None))
       /\ findApplication (snd result) "app-1" = Some saved
       /\ ApplicationDoc.status saved = "reviewed"
       /\ inbox (snd result) = inbox sampleSite.
Proof.
  split; [reflexivity|].
  destruct (update_status_outcome jobLookupRejects sampleSite "boss-1" "app-1" "reviewed"
              None jan2026 jan2026) as (_ & _ & _ & _ & Hlate).
  destruct (Hlate eq_refl) as [_ Hstored].
  exact (Hstored eq_refl eq_refl).
Defined.



Lemma count_after_decrement site jobId other :
  applicationCountOf (decrementApplicationCount jobId site) other
  = if String.eqb other jobId
    then option_map (fun c => (c - 1)%Z) (applicationCountOf site other)
    else applicationCountOf site other.
Proof.
  unfold applicationCountOf, decrementApplicationCount. cbn [jobDocs].
  induction (jobDocs site) as [|[j c] l IH]; simpl.
  - now destruct (String.eqb other jobId).
  - destruct (String.eqb (Job._id j) jobId) eqn:Hj; cbn [fst snd].
    + apply String.eqb_eq in Hj. subst jobId.
      destruct (String.eqb (Job._id j) other) eqn:Ho.
      * apply String.eqb_eq in Ho. subst other. now rewrite String.eqb_refl.
      * exact IH.
    + destruct (String.eqb (Job._id j) other) eqn:Ho; [|exact IH].
      apply String.eqb_eq in Ho. subst other. now rewrite Hj.
Qed.

(** A withdrawal during which no awaited operation rejects. *)
Lemma withdraw_under_success rejects site userId id now saveTime loaded :
  lookupRejects rejects = false ->
  saveRejects rejects = false ->
  jobRejects rejects = false ->
  findApplication site id = Some loaded ->
  ApplicationDoc.jobSeeker loaded = userId ->
  ApplicationDoc.status loaded <> "hired" ->
  ApplicationDoc.status loaded <> "withdrawn" ->
  let saved :=
    ApplicationDoc.preSave saveTime loaded
      (ApplicationDoc.setStatus loaded "withdrawn"
         (controllerEntry "withdrawn" now userId (Some "Application withdrawn by job seeker")))
  in
  exists site',
    withdrawApplicationUnder rejects site userId id now saveTime
    = ({| code := 200; success := true;
          responseMessage := "Application withdrawn successfully";
          data := Some saved |}, site')
    /\ online site' = online site
    /\ findApplication site' id = Some saved
    /\ (forall other, other <> id -> findApplication site' other = findApplication site other)
    /\ (forall jobId,
          applicationCountOf site' jobId
          = if String.eqb jobId (ApplicationDoc.job loaded)
            then option_map (fun c => (c - 1)%Z) (applicationCountOf site jobId)
            else applicationCountOf site jobId)
    /\ inbox site' = inbox site.
Proof.
  intros Hlookup Hsave Hjobs' Hfind Hseeker Hhired Hwithdrawn saved.
  pose proof (findApplication_id _ _ _ Hfind) as Hid.
  destruct (find_after_save saveTime loaded
              (ApplicationDoc.setStatus loaded "withdrawn"
                 (controllerEntry "withdrawn" now userId
                    (Some "Application withdrawn by job seeker")))
              site id Hfind Hid) as [Hfound Hothers].
  destruct (preSave_setStatus saveTime loaded "withdrawn"
              (controllerEntry "withdrawn" now userId
                 (Some "Application withdrawn by job seeker")))
    as (_ & Hjob & _).
  unfold withdrawApplicationUnder. rewrite Hlookup, Hsave, Hjobs', Hfind.
  rewrite <- Hseeker, String.eqb_refl. cbn [negb existsb orb].
  apply String.eqb_neq in Hhired, Hwithdrawn. rewrite Hhired, Hwithdrawn.
  fold (controllerEntry "withdrawn" now (ApplicationDoc.jobSeeker loaded)
          (Some "Application withdrawn by job seeker")).
  rewrite Hseeker in *.
  destruct (saveApplication saveTime loaded _ site) as [application site1] eqn:Hsaved.
  cbn [fst snd] in Hfound, Hothers.
  pose proof Hsaved as Hsaved'.
  assert (application = saved) as ->.
  { apply (f_equal fst) in Hsaved. cbn [fst saveApplication] in Hsaved.
    now rewrite <- Hsaved. }
  assert (jobDocs site1 = jobDocs site /\ inbox site1 = inbox site
          /\ online site1 = online site) as (Hjobs & Hinbox & Honline1).
  { apply (f_equal snd) in Hsaved'. cbn [snd saveApplication] in Hsaved'.
    rewrite <- Hsaved'. cbn. auto. }
  eexists. split; [reflexivity|].
  split; [exact Honline1|]. split; [exact Hfound|]. split; [exact Hothers|].
  split; [|exact Hinbox].
  intro jobId. rewrite count_after_decrement. unfold saved. rewrite Hjob.
  unfold applicationCountOf. now rewrite Hjobs.
Qed.

Lemma withdraw_success site userId id now saveTime loaded :
  online site = true ->
  findApplication site id = Some loaded ->
  ApplicationDoc.jobSeeker loaded = userId ->
  ApplicationDoc.status loaded <> "hired" ->
  ApplicationDoc.status loaded <> "withdrawn" ->
  let saved :=
    ApplicationDoc.preSave saveTime loaded
      (ApplicationDoc.setStatus loaded "withdrawn"
         (controllerEntry "withdrawn" now userId (Some "Application withdrawn by job seeker")))
  in
  exists site',
    withdrawApplication site userId id now saveTime
    = ({| code := 200; success := true;
          responseMessage := "Application withdrawn successfully";
          data := Some saved |}, site')
    /\ online site' = true
    /\ findApplication site' id = Some saved
    /\ (forall other, other <> id -> findApplication site' other = findApplication site other)
    /\ (forall jobId,
          applicationCountOf site' jobId
          = if String.eqb jobId (ApplicationDoc.job loaded)
            then option_map (fun c => (c - 1)%Z) (applicationCountOf site jobId)
            else applicationCountOf site jobId)
    /\ inbox site' = inbox site.
Proof.
  intros Honline Hfind Hseeker Hhired Hwithdrawn saved.
  assert (forall field, field (steady site) = negb (online site) -> field (steady site) = false)
    as Hsteady by (intros field ->; now rewrite Honline).
  destruct (withdraw_under_success (steady site) site userId id now saveTime loaded
              (Hsteady lookupRejects eq_refl) (Hsteady saveRejects eq_refl)
              (Hsteady jobRejects eq_refl) Hfind Hseeker Hhired Hwithdrawn)
    as (site' & Hrun & Honline' & Hrest).
  exists site'. split; [exact Hrun|]. split; [congruence|exact Hrest].
Qed.

(** X20.  [withdrawApplication] answers 200 exactly when none of its three
    awaited operations rejects and the application exists, belongs to the
    calling job seeker and is neither hired nor withdrawn.  It answers 404,
    403 or 400 without changing anything.  It answers 500 when an awaited
    operation rejects: without changing anything if that is the lookup or
    the save, but with the status 'withdrawn' already stored and every
    counter as it was if it is the decrement, which follows the save.  On
    success the stored status is 'withdrawn', the history has grown by two
    entries (the controller's and the hook's), the application count of its
    job has dropped by one, and no other application, counter or
    notification is touched. *)
Theorem withdrawal_outcome :
  forall rejects site userId id now saveTime,
    let result := withdrawApplicationUnder rejects site userId id now saveTime in
    (code (fst result) = 200%Z <->
       lookupRejects rejects = false /\ saveRejects rejects = false
       /\ jobRejects rejects = false
       /\ exists a, findApplication site id = Some a
                    /\ ApplicationDoc.jobSeeker a = userId
                    /\ ApplicationDoc.status a <> "hired"
                    /\ ApplicationDoc.status a <> "withdrawn")
    /\ In (code (fst result)) [200; 500; 404; 403; 400]%Z
    /\ (code (fst result) <> 200%Z -> data (fst result) = None)
    /\ (In (code (fst result)) [404; 403; 400]%Z -> snd result = site)
    /\ (code (fst result) = 500%Z ->
        (lookupRejects rejects = true \/ saveRejects rejects = true -> snd result = site)
        /\ (lookupRejects rejects = false -> saveRejects rejects = false ->
            exists a saved,
              findApplication site id = Some a
              /\ saved = ApplicationDoc.preSave saveTime a
                           (ApplicationDoc.setStatus a "withdrawn"
                              (controllerEntry "withdrawn" now userId
                                 (Some "Application withdrawn by job seeker")))
              /\ findApplication (snd result) id = Some saved
              /\ ApplicationDoc.status saved = "withdrawn"
              /\ jobDocs (snd result) = jobDocs site))
    /\ (forall a,
          code (fst result) = 200%Z -> findApplication site id = Some a ->
          exists saved,
            data (fst result) = Some saved
            /\ findApplication (snd result) id = Some saved
            /\ ApplicationDoc.status saved = "withdrawn"
            /\ ApplicationDoc.statusHistory saved
               = (ApplicationDoc.statusHistory a
                  ++ [ controllerEntry "withdrawn" now userId
                         (Some "Application withdrawn by job seeker");
                       hookEntry "withdrawn" saveTime ])%list
            /\ applicationCountOf (snd result) (ApplicationDoc.job a)
               = option_map (fun c => (c - 1)%Z)
                   (applicationCountOf site (ApplicationDoc.job a))
            /\ (forall other, other <> id ->
                  findApplication (snd result) other = findApplication site other)
            /\ (forall jobId, jobId <> ApplicationDoc.job a ->
                  applicationCountOf (snd result) jobId = applicationCountOf site jobId)
            /\ inbox (snd result) = inbox site).
Proof.
  intros rejects site userId id now saveTime result.
  assert (code (fst result) = 200%Z ->
          lookupRejects rejects = false /\ saveRejects rejects = false
          /\ jobRejects rejects = false
          /\ exists a, findApplication site id = Some a
                       /\ ApplicationDoc.jobSeeker a = userId
                       /\ ApplicationDoc.status a <> "hired"
                       /\ ApplicationDoc.status a <> "withdrawn") as Honly.
  { unfold result, withdrawApplicationUnder.
    destruct (lookupRejects rejects); [discriminate|].
    destruct (findApplication site id) as [loaded|]; [|discriminate].
    destruct (String.eqb (ApplicationDoc.jobSeeker loaded) userId) eqn:Howner;
      cbn [negb]; [|discriminate].
    cbn [existsb orb].
    destruct (String.eqb (ApplicationDoc.status loaded) "hired") eqn:Hh;
      [discriminate|].
    destruct (String.eqb (ApplicationDoc.status loaded) "withdrawn") eqn:Hw;
      [discriminate|].
    destruct (saveRejects rejects); [discriminate|].
    destruct (saveApplication _ _ _ _) as [application site1].
    destruct (jobRejects rejects); [discriminate|].
    intros _. repeat split. exists loaded.
    apply String.eqb_eq in Howner. apply String.eqb_neq in Hh, Hw. auto. }
  split; [split; [exact Honly|]|].
  { intros (Hlookup & Hsave & Hjob & a & Hfind & Hseeker & Hh & Hw).
    destruct (withdraw_under_success rejects site userId id now saveTime a
                Hlookup Hsave Hjob Hfind Hseeker Hh Hw) as (site' & Hrun & _).
    unfold result. now rewrite Hrun. }
  assert (In (code (fst result)) [200; 500; 404; 403; 400]%Z
          /\ (code (fst result) <> 200%Z -> data (fst result) = None)
          /\ (In (code (fst result)) [404; 403; 400]%Z -> snd result = site)
          /\ (code (fst result) = 500%Z ->
              (lookupRejects rejects = true \/ saveRejects rejects = true
               -> snd result = site)
              /\ (lookupRejects rejects = false -> saveRejects rejects = false ->
                  exists a saved,
                    findApplication site id = Some a
                    /\ saved = ApplicationDoc.preSave saveTime a
                                 (ApplicationDoc.setStatus a "withdrawn"
                                    (controllerEntry "withdrawn" now userId
                                       (Some "Application withdrawn by job seeker")))
                    /\ findApplication (snd result) id = Some saved
                    /\ ApplicationDoc.status saved = "withdrawn"
                    /\ jobDocs (snd result) = jobDocs site))) as Hcodes.
  { clear Honly. unfold result, withdrawApplicationUnder.
    destruct (lookupRejects rejects) eqn:Hlookup.
    { cbn [fst snd code data failure]. split; [simpl; auto|]. split; [reflexivity|].
      split; [reflexivity|]. intros _. split; [reflexivity|discriminate]. }
    destruct (findApplication site id) as [loaded|] eqn:Hfind.
    2:{ cbn [fst snd code data failure]. split; [simpl; auto|]. split; [reflexivity|].
        split; [reflexivity|]. discriminate. }
    destruct (String.eqb (ApplicationDoc.jobSeeker loaded) userId) eqn:Howner; cbn [negb].
    2:{ cbn [fst snd code data failure]. split; [simpl; auto|]. split; [reflexivity|].
        split; [reflexivity|]. discriminate. }
    destruct (existsb _ _) eqn:Hfinal.
    { cbn [fst snd code data failure]. split; [simpl; auto 10|]. split; [reflexivity|].
      split; [reflexivity|]. discriminate. }
    destruct (saveRejects rejects) eqn:Hsave.
    { cbn [fst snd code data failure]. split; [simpl; auto|]. split; [reflexivity|].
      split; [reflexivity|]. intros _. split; [reflexivity|discriminate]. }
    pose proof (findApplication_id _ _ _ Hfind) as Hid.
    fold (controllerEntry "withdrawn" now userId
            (Some "Application withdrawn by job seeker")).
    destruct (find_after_save saveTime loaded
                (ApplicationDoc.setStatus loaded "withdrawn"
                   (controllerEntry "withdrawn" now userId
                      (Some "Application withdrawn by job seeker")))
                site id Hfind Hid) as [Hfound _].
    destruct (preSave_setStatus saveTime loaded "withdrawn"
                (controllerEntry "withdrawn" now userId
                   (Some "Application withdrawn by job seeker")))
      as (_ & _ & _ & _ & Hstatus & _).
    assert (jobDocs (snd (saveApplication saveTime loaded
                            (ApplicationDoc.setStatus loaded "withdrawn"
                               (controllerEntry "withdrawn" now userId
                                  (Some "Application withdrawn by job seeker"))) site))
            = jobDocs site) as Hjobs by reflexivity.
    destruct (saveApplication saveTime loaded _ site) as [application site1] eqn:Hsaved.
    assert (application
            = ApplicationDoc.preSave saveTime loaded
                (ApplicationDoc.setStatus loaded "withdrawn"
                   (controllerEntry "withdrawn" now userId
                      (Some "Application withdrawn by job seeker")))) as Happ.
    { apply (f_equal fst) in Hsaved. cbn [fst saveApplication] in Hsaved.
      now rewrite <- Hsaved. }
    cbn [fst snd] in Hfound, Hjobs.
    destruct (jobRejects rejects) eqn:Hjob.
    - cbn [fst snd code data failure]. split; [simpl; auto|]. split; [reflexivity|].
      split; [intro H; simpl in H; intuition discriminate|].
      intros _. split; [intros [H|H]; discriminate H|].
      intros _ _. exists loaded, application. rewrite <- Happ in Hstatus |- *.
      repeat split; assumption.
    - cbn [fst snd code data]. split; [simpl; auto|]. split; [intro H; now elim H|].
      split; [intro H; simpl in H; intuition discriminate|]. discriminate. }
  destruct Hcodes as (H1 & H2 & H3 & H4).
  split; [exact H1|]. split; [exact H2|]. split; [exact H3|]. split; [exact H4|].
  intros a Hok Hfind.
  destruct (Honly Hok) as (Hlookup & Hsave & Hjob & a' & Hfind' & Hseeker & Hh & Hw).
  rewrite Hfind in Hfind'. injection Hfind' as <-.
  destruct (withdraw_under_success rejects site userId id now saveTime a
              Hlookup Hsave Hjob Hfind Hseeker Hh Hw)
    as (site' & Hrun & _ & Hfound & Hothers & Hcount & Hinbox).
  destruct (preSave_setStatus saveTime a "withdrawn"
              (controllerEntry "withdrawn" now userId
                 (Some "Application withdrawn by job seeker")))
    as (_ & _ & _ & _ & Hstatus & Hhistory).
  apply String.eqb_neq in Hw. rewrite String.eqb_sym in Hw. rewrite Hw in Hhistory.
  unfold result. rewrite Hrun. cbn [fst snd data].
  eexists. split; [reflexivity|]. split; [exact Hfound|]. split; [exact Hstatus|].
  split; [exact Hhistory|]. split.
  { rewrite Hcount. now rewrite String.eqb_refl. }
  split; [exact Hothers|]. split; [|exact Hinbox].
  intros jobId Hne. rewrite Hcount.
  apply String.eqb_neq in Hne. now rewrite Hne.
Qed.

Lemma withdrawal_outcome_witness :
  let result :=
    withdrawApplicationUnder jobLookupRejects sampleSite "user-1" "app-1" jan2026 jan2026 in
  code (fst result) = 500%Z
  /\ exists a saved,
       findApplication sampleSite "app-1" = Some a
       /\ saved = ApplicationDoc.preSave jan2026 a
                    (ApplicationDoc.setStatus a "withdrawn"
                       (controllerEntry "withdrawn" jan2026 "user-1"
                          (Some "Application withdrawn by job seeker")))
       /\ findApplication (snd result) "app-1" = Some saved
       /\ ApplicationDoc.status saved = "withdrawn"
       /\ jobDocs (snd result) = jobDocs sampleSite.
Proof.
  split; [reflexivity|].
  destruct (withdrawal_outcome jobLookupRejects sampleSite "user-1" "app-1" jan2026 jan2026)
    as (_ & _ & _ & _ & Hlate & _).
  destruct (Hlate eq_refl) as [_ Hstored].
  exact (Hstored eq_refl eq_refl).
Defined.

(** X21.  Withdrawal is not final and the counter is not guarded: after a
    job seeker has withdrawn, the employer can set the application back to
    any accepted status and the job seeker can withdraw it again, each
    withdrawal taking one off the job's application count; one application
    thus lowers the count by two. *)
Theorem withdrawn_application_can_be_withdrawn_again :
  forall site seeker employerId id status note now saveTime a,
    online site = true ->
    findApplication site id = Some a ->
    ApplicationDoc.jobSeeker a = seeker ->
    ApplicationDoc.employer a = employerId ->
    ApplicationDoc.status a <> "hired" ->
    ApplicationDoc.status a <> "withdrawn" ->
    In status validStatuses -> status <> "hired" ->
    let first := withdrawApplication site seeker id now saveTime in
    let reopened := updateApplicationStatus (snd first) employerId id status note now saveTime in
    let second := withdrawApplication (snd reopened) seeker id now saveTime in
    code (fst first) = 200%Z
    /\ code (fst reopened) = 200%Z
    /\ code (fst second) = 200%Z
    /\ applicationCountOf (snd second) (ApplicationDoc.job a)
       = option_map (fun c => (c - 2)%Z) (applicationCountOf site (ApplicationDoc.job a)).
Proof.
  intros site seeker employerId id status note now saveTime a
    Honline Hfind Hseeker Hemployer Hh Hw Hvalid Hnothired first reopened second.
  destruct (withdraw_success site seeker id now saveTime a Honline Hfind Hseeker Hh Hw)
    as (s1 & Hrun1 & Honline1 & Hfound1 & _ & Hcount1 & _).
  destruct (preSave_setStatus saveTime a "withdrawn"
              (controllerEntry "withdrawn" now seeker
                 (Some "Application withdrawn by job seeker")))
    as (_ & Hjob1 & Hseeker1 & Hemployer1 & _).
  set (a1 := ApplicationDoc.preSave saveTime a _) in *.
  assert (ApplicationDoc.employer a1 = employerId) as Hemp1 by congruence.
  destruct (update_success s1 employerId id status note now saveTime a1
              Hvalid Honline1 Hfound1 Hemp1)
    as (n & s2 & Hrun2 & Honline2 & Hfound2 & _ & Hjobs2 & _).
  destruct (preSave_setStatus saveTime a1 status
              (controllerEntry status now employerId note))
    as (_ & Hjob2 & Hseeker2 & _ & Hstatus2 & _).
  set (a2 := ApplicationDoc.preSave saveTime a1 _) in *.
  assert (ApplicationDoc.jobSeeker a2 = seeker) as Hsk2 by congruence.
  assert (ApplicationDoc.status a2 <> "hired") as Hh2 by congruence.
  assert (ApplicationDoc.status a2 <> "withdrawn") as Hw2.
  { rewrite Hstatus2. intros ->. simpl in Hvalid.
    destruct Hvalid as [H|[H|[H|[H|[H|[H|[]]]]]]]; discriminate H. }
  destruct (withdraw_success s2 seeker id now saveTime a2 Honline2 Hfound2 Hsk2 Hh2 Hw2)
    as (s3 & Hrun3 & _ & _ & _ & Hcount3 & _).
  unfold second, reopened, first. rewrite Hrun1. cbn [fst snd code].
  rewrite Hrun2. cbn [fst snd code]. rewrite Hrun3. cbn [fst snd code].
  repeat split.
  rewrite Hcount3. rewrite Hjob2, Hjob1, String.eqb_refl.
  unfold applicationCountOf at 1. rewrite Hjobs2.
  fold (applicationCountOf s1 (ApplicationDoc.job a)).
  rewrite Hcount1, String.eqb_refl.
  destruct (applicationCountOf site (ApplicationDoc.job a)) as [c|]; [|reflexivity].
  cbn [option_map]. f_equal. lia.
Qed.

Lemma withdrawn_application_can_be_withdrawn_again_witness :
  let first := withdrawApplication sampleSite "user-1" "app-1" jan2026 jan2026 in
  let reopened :=
    updateApplicationStatus (snd first) "boss-1" "app-1" "pending" None jan2026 jan2026 in
  let second := withdrawApplication (snd reopened) "user-1" "app-1" jan2026 jan2026 in
  code (fst first) = 200%Z
  /\ code (fst reopened) = 200%Z
  /\ code (fst second) = 200%Z
  /\ applicationCountOf (snd second) "job-a"
     = option_map (fun c => (c - 2)%Z) (applicationCountOf sampleSite "job-a").
Proof.
  apply (withdrawn_application_can_be_withdrawn_again sampleSite "user-1" "boss-1" "app-1"
           "pending" None jan2026 jan2026
           {| ApplicationDoc._id := "app-1"; ApplicationDoc.job := "job-a";
              ApplicationDoc.jobSeeker := "user-1"; ApplicationDoc.employer := "boss-1";
              ApplicationDoc.status := "pending";
              ApplicationDoc.statusHistory := [hookEntry "pending" dec2025] |});
    try reflexivity; try discriminate.
  cbn. auto.
Defined.

(** * The order of the reasons *)

Lemma pushIf_suffix c r :
  exists x, (forall l, pushIf c r l = (l ++ x)%list) /\ (x = [] \/ x = [r]).
Proof.
  destruct c.
  - exists [r]. split; [reflexivity|now right].
  - exists []. split; [intro l; symmetry; apply app_nil_r|now left].
Qed.

Lemma no_suffix {A} : exists x : list A, (forall l, l = (l ++ x)%list) /\ x = [].
Proof. exists []. split; [intro l; symmetry; apply app_nil_r|reflexivity]. Qed.

(** Closes [exists x, (forall l, f l = l ++ x) /\ form x] once the suffix
    is known. *)
Ltac exists_suffix Hx :=
  eexists; split; [exact Hx|]; eauto.

(** X22.  The reasons come in a fixed order, at most one of each kind:
    skills, years of experience, remote work or location, preferred job
    type, salary; "New opportunity" stands in only when none of them is
    given. *)
Theorem reasons_in_fixed_order :
  forall now job profile,
    exists skills years place type salary : list string,
      (skills = [] \/ exists s, skills = [("Skills match: " ++ s)%string])
      /\ (years = [] \/ exists s, years = [(s ++ " years of experience")%string])
      /\ (place = [] \/ place = ["Remote work available"]
          \/ place = ["Location matches preference"])
      /\ (type = [] \/ exists s, type = [("Matches preferred job type: " ++ s)%string])
      /\ (salary = [] \/ salary = ["Salary in expected range"])
      /\ getMatchReasons now job profile
         = match (skills ++ years ++ place ++ type ++ salary)%list with
           | [] => ["New opportunity"]
           | reasons => reasons
           end.
Proof.
  intros now job profile.
  assert (exists x, (forall l, skillsReason job profile l = (l ++ x)%list)
                    /\ (x = [] \/ exists s, x = [("Skills match: " ++ s)%string]))
    as (skills & Hskills & Fskills).
  { unfold skillsReason. destruct (skillsApplies job profile).
    - cbv zeta.
      destruct (pushIf_suffix (Nat.ltb 0 (List.length
                   (matching (map JS.toLowerCase (orNil (Profile.skills profile)))
                      (map JS.toLowerCase (jobSkillsOf job)))))
                  ("Skills match: "
                   ++ JS.join ", "
                        (JS.slice0
                           (matching (map JS.toLowerCase (orNil (Profile.skills profile)))
                              (map JS.toLowerCase (jobSkillsOf job))) 3%Z))%string)
        as (x & Hx & [->| ->]); exists_suffix Hx.
    - destruct (@no_suffix string) as (x & Hx & ->). exists_suffix Hx. }
  assert (exists x, (forall l, experienceReason now profile l = (l ++ x)%list)
                    /\ (x = [] \/ exists s, x = [(s ++ " years of experience")%string]))
    as (years & Hyears & Fyears).
  { unfold experienceReason. destruct (experienceApplies profile).
    - cbv zeta.
      destruct (pushIf_suffix
                  (JS.gt (calculateTotalExperience now (Profile.experience profile)) 0)
                  (JS.Number_toString
                     (JS.Math_round
                        (calculateTotalExperience now (Profile.experience profile)))
                   ++ " years of experience")%string)
        as (x & Hx & [->| ->]); exists_suffix Hx.
    - destruct (@no_suffix string) as (x & Hx & ->). exists_suffix Hx. }
  assert (exists x, (forall l, locationReason job profile l = (l ++ x)%list)
                    /\ (x = [] \/ x = ["Remote work available"]
                        \/ x = ["Location matches preference"]))
    as (place & Hplace & Fplace).
  { unfold locationReason. destruct (isRemote job).
    - exists ["Remote work available"]. split; [reflexivity|auto].
    - destruct (Profile.location profile) as [ploc|].
      + cbv zeta.
        destruct (pushIf_suffix
                    (JS.nonEmpty (JS.toLowerCase (JS.orEmpty (city ploc)))
                     && JS.nonEmpty (jobCityOf job)
                     && (JS.includes (jobCityOf job) (JS.toLowerCase (JS.orEmpty (city ploc)))
                         || JS.includes (JS.toLowerCase (JS.orEmpty (city ploc)))
                              (jobCityOf job)))
                    "Location matches preference")
          as (x & Hx & [->| ->]); exists_suffix Hx.
      + destruct (@no_suffix string) as (x & Hx & ->). exists_suffix Hx. }
  assert (exists x, (forall l, jobTypeReason job profile l = (l ++ x)%list)
                    /\ (x = [] \/ exists s, x = [("Matches preferred job type: " ++ s)%string]))
    as (type & Htype & Ftype).
  { unfold jobTypeReason. destruct (jobTypeApplies profile).
    - destruct (pushIf_suffix
                  (JS.arrayIncludes (orNil (Profile.preferredJobTypes profile))
                     (Job.jobType job))
                  ("Matches preferred job type: " ++ JS.orEmpty (Job.jobType job))%string)
        as (x & Hx & [->| ->]); exists_suffix Hx.
    - destruct (@no_suffix string) as (x & Hx & ->). exists_suffix Hx. }
  destruct (pushIf_suffix (salaryInRange job profile) "Salary in expected range")
    as (salary & Hsalary & Fsalary).
  exists skills, years, place, type, salary.
  repeat (split; [assumption|]).
  unfold getMatchReasons, salaryReason. cbv zeta.
  rewrite Hsalary, Htype, Hplace, Hyears, Hskills. cbn [app].
  rewrite <- !app_assoc.
  destruct (skills ++ years ++ place ++ type ++ salary)%list; reflexivity.
Qed.
